(** * Message iteration of the Telegram client: a model of
      [telethon/_client/messages.py]

    The two iterators of the module, [_MessagesIter] and [_IDsIter], are
    embedded as state-passing programs over the iterator object and a log of
    the calls made to the collaborators (entity resolver and transport).
    Python exceptions are results of the monad; the attributes assigned
    before an exception is raised stay assigned, as on the Python object. *)

From Stdlib Require Import ZArith List String Bool Lia Sorted.
Import ListNotations.
Open Scope string_scope.
Open Scope list_scope.
Open Scope Z_scope.

Set Implicit Arguments.

(** ** Numbers that may be [float('inf')]

    [limit], [left], [max_id] and [last_id] hold either an integer or
    [float('inf')]. *)

Inductive num : Type :=
| Fin (z : Z)
| Inf.

Definition num_ltb (a b : num) : bool :=
  match a, b with
  | Fin x, Fin y => x <? y
  | Fin _, Inf => true
  | Inf, _ => false
  end.

Definition num_leb (a b : num) : bool :=
  match a, b with
  | Fin x, Fin y => x <=? y
  | _, Inf => true
  | Inf, Fin _ => false
  end.

(** [min(a, n)] for an integer [n]: always an integer. *)
Definition num_min_int (a : num) (n : Z) : Z :=
  match a with
  | Fin x => Z.min x n
  | Inf => n
  end.

(** [max(a, n)] for an integer [n]. *)
Definition num_max_int (a : num) (n : Z) : num :=
  match a with
  | Fin x => Fin (Z.max x n)
  | Inf => Inf
  end.

(** [a - n], with [inf - n = inf]. *)
Definition num_sub_int (a : num) (n : Z) : num :=
  match a with
  | Fin x => Fin (x - n)
  | Inf => Inf
  end.

(** ** Exceptions and the state-and-exception monad

    [Unfinished] is not a Python exception: it stands for a nested
    traversal that the bound on chunk fetches of this model cut short
    (by lemma [date_probe_ends] that never happens). *)

Inductive rpc_error : Type :=
| MessageIdsEmptyError
| OtherRpcError (code : Z).

Inductive exn : Type :=
| StopAsyncIteration
| ValueError (msg : string)
| TypeError (msg : string)
| AttributeError (attr : string)
| RpcError (e : rpc_error)
| ResolveError (msg : string)
| Unfinished.

Inductive Res (A : Type) : Type :=
| Ok (a : A)
| Raise (e : exn).

Arguments Ok {A} a.
Arguments Raise {A} e.

Definition M (S A : Type) : Type := S -> Res A * S.

Definition ret {S A} (a : A) : M S A := fun s => (Ok a, s).

Definition bind {S A B} (m : M S A) (k : A -> M S B) : M S B :=
  fun s =>
    match m s with
    | (Ok a, s') => k a s'
    | (Raise e, s') => (Raise e, s')
    end.

Definition raise {S A} (e : exn) : M S A := fun s => (Raise e, s).

Definition get {S} : M S S := fun s => (Ok s, s).

Definition modify {S} (f : S -> S) : M S unit := fun s => (Ok tt, f s).

(** [try: m except <errors selected by h>: handler]. *)
Definition try_except {S A} (m : M S A) (h : exn -> option (M S A)) : M S A :=
  fun s =>
    match m s with
    | (Ok a, s') => (Ok a, s')
    | (Raise e, s') =>
        match h e with
        | Some handler => handler s'
        | None => (Raise e, s')
        end
    end.

Declare Scope py_scope.
Delimit Scope py_scope with py.

Notation "x <- c1 ;; c2" := (bind c1 (fun x => c2))
  (at level 61, c1 at next level, right associativity) : py_scope.
Notation "c1 ;; c2" := (bind c1 (fun _ => c2))
  (at level 61, right associativity) : py_scope.

Open Scope py_scope.

(** ** The TL types the module touches *)

Inductive datetime : Type :=
| Datetime (timestamp : Z).

Inductive InputPeer : Type :=
| InputPeerEmpty
| InputPeerSelf
| InputPeerUser (user_id : Z)
| InputPeerChat (chat_id : Z)
| InputPeerChannel (channel_id : Z).

Inductive Peer : Type :=
| PeerUser (user_id : Z)
| PeerChat (chat_id : Z)
| PeerChannel (channel_id : Z).

Definition Peer_eqb (a b : Peer) : bool :=
  match a, b with
  | PeerUser x, PeerUser y => x =? y
  | PeerChat x, PeerChat y => x =? y
  | PeerChannel x, PeerChannel y => x =? y
  | _, _ => false
  end.

Inductive _EntityType : Type :=
| USER
| CHAT
| CHANNEL.

Definition _EntityType_eqb (a b : _EntityType) : bool :=
  match a, b with
  | USER, USER | CHAT, CHAT | CHANNEL, CHANNEL => true
  | _, _ => false
  end.

(** What a caller may pass for a chat or a user: an integer identifier, a
    name, or an object.  [if entity:] is false for [None], [0] and [''],
    and true for any object. *)
Inductive EntityLike : Type :=
| EntityId (z : Z)
| EntityName (s : string)
| EntityInput (p : InputPeer).

Definition truthy_entity (e : option EntityLike) : bool :=
  match e with
  | None => false
  | Some (EntityId z) => negb (z =? 0)
  | Some (EntityName s) => negb (String.eqb s "")
  | Some (EntityInput _) => true
  end.

(** The argument when it is true, [None] when it is false. *)
Definition as_truthy (e : option EntityLike) : option EntityLike :=
  if truthy_entity e then e else None.

Inductive MessagesFilter : Type :=
| InputMessagesFilterEmpty
| InputMessagesFilterPhotos
| InputMessagesFilterVideo
| InputMessagesFilterDocument
| InputMessagesFilterUrl.

(** The [filter] argument is a filter class or an instance of one. *)
Inductive FilterArg : Type :=
| FilterClass (f : MessagesFilter)
| FilterInstance (f : MessagesFilter).

Definition is_InputMessagesFilterEmpty (f : MessagesFilter) : bool :=
  match f with
  | InputMessagesFilterEmpty => true
  | _ => false
  end.

(** A raw message of a response; [msg_empty] is
    [isinstance(message, _tl.MessageEmpty)]. *)
Record Message : Type := mkMessage {
  msg_empty : bool;
  msg_id : Z;
  msg_sender_id : option Z;
  msg_peer_id : option Peer;
  msg_date : option datetime
}.

(** A user or chat record of a response, with the identifier
    [utils.get_peer_id] gives it. *)
Record Entity : Type := mkEntity {
  entity_peer_id : Z;
  entity_title : string
}.

(** An answer of the transport.  [count] is [None] for an answer without
    that attribute.  [next_rate] is [None] for an answer without that
    attribute, [Some None] for an answer that has it with the value [None],
    and [Some (Some rate)] otherwise. *)
Inductive Response : Type :=
| MessagesNotModified (count : Z)
| Messages (count : option Z) (messages : list Message)
    (users chats : list Entity) (next_rate : option (option Z)).

(** ** Request objects

    A request is a Python object whose attributes are assigned at
    construction and reassigned between chunks.  An attribute the
    constructor does not define is [None] here (reading it raises
    [AttributeError]; assigning it defines it).  The constant fields
    [hash=0], [min_id=0], [max_id=0] and [min_date=None], which the
    iterators never read or write again, are left out. *)

Inductive RequestKind : Type :=
| SearchGlobal
| GetScheduledHistory
| GetReplies
| Search
| GetHistory.

Record MessagesRequest : Type := mkMessagesRequest {
  req_kind : RequestKind;
  req_peer : option (option EntityLike);
  req_q : option string;
  req_filter : option MessagesFilter;
  req_max_date : option (option datetime);
  req_offset_date : option (option datetime);
  req_offset_rate : option (option Z);
  req_offset_peer : option InputPeer;
  req_offset_id : option Z;
  req_add_offset : option Z;
  req_limit : option Z;
  req_msg_id : option Z;
  req_from_id : option (option InputPeer)
}.

Definition new_SearchGlobal (q : string) (f : MessagesFilter)
    (max_date : option datetime) (offset_rate : Z) (offset_peer : InputPeer)
    (offset_id limit : Z) : MessagesRequest :=
  {| req_kind := SearchGlobal; req_peer := None; req_q := Some q;
     req_filter := Some f; req_max_date := Some max_date;
     req_offset_date := None; req_offset_rate := Some (Some offset_rate);
     req_offset_peer := Some offset_peer; req_offset_id := Some offset_id;
     req_add_offset := None; req_limit := Some limit; req_msg_id := None;
     req_from_id := None |}.

Definition new_GetScheduledHistory (peer : option EntityLike) : MessagesRequest :=
  {| req_kind := GetScheduledHistory; req_peer := Some peer; req_q := None;
     req_filter := None; req_max_date := None; req_offset_date := None;
     req_offset_rate := None; req_offset_peer := None; req_offset_id := None;
     req_add_offset := None; req_limit := None; req_msg_id := None;
     req_from_id := None |}.

Definition new_GetReplies (peer : InputPeer) (msg_id offset_id : Z)
    (offset_date : option datetime) (add_offset limit : Z) : MessagesRequest :=
  {| req_kind := GetReplies; req_peer := Some (Some (EntityInput peer));
     req_q := None; req_filter := None; req_max_date := None;
     req_offset_date := Some offset_date; req_offset_rate := None;
     req_offset_peer := None; req_offset_id := Some offset_id;
     req_add_offset := Some add_offset; req_limit := Some limit;
     req_msg_id := Some msg_id; req_from_id := None |}.

Definition new_Search (peer : InputPeer) (q : string) (f : MessagesFilter)
    (max_date : option datetime) (offset_id add_offset limit : Z)
    (from_id : option InputPeer) : MessagesRequest :=
  {| req_kind := Search; req_peer := Some (Some (EntityInput peer));
     req_q := Some q; req_filter := Some f; req_max_date := Some max_date;
     req_offset_date := None; req_offset_rate := None;
     req_offset_peer := None; req_offset_id := Some offset_id;
     req_add_offset := Some add_offset; req_limit := Some limit;
     req_msg_id := None; req_from_id := Some from_id |}.

Definition new_GetHistory (peer : InputPeer) (limit : Z)
    (offset_date : option datetime) (offset_id add_offset : Z) : MessagesRequest :=
  {| req_kind := GetHistory; req_peer := Some (Some (EntityInput peer));
     req_q := None; req_filter := None; req_max_date := None;
     req_offset_date := Some offset_date; req_offset_rate := None;
     req_offset_peer := None; req_offset_id := Some offset_id;
     req_add_offset := Some add_offset; req_limit := Some limit;
     req_msg_id := None; req_from_id := None |}.

Definition with_limit (v : Z) (r : MessagesRequest) : MessagesRequest :=
  {| req_kind := req_kind r; req_peer := req_peer r; req_q := req_q r;
     req_filter := req_filter r; req_max_date := req_max_date r;
     req_offset_date := req_offset_date r; req_offset_rate := req_offset_rate r;
     req_offset_peer := req_offset_peer r; req_offset_id := req_offset_id r;
     req_add_offset := req_add_offset r; req_limit := Some v;
     req_msg_id := req_msg_id r; req_from_id := req_from_id r |}.

Definition with_add_offset (v : Z) (r : MessagesRequest) : MessagesRequest :=
  {| req_kind := req_kind r; req_peer := req_peer r; req_q := req_q r;
     req_filter := req_filter r; req_max_date := req_max_date r;
     req_offset_date := req_offset_date r; req_offset_rate := req_offset_rate r;
     req_offset_peer := req_offset_peer r; req_offset_id := req_offset_id r;
     req_add_offset := Some v; req_limit := req_limit r;
     req_msg_id := req_msg_id r; req_from_id := req_from_id r |}.

Definition with_offset_id (v : Z) (r : MessagesRequest) : MessagesRequest :=
  {| req_kind := req_kind r; req_peer := req_peer r; req_q := req_q r;
     req_filter := req_filter r; req_max_date := req_max_date r;
     req_offset_date := req_offset_date r; req_offset_rate := req_offset_rate r;
     req_offset_peer := req_offset_peer r; req_offset_id := Some v;
     req_add_offset := req_add_offset r; req_limit := req_limit r;
     req_msg_id := req_msg_id r; req_from_id := req_from_id r |}.

Definition with_max_date (v : option datetime) (r : MessagesRequest) : MessagesRequest :=
  {| req_kind := req_kind r; req_peer := req_peer r; req_q := req_q r;
     req_filter := req_filter r; req_max_date := Some v;
     req_offset_date := req_offset_date r; req_offset_rate := req_offset_rate r;
     req_offset_peer := req_offset_peer r; req_offset_id := req_offset_id r;
     req_add_offset := req_add_offset r; req_limit := req_limit r;
     req_msg_id := req_msg_id r; req_from_id := req_from_id r |}.

Definition with_offset_date (v : option datetime) (r : MessagesRequest) : MessagesRequest :=
  {| req_kind := req_kind r; req_peer := req_peer r; req_q := req_q r;
     req_filter := req_filter r; req_max_date := req_max_date r;
     req_offset_date := Some v; req_offset_rate := req_offset_rate r;
     req_offset_peer := req_offset_peer r; req_offset_id := req_offset_id r;
     req_add_offset := req_add_offset r; req_limit := req_limit r;
     req_msg_id := req_msg_id r; req_from_id := req_from_id r |}.

Definition with_offset_peer (v : InputPeer) (r : MessagesRequest) : MessagesRequest :=
  {| req_kind := req_kind r; req_peer := req_peer r; req_q := req_q r;
     req_filter := req_filter r; req_max_date := req_max_date r;
     req_offset_date := req_offset_date r; req_offset_rate := req_offset_rate r;
     req_offset_peer := Some v; req_offset_id := req_offset_id r;
     req_add_offset := req_add_offset r; req_limit := req_limit r;
     req_msg_id := req_msg_id r; req_from_id := req_from_id r |}.

Definition with_offset_rate (v : option Z) (r : MessagesRequest) : MessagesRequest :=
  {| req_kind := req_kind r; req_peer := req_peer r; req_q := req_q r;
     req_filter := req_filter r; req_max_date := req_max_date r;
     req_offset_date := req_offset_date r; req_offset_rate := Some v;
     req_offset_peer := req_offset_peer r; req_offset_id := req_offset_id r;
     req_add_offset := req_add_offset r; req_limit := req_limit r;
     req_msg_id := req_msg_id r; req_from_id := req_from_id r |}.

(** Everything the transport is asked to send. *)
Inductive Request : Type :=
| MessagesRequestOf (r : MessagesRequest)
| ChannelsGetMessages (channel : option InputPeer) (ids : list Z)
| MessagesGetMessages (ids : list Z).

(** ** Produced items

    [_custom.Message._new(client, message, entities, input_chat)]: the raw
    message with the entity map of its chunk.  The dictionary
    comprehension over [r.users] and [r.chats] is kept as the list of its
    bindings in insertion order (a later binding of a key wins). *)

Record CustomMessage : Type := mkCustomMessage {
  cm_message : Message;
  cm_entities : list (Z * Entity);
  cm_input_chat : option InputPeer
}.

Definition cm_id (m : CustomMessage) : Z := msg_id (cm_message m).
Definition cm_date (m : CustomMessage) : option datetime := msg_date (cm_message m).

(** ** The collaborators

    The client object, with the helpers of [_misc] and [_custom] the
    iterators call.  [call n request] is the answer of the transport to
    [await self.client(request)] when [n] requests were sent before it. *)

Record TelegramClient : Type := mkTelegramClient {
  get_input_entity : EntityLike -> Res InputPeer;
  get_peer_id : InputPeer -> Z;
  _get_peer : InputPeer -> Peer;
  _entity_type : InputPeer -> Res _EntityType;
  derive_input_chat : Message -> list (Z * Entity) -> option InputPeer;
  call : nat -> Request -> Res Response
}.

Inductive Event : Type :=
| EvResolve (e : EntityLike)
| EvCall (r : Request).

(** The calls made so far, oldest first. *)
Definition World : Type := list Event.

Definition is_call (e : Event) : bool :=
  match e with
  | EvCall _ => true
  | EvResolve _ => false
  end.

Definition requests_sent (w : World) : list Request :=
  flat_map (fun e => match e with EvCall r => [r] | EvResolve _ => [] end) w.

Record State (I : Type) : Type := mkState {
  self : I;
  world : World
}.

Section Client.

Variable client : TelegramClient.
Variable I : Type.

Definition get_self : M (State I) I :=
  fun s => (Ok (self s), s).

Definition modify_self (f : I -> I) : M (State I) unit :=
  fun s => (Ok tt, {| self := f (self s); world := world s |}).

Definition lift_res {A} (r : Res A) : M (State I) A :=
  fun s => (r, s).

Definition client_get_input_entity (e : EntityLike) : M (State I) InputPeer :=
  fun s =>
    (get_input_entity client e,
     {| self := self s; world := world s ++ [EvResolve e] |}).

Definition client_call (r : Request) : M (State I) Response :=
  fun s =>
    (call client (List.length (requests_sent (world s))) r,
     {| self := self s; world := world s ++ [EvCall r] |}).

Definition Message_new (message : Message) (entities : list (Z * Entity))
    (input_chat : option InputPeer) : CustomMessage :=
  {| cm_message := message;
     cm_entities := entities;
     cm_input_chat :=
       match input_chat with
       | Some p => Some p
       | None => derive_input_chat client message entities
       end |}.

End Client.

Arguments get_self {I}.
Arguments modify_self {I} f.
Arguments lift_res {I A} r.
Arguments client_get_input_entity client {I} e.
Arguments client_call client {I} r.

Definition entities_of (users chats : list Entity) : list (Z * Entity) :=
  map (fun x => (entity_peer_id x, x)) (users ++ chats).

Definition _MAX_CHUNK_SIZE : Z := 100.

(** How a traversal ended: [Exhausted] is the normal end of the sequence,
    [Failed] an exception that reached the caller, [Pending] a traversal cut
    by the bound on the number of chunk fetches of this model. *)
Inductive Ending : Type :=
| Exhausted
| Failed (e : exn)
| Pending.

(** Reading an attribute that may be undefined. *)
Definition attr {S A} (name : string) (o : option A) : M S A :=
  match o with
  | Some v => ret v
  | None => raise (AttributeError name)
  end.

(** [getattr(r, 'count', len(r.messages))]: the default is evaluated first,
    so a response without [messages] raises. *)
Definition count_or_len {S} (r : Response) : M S Z :=
  match r with
  | MessagesNotModified _ => raise (AttributeError "messages")
  | Messages (Some c) _ _ _ _ => ret c
  | Messages None ms _ _ _ => ret (Z.of_nat (List.length ms))
  end.

Definition response_messages {S} (r : Response) : M S (list Message) :=
  match r with
  | MessagesNotModified _ => raise (AttributeError "messages")
  | Messages _ ms _ _ _ => ret ms
  end.

Definition response_entities (r : Response) : list (Z * Entity) :=
  match r with
  | MessagesNotModified _ => []
  | Messages _ _ users chats _ => entities_of users chats
  end.

(** [getattr(response, 'next_rate', 0)]: the value of the attribute when
    the response has it, [None] included, and 0 only when it has no such
    attribute. *)
Definition next_rate_or_0 (r : Response) : option Z :=
  match r with
  | Messages _ _ _ _ (Some rate) => rate
  | _ => Some 0
  end.

(** Truth value of an integer attribute that may be [None]. *)
Definition truthy_int (o : option Z) : bool :=
  match o with
  | Some z => negb (z =? 0)
  | None => false
  end.

(** [a != b] for an attribute that may be [None] and an integer. *)
Definition opt_neqb (a : option Z) (b : Z) : bool :=
  match a with
  | Some x => negb (x =? b)
  | None => true
  end.

(** ** [_MessagesIter] *)

Module MessagesIter.

(** The iterator object.  The first seven attributes belong to the base
    class [RequestIter]; the others are assigned by [_init] and hold
    placeholders until then. *)
Record t : Type := mk {
  reverse : bool;
  limit : num;
  left : num;
  wait_time : option Z;
  total : option Z;
  buffer : list CustomMessage;
  terminal : bool;
  entity : option InputPeer;
  from_id : option Z;
  request : option MessagesRequest;
  add_offset : Z;
  max_id : num;
  min_id : Z;
  last_id : num
}.

Definition set_left (v : num) (s : t) : t :=
  mk (reverse s) (limit s) v (wait_time s) (total s) (buffer s) (terminal s)
     (entity s) (from_id s) (request s) (add_offset s) (max_id s) (min_id s) (last_id s).

Definition set_wait_time (v : option Z) (s : t) : t :=
  mk (reverse s) (limit s) (left s) v (total s) (buffer s) (terminal s)
     (entity s) (from_id s) (request s) (add_offset s) (max_id s) (min_id s) (last_id s).

Definition set_total (v : option Z) (s : t) : t :=
  mk (reverse s) (limit s) (left s) (wait_time s) v (buffer s) (terminal s)
     (entity s) (from_id s) (request s) (add_offset s) (max_id s) (min_id s) (last_id s).

Definition set_buffer (v : list CustomMessage) (s : t) : t :=
  mk (reverse s) (limit s) (left s) (wait_time s) (total s) v (terminal s)
     (entity s) (from_id s) (request s) (add_offset s) (max_id s) (min_id s) (last_id s).

Definition set_terminal (v : bool) (s : t) : t :=
  mk (reverse s) (limit s) (left s) (wait_time s) (total s) (buffer s) v
     (entity s) (from_id s) (request s) (add_offset s) (max_id s) (min_id s) (last_id s).

Definition set_entity (v : option InputPeer) (s : t) : t :=
  mk (reverse s) (limit s) (left s) (wait_time s) (total s) (buffer s) (terminal s)
     v (from_id s) (request s) (add_offset s) (max_id s) (min_id s) (last_id s).

Definition set_from_id (v : option Z) (s : t) : t :=
  mk (reverse s) (limit s) (left s) (wait_time s) (total s) (buffer s) (terminal s)
     (entity s) v (request s) (add_offset s) (max_id s) (min_id s) (last_id s).

Definition set_request (v : option MessagesRequest) (s : t) : t :=
  mk (reverse s) (limit s) (left s) (wait_time s) (total s) (buffer s) (terminal s)
     (entity s) (from_id s) v (add_offset s) (max_id s) (min_id s) (last_id s).

Definition set_add_offset (v : Z) (s : t) : t :=
  mk (reverse s) (limit s) (left s) (wait_time s) (total s) (buffer s) (terminal s)
     (entity s) (from_id s) (request s) v (max_id s) (min_id s) (last_id s).

Definition set_max_id (v : num) (s : t) : t :=
  mk (reverse s) (limit s) (left s) (wait_time s) (total s) (buffer s) (terminal s)
     (entity s) (from_id s) (request s) (add_offset s) v (min_id s) (last_id s).

Definition set_min_id (v : Z) (s : t) : t :=
  mk (reverse s) (limit s) (left s) (wait_time s) (total s) (buffer s) (terminal s)
     (entity s) (from_id s) (request s) (add_offset s) (max_id s) v (last_id s).

Definition set_last_id (v : num) (s : t) : t :=
  mk (reverse s) (limit s) (left s) (wait_time s) (total s) (buffer s) (terminal s)
     (entity s) (from_id s) (request s) (add_offset s) (max_id s) (min_id s) v.

(** The keyword arguments of [_init]. *)
Record kwargs : Type := mkKwargs {
  kw_entity : option EntityLike;
  kw_offset_id : Z;
  kw_min_id : Z;
  kw_max_id : Z;
  kw_from_user : option EntityLike;
  kw_offset_date : option datetime;
  kw_add_offset : Z;
  kw_filter : option FilterArg;
  kw_search : option string;
  kw_reply_to : option Z;
  kw_scheduled : bool
}.

(** Modelled from the spec: the constructor of the base class
    [RequestIter] ([_misc/requestiter.py]), which creates the iteration
    cursor: [limit] (possibly unbounded), [left] the remaining budget,
    which is never negative, the direction, the delay, an unset [total]
    and an empty buffer. *)
Definition new (reverse : bool) (wait_time : option Z) (limit : option Z) : t :=
  let lim := match limit with Some l => Fin (Z.max l 0) | None => Inf end in
  {| reverse := reverse; limit := lim; left := lim; wait_time := wait_time;
     total := None; buffer := []; terminal := false;
     entity := None; from_id := None; request := None; add_offset := 0;
     max_id := Inf; min_id := 0; last_id := Inf |}.

Definition _message_in_range (s : t) (message : Message) : bool :=
  match entity s with
  | Some _ =>
      if reverse s then
        if num_leb (Fin (msg_id message)) (last_id s)
           || num_leb (max_id s) (Fin (msg_id message))
        then false else true
      else
        if num_leb (last_id s) (Fin (msg_id message))
           || (msg_id message <=? min_id s)
        then false else true
  | None => true
  end.

Section Methods.

Variable client : TelegramClient.

Definition get_request : M (State t) MessagesRequest :=
  s <- get_self ;; attr "request" (request s).

Definition modify_request (f : MessagesRequest -> MessagesRequest)
  : M (State t) unit :=
  r <- get_request ;; modify_self (set_request (Some (f r))).

Definition _update_offset (last_message : CustomMessage) (response : Response)
  : M (State t) unit :=
  modify_request (with_offset_id (cm_id last_message)) ;;
  s <- get_self ;;
  (if reverse s then
     r <- get_request ;;
     v <- attr "offset_id" (req_offset_id r) ;;
     modify_request (with_offset_id (v + 1))
   else ret tt) ;;
  r <- get_request ;;
  (match req_kind r with
   | Search => modify_request (with_max_date None)
   | _ => modify_request (with_offset_date (cm_date last_message))
   end) ;;
  match req_kind r with
  | SearchGlobal =>
      (match cm_input_chat last_message with
       | Some chat => modify_request (with_offset_peer chat)
       | None => modify_request (with_offset_peer InputPeerEmpty)
       end) ;;
      modify_request (with_offset_rate (next_rate_or_0 response))
  | _ => ret tt
  end.

(** The loop over the messages of a chunk; [true] when the loop was
    left by [return True]. *)
Fixpoint scan_messages (entities : list (Z * Entity)) (messages : list Message)
  : M (State t) bool :=
  match messages with
  | [] => ret false
  | message :: rest =>
      s <- get_self ;;
      if msg_empty message
         || (truthy_int (from_id s)
             && match from_id s with
                | Some f => opt_neqb (msg_sender_id message) f
                | None => false
                end)
      then scan_messages entities rest
      else if negb (_message_in_range s message) then ret true
      else
        modify_self (set_last_id (Fin (msg_id message))) ;;
        modify_self (fun s =>
          set_buffer (buffer s ++ [Message_new client message entities (entity s)]) s) ;;
        scan_messages entities rest
  end.

(** [True] is [true]; falling off the end ([None]) is [false]. *)
Definition _load_next_chunk : M (State t) bool :=
  s <- get_self ;;
  modify_request (with_limit (num_min_int (left s) _MAX_CHUNK_SIZE)) ;;
  r <- get_request ;;
  lim <- attr "limit" (req_limit r) ;;
  (if reverse s && negb (lim =? _MAX_CHUNK_SIZE) then
     modify_request (with_add_offset (add_offset s - lim))
   else ret tt) ;;
  req <- get_request ;;
  r <- client_call client (MessagesRequestOf req) ;;
  n <- count_or_len r ;;
  modify_self (set_total (Some n)) ;;
  let entities := response_entities r in
  r_messages <- response_messages r ;;
  let messages := if reverse s then rev r_messages else r_messages in
  stopped <- scan_messages entities messages ;;
  if stopped then ret true
  else if Z.of_nat (List.length r_messages) <? lim then ret true
  else
    s <- get_self ;;
    match last (map Some (buffer s)) None with
    | Some last_message => _update_offset last_message r ;; ret false
    | None => ret true
    end.

Definition is_some {A} (o : option A) : bool :=
  match o with
  | Some _ => true
  | None => false
  end.

(** [search or ''] and the truth value of [search]. *)
Definition str_or_empty (s : option string) : string :=
  match s with
  | Some x => x
  | None => ""
  end.

Definition truthy_str (s : option string) : bool :=
  match s with
  | Some x => negb (String.eqb x "")
  | None => false
  end.

Definition instantiate_filter (f : option FilterArg) : MessagesFilter :=
  match f with
  | None => InputMessagesFilterEmpty
  | Some (FilterClass c) => c
  | Some (FilterInstance i) => i
  end.

(** What [async for m in self.client.iter_messages(peer, 1,
    offset_date=date)] receives: the items and how the nested
    traversal ended. *)
Variable iter_messages_1 :
  InputPeer -> datetime -> World -> (list CustomMessage * Ending) * World.

(** Lines 141-143: the loop body runs once per delivered item. *)
Definition date_workaround (peer : InputPeer) (date : datetime)
  : M (State t) unit :=
  fun st =>
    let '((items, ending), w) := iter_messages_1 peer date (world st) in
    let body :=
      fold_left
        (fun acc m => acc ;; modify_request (with_offset_id (cm_id m + 1)))
        items (ret tt) in
    (body ;;
     match ending with
     | Exhausted => ret tt
     | Failed e => raise e
     | Pending => raise Unfinished
     end) {| self := self st; world := w |}.

(** [_init] is read block by block; the local variables a block
    assigns are its result. *)

(** Lines 26-31. *)
Definition init_entity (kw : kwargs) : M (State t) unit :=
  match as_truthy (kw_entity kw) with
  | Some e =>
      p <- client_get_input_entity client e ;;
      modify_self (set_entity (Some p))
  | None =>
      modify_self (set_entity None) ;;
      s <- get_self ;;
      if reverse s then raise (ValueError "Cannot reverse global search")
      else ret tt
  end.

(** Lines 38-50: the locals [offset_id] and [max_id]. *)
Definition init_window (kw : kwargs) : M (State t) (Z * num) :=
  s <- get_self ;;
  if reverse s then
    let offset_id := Z.max (kw_offset_id kw) (kw_min_id kw) in
    (if negb (offset_id =? 0) && negb (kw_max_id kw =? 0) then
       if kw_max_id kw - offset_id <=? 1 then raise StopAsyncIteration
       else ret tt
     else ret tt) ;;
    ret (offset_id, if kw_max_id kw =? 0 then Inf else Fin (kw_max_id kw))
  else
    let offset_id := Z.max (kw_offset_id kw) (kw_max_id kw) in
    (if negb (offset_id =? 0) && negb (kw_min_id kw =? 0) then
       if offset_id - kw_min_id kw <=? 1 then raise StopAsyncIteration
       else ret tt
     else ret tt) ;;
    ret (offset_id, Fin (kw_max_id kw)).

(** Lines 52-58: the local [offset_id]. *)
Definition init_anchor (kw : kwargs) (offset_id : Z) : M (State t) Z :=
  s <- get_self ;;
  if reverse s then
    if negb (offset_id =? 0) then ret (offset_id + 1)
    else if negb (is_some (kw_offset_date kw)) then ret 1
    else ret offset_id
  else ret offset_id.

(** Lines 60-70: the local [from_user]; a false [from_user] is kept
    as [None]. *)
Definition init_from_user (kw : kwargs) : M (State t) (option InputPeer) :=
  from_user <-
    (match as_truthy (kw_from_user kw) with
     | Some u =>
         p <- client_get_input_entity client u ;;
         modify_self (set_from_id (Some (get_peer_id client p))) ;;
         ret (Some p)
     | None => modify_self (set_from_id None) ;; ret None
     end) ;;
  s <- get_self ;;
  (match entity s, from_user with
   | None, Some _ => modify_self (set_entity (Some InputPeerEmpty))
   | _, _ => ret tt
   end) ;;
  ret from_user.

(** Lines 72-154. *)
Definition init_request (kw : kwargs) (offset_id : Z)
    (from_user : option InputPeer) : M (State t) unit :=
  let filter := instantiate_filter (kw_filter kw) in
  s <- get_self ;;
  match entity s with
  | None =>
      modify_self (set_request (Some
        (new_SearchGlobal (str_or_empty (kw_search kw)) filter
           (kw_offset_date kw) 0 InputPeerEmpty offset_id 1)))
  | Some peer =>
      if kw_scheduled kw then
        modify_self (set_request (Some (new_GetScheduledHistory (kw_entity kw))))
      else
        match kw_reply_to kw with
        | Some reply_to =>
            modify_self (set_request (Some
              (new_GetReplies peer reply_to offset_id (kw_offset_date kw)
                 (kw_add_offset kw) 1)))
        | None =>
            if is_some (kw_search kw)
               || negb (is_InputMessagesFilterEmpty filter)
               || is_some from_user
            then
              ty <- lift_res (_entity_type client peer) ;;
              from_user <-
                (match ty with
                 | USER => ret None
                 | _ => modify_self (set_from_id None) ;; ret from_user
                 end) ;;
              modify_self (set_request (Some
                (new_Search peer (str_or_empty (kw_search kw)) filter
                   (kw_offset_date kw) offset_id (kw_add_offset kw) 0
                   from_user))) ;;
              (* lines 139-143 *)
              match kw_offset_date kw with
              | Some date =>
                  if negb (is_InputMessagesFilterEmpty filter)
                     && negb (truthy_str (kw_search kw))
                     && (offset_id =? 0)
                  then date_workaround peer date
                  else ret tt
              | None => ret tt
              end
            else
              modify_self (set_request (Some
                (new_GetHistory peer 1 (kw_offset_date kw) offset_id
                   (kw_add_offset kw))))
        end
  end.

(** Lines 156-163. *)
Definition init_total_only : M (State t) unit :=
  s <- get_self ;;
  if num_leb (limit s) (Fin 0) then
    req <- get_request ;;
    result <- client_call client (MessagesRequestOf req) ;;
    (match result with
     | MessagesNotModified c => modify_self (set_total (Some c))
     | _ => n <- count_or_len result ;; modify_self (set_total (Some n))
     end) ;;
    raise StopAsyncIteration
  else ret tt.

(** Lines 165-176. *)
Definition init_cursor (kw : kwargs) (max_id : num) : M (State t) unit :=
  s <- get_self ;;
  (match wait_time s with
   | None =>
       modify_self (set_wait_time
         (Some (if num_ltb (Fin 3000) (limit s) then 1 else 0)))
   | Some _ => ret tt
   end) ;;
  (if reverse s then
     r <- get_request ;;
     v <- attr "add_offset" (req_add_offset r) ;;
     modify_request (with_add_offset (v - _MAX_CHUNK_SIZE))
   else ret tt) ;;
  modify_self (set_add_offset (kw_add_offset kw)) ;;
  modify_self (set_max_id max_id) ;;
  modify_self (set_min_id (kw_min_id kw)) ;;
  modify_self (set_last_id (if reverse s then Fin 0 else Inf)).

Definition _init (kw : kwargs) : M (State t) unit :=
  init_entity kw ;;
  window <- init_window kw ;;
  offset_id <- init_anchor kw (fst window) ;;
  from_user <- init_from_user kw ;;
  init_request kw offset_id from_user ;;
  init_total_only ;;
  init_cursor kw (snd window).

(** Modelled from the spec: the pull protocol of the base class
    [RequestIter] ([_misc/requestiter.py]).  With an empty buffer, the
    sequence is exhausted when the remaining budget is zero or the
    terminal flag is set; otherwise the next chunk is loaded, the
    budget is decremented by the number of items appended to the
    buffer (never below zero), a chunk that signals it is the last one
    sets the terminal flag, and the buffer is handed to the consumer
    item by item.  An exception of the chunk fetch reaches the
    consumer.  [fuel] bounds the number of chunk fetches. *)
Fixpoint pull (fuel : nat) (st : State t)
  : (list CustomMessage * Ending) * State t :=
  match fuel with
  | O => (([], Pending), st)
  | S fuel' =>
      if num_leb (left (self st)) (Fin 0) || terminal (self st)
      then (([], Exhausted), st)
      else
        match _load_next_chunk
                {| self := set_buffer [] (self st); world := world st |} with
        | (Raise StopAsyncIteration, st') => (([], Exhausted), st')
        | (Raise e, st') => (([], Failed e), st')
        | (Ok last_chunk, st') =>
            let items := buffer (self st') in
            let budget :=
              num_max_int
                (num_sub_int (left (self st')) (Z.of_nat (List.length items))) 0 in
            let st'' :=
              {| self := set_terminal last_chunk
                           (set_buffer [] (set_left budget (self st')));
                 world := world st' |} in
            let '((rest, ending), st3) := pull fuel' st'' in
            ((items ++ rest, ending), st3)
        end
  end.

(** Modelled from the spec: a consumer that pulls until the sequence
    ends.  The first pull initialises the iterator; an [_init] that
    raises [StopAsyncIteration] ends the sequence with no item. *)
Definition run (fuel : nat) (it : t) (kw : kwargs) (w : World)
  : (list CustomMessage * Ending) * State t :=
  match _init kw {| self := it; world := w |} with
  | (Ok _, st) => pull fuel st
  | (Raise StopAsyncIteration, st) => (([], Exhausted), st)
  | (Raise e, st) => (([], Failed e), st)
  end.

End Methods.

End MessagesIter.

(** ** [_IDsIter] *)

Module IDsIter.

(** The iterator object: the attributes of the base class, then those
    assigned by [_init].  A slot of the buffer is an item or [None]. *)
Record t : Type := mk {
  reverse : bool;
  limit : num;
  left : num;
  wait_time : option Z;
  total : option Z;
  buffer : list (option CustomMessage);
  _ids : list Z;
  _offset : nat;
  _entity : option InputPeer;
  _ty : option _EntityType
}.

Definition set_wait_time (v : option Z) (s : t) : t :=
  mk (reverse s) (limit s) (left s) v (total s) (buffer s)
     (_ids s) (_offset s) (_entity s) (_ty s).

Definition set_total (v : option Z) (s : t) : t :=
  mk (reverse s) (limit s) (left s) (wait_time s) v (buffer s)
     (_ids s) (_offset s) (_entity s) (_ty s).

Definition set_buffer (v : list (option CustomMessage)) (s : t) : t :=
  mk (reverse s) (limit s) (left s) (wait_time s) (total s) v
     (_ids s) (_offset s) (_entity s) (_ty s).

Definition set__ids (v : list Z) (s : t) : t :=
  mk (reverse s) (limit s) (left s) (wait_time s) (total s) (buffer s)
     v (_offset s) (_entity s) (_ty s).

Definition set__offset (v : nat) (s : t) : t :=
  mk (reverse s) (limit s) (left s) (wait_time s) (total s) (buffer s)
     (_ids s) v (_entity s) (_ty s).

Definition set__entity (v : option InputPeer) (s : t) : t :=
  mk (reverse s) (limit s) (left s) (wait_time s) (total s) (buffer s)
     (_ids s) (_offset s) v (_ty s).

Definition set__ty (v : option _EntityType) (s : t) : t :=
  mk (reverse s) (limit s) (left s) (wait_time s) (total s) (buffer s)
     (_ids s) (_offset s) (_entity s) v.

(** Modelled from the spec: the constructor of the base class
    [RequestIter] ([_misc/requestiter.py]), as for [MessagesIter.new]. *)
Definition new (reverse : bool) (wait_time : option Z) (limit : option Z) : t :=
  let lim := match limit with Some l => Fin (Z.max l 0) | None => Inf end in
  {| reverse := reverse; limit := lim; left := lim; wait_time := wait_time;
     total := None; buffer := []; _ids := []; _offset := 0%nat;
     _entity := None; _ty := None |}.

Definition is_CHANNEL (ty : option _EntityType) : bool :=
  match ty with
  | Some CHANNEL => true
  | _ => false
  end.

(** [from_id and message.peer_id != from_id]; a [Peer] object is true. *)
Definition foreign (from_id : option Peer) (message : Message) : bool :=
  match from_id with
  | Some p =>
      match msg_peer_id message with
      | Some q => negb (Peer_eqb q p)
      | None => true
      end
  | None => false
  end.

Section Methods.

Variable client : TelegramClient.

Definition _init (entity : option EntityLike) (ids : list Z) : M (State t) unit :=
  s <- get_self ;;
  modify_self (set_total (Some (Z.of_nat (List.length ids)))) ;;
  modify_self (set__ids (if reverse s then rev ids else ids)) ;;
  modify_self (set__offset 0%nat) ;;
  (match as_truthy entity with
   | Some e =>
       p <- client_get_input_entity client e ;;
       modify_self (set__entity (Some p))
   | None => modify_self (set__entity None)
   end) ;;
  s1 <- get_self ;;
  (match _entity s1 with
   | Some p =>
       ty <- lift_res (_entity_type client p) ;;
       modify_self (set__ty (Some ty))
   | None => modify_self (set__ty None)
   end) ;;
  match wait_time s with
  | None =>
      modify_self (set_wait_time
        (Some (if num_ltb (Fin 300) (limit s) then 10 else 0)))
  | Some _ => ret tt
  end.

(** The loop of lines 313-318 over the messages of the reply. *)
Definition slots_of (s : t) (from_id : option Peer)
    (entities : list (Z * Entity)) (messages : list Message)
  : list (option CustomMessage) :=
  map (fun message =>
         if msg_empty message || foreign from_id message then None
         else Some (Message_new client message entities (_entity s)))
      messages.

Definition _load_next_chunk : M (State t) unit :=
  s <- get_self ;;
  let ids := firstn (Z.to_nat _MAX_CHUNK_SIZE) (skipn (_offset s) (_ids s)) in
  match ids with
  | [] => raise StopAsyncIteration
  | _ :: _ =>
      modify_self (set__offset (_offset s + Z.to_nat _MAX_CHUNK_SIZE)) ;;
      rf <-
        (if is_CHANNEL (_ty s) then
           r <- try_except
                  (client_call client (ChannelsGetMessages (_entity s) ids))
                  (fun e =>
                     match e with
                     | RpcError MessageIdsEmptyError =>
                         Some (ret (MessagesNotModified
                                      (Z.of_nat (List.length ids))))
                     | _ => None
                     end) ;;
           ret (r, None)
         else
           r <- client_call client (MessagesGetMessages ids) ;;
           match _entity s with
           | Some p => ret (r, Some (_get_peer client p))
           | None => ret (r, None)
           end) ;;
      match fst rf with
      | MessagesNotModified _ =>
          modify_self (fun s => set_buffer (buffer s ++ map (fun _ => None) ids) s)
      | Messages _ messages users chats _ =>
          let entities := entities_of users chats in
          modify_self (fun s =>
            set_buffer (buffer s ++ slots_of s (snd rf) entities messages) s)
      end
  end.

End Methods.

End IDsIter.

(** ** [get_messages] *)

(** [ids] is one identifier or a list of them. *)
Inductive IdsArg : Type :=
| OneId (id : Z)
| ManyIds (ids : list Z).

Record GetMessagesArgs : Type := mkGetMessagesArgs {
  ga_entity : option EntityLike;
  ga_limit : option Z;
  ga_offset_date : option datetime;
  ga_offset_id : Z;
  ga_max_id : Z;
  ga_min_id : Z;
  ga_add_offset : Z;
  ga_search : option string;
  ga_filter : option FilterArg;
  ga_from_user : option EntityLike;
  ga_wait_time : option Z;
  ga_ids : option IdsArg;
  ga_reverse : bool;
  ga_reply_to : option Z;
  ga_scheduled : bool
}.

(** The defaults of the signature, for a call [get_messages(entity, limit)]. *)
Definition default_args (entity : option EntityLike) (limit : option Z)
  : GetMessagesArgs :=
  {| ga_entity := entity; ga_limit := limit; ga_offset_date := None;
     ga_offset_id := 0; ga_max_id := 0; ga_min_id := 0; ga_add_offset := 0;
     ga_search := None; ga_filter := None; ga_from_user := None;
     ga_wait_time := None; ga_ids := None; ga_reverse := false;
     ga_reply_to := None; ga_scheduled := false |}.

Definition with_offset_date_arg (d : option datetime) (a : GetMessagesArgs)
  : GetMessagesArgs :=
  {| ga_entity := ga_entity a; ga_limit := ga_limit a; ga_offset_date := d;
     ga_offset_id := ga_offset_id a; ga_max_id := ga_max_id a;
     ga_min_id := ga_min_id a; ga_add_offset := ga_add_offset a;
     ga_search := ga_search a; ga_filter := ga_filter a;
     ga_from_user := ga_from_user a; ga_wait_time := ga_wait_time a;
     ga_ids := ga_ids a; ga_reverse := ga_reverse a;
     ga_reply_to := ga_reply_to a; ga_scheduled := ga_scheduled a |}.

(** Lines 353-369: the iterator and the keyword arguments kept for its
    [_init]. *)
Definition messages_iter_of (a : GetMessagesArgs)
  : MessagesIter.t * MessagesIter.kwargs :=
  (MessagesIter.new (ga_reverse a) (ga_wait_time a) (ga_limit a),
   {| MessagesIter.kw_entity := ga_entity a;
      MessagesIter.kw_offset_id := ga_offset_id a;
      MessagesIter.kw_min_id := ga_min_id a;
      MessagesIter.kw_max_id := ga_max_id a;
      MessagesIter.kw_from_user := ga_from_user a;
      MessagesIter.kw_offset_date := ga_offset_date a;
      MessagesIter.kw_add_offset := ga_add_offset a;
      MessagesIter.kw_filter := ga_filter a;
      MessagesIter.kw_search := ga_search a;
      MessagesIter.kw_reply_to := ga_reply_to a;
      MessagesIter.kw_scheduled := ga_scheduled a |}).

(** Lines 340-351. *)
Definition ids_iter_of (a : GetMessagesArgs) (ids : IdsArg)
  : IDsIter.t * (option EntityLike * list Z) :=
  let ids := match ids with OneId i => [i] | ManyIds l => l end in
  (IDsIter.new (ga_reverse a) (ga_wait_time a) (Some (Z.of_nat (List.length ids))),
   (ga_entity a, ids)).

Inductive Iterator : Type :=
| OfMessages (it : MessagesIter.t) (kw : MessagesIter.kwargs)
| OfIDs (it : IDsIter.t) (entity : option EntityLike) (ids : list Z).

Definition get_messages (a : GetMessagesArgs) : Iterator :=
  match ga_ids a with
  | Some ids =>
      let '(it, (entity, ids)) := ids_iter_of a ids in OfIDs it entity ids
  | None =>
      let '(it, kw) := messages_iter_of a in OfMessages it kw
  end.

(** ** The nested traversal of the date workaround

    [self.client.iter_messages(self.entity, 1, offset_date=offset_date)]
    is [get_messages] with the other arguments at their defaults.  Its own
    [_init] never reaches the workaround (it has no filter), so the nested
    traversal it is given is never started. *)

Definition no_nested_traversal
  : InputPeer -> datetime -> World -> (list CustomMessage * Ending) * World :=
  fun _ _ w => (([], Pending), w).

Definition date_probe (client : TelegramClient) (peer : InputPeer)
    (date : datetime) (w : World) : (list CustomMessage * Ending) * World :=
  let '(it, kw) :=
    messages_iter_of
      (with_offset_date_arg (Some date)
         (default_args (Some (EntityInput peer)) (Some 1))) in
  let '(res, st) := MessagesIter.run client no_nested_traversal 2 it kw w in
  (res, world st).

(** The traversal of a [_MessagesIter] as a caller drives it. *)
Definition iterate (client : TelegramClient) (fuel : nat)
    (a : GetMessagesArgs) (w : World)
  : (list CustomMessage * Ending) * State MessagesIter.t :=
  let '(it, kw) := messages_iter_of a in
  MessagesIter.run client (date_probe client) fuel it kw w.

(** [_init] of a [_MessagesIter] as the first pull runs it. *)
Definition initialize (client : TelegramClient) (a : GetMessagesArgs) (w : World)
  : Res unit * State MessagesIter.t :=
  let '(it, kw) := messages_iter_of a in
  MessagesIter._init client (date_probe client) kw {| self := it; world := w |}.

(** ** Test doubles for the collaborators *)

Module Scenario.

(** A resolver that accepts every reference: objects resolve to
    themselves, integers to users, names to channels. *)
Definition resolve (e : EntityLike) : Res InputPeer :=
  match e with
  | EntityInput p => Ok p
  | EntityId z => Ok (InputPeerUser z)
  | EntityName _ => Ok (InputPeerChannel 1)
  end.

Definition peer_id (p : InputPeer) : Z :=
  match p with
  | InputPeerEmpty | InputPeerSelf => 0
  | InputPeerUser z | InputPeerChat z | InputPeerChannel z => z
  end.

Definition peer_of (p : InputPeer) : Peer :=
  match p with
  | InputPeerChat z => PeerChat z
  | InputPeerChannel z => PeerChannel z
  | InputPeerUser z => PeerUser z
  | InputPeerEmpty | InputPeerSelf => PeerUser 0
  end.

Definition entity_type (p : InputPeer) : Res _EntityType :=
  match p with
  | InputPeerUser _ | InputPeerSelf => Ok USER
  | InputPeerChat _ => Ok CHAT
  | InputPeerChannel _ => Ok CHANNEL
  | InputPeerEmpty => Raise (TypeError "InputPeerEmpty does not have any entity type")
  end.

Definition empty_reply : Res Response := Ok (Messages None [] [] [] None).

(** A transport that answers the [n]-th request with the [n]-th reply of
    a script, and with an empty list of messages after that. *)
Definition scripted (script : list (Res Response)) : TelegramClient :=
  {| get_input_entity := resolve;
     get_peer_id := peer_id;
     _get_peer := peer_of;
     _entity_type := entity_type;
     derive_input_chat := fun _ _ => None;
     call := fun n _ => nth n script empty_reply |}.

(** A plain message [id] of the chat [PeerChat 7]. *)
Definition msg (id : Z) : Message :=
  {| msg_empty := false; msg_id := id; msg_sender_id := Some 5;
     msg_peer_id := Some (PeerChat 7); msg_date := Some (Datetime (1000 + id)) |}.

Definition reply (ids : list Z) : Res Response :=
  Ok (Messages None (map msg ids) [] [] None).

Definition chat : option EntityLike := Some (EntityInput (InputPeerChat 7)).

Definition ids_of (items : list CustomMessage) : list Z := map cm_id items.

(** [get_messages(chat, limit, min_id=..., max_id=..., reverse=...)]. *)
Definition bounded (limit : option Z) (min_id max_id : Z) (reverse : bool)
  : GetMessagesArgs :=
  {| ga_entity := chat; ga_limit := limit; ga_offset_date := None;
     ga_offset_id := 0; ga_max_id := max_id; ga_min_id := min_id;
     ga_add_offset := 0; ga_search := None; ga_filter := None;
     ga_from_user := None; ga_wait_time := None; ga_ids := None;
     ga_reverse := reverse; ga_reply_to := None; ga_scheduled := false |}.

(** [get_messages(None, 10, search='hello', min_id=6, max_id=9)]: a
    global search. *)
Definition global_search : GetMessagesArgs :=
  {| ga_entity := None; ga_limit := Some 10; ga_offset_date := None;
     ga_offset_id := 0; ga_max_id := 9; ga_min_id := 6; ga_add_offset := 0;
     ga_search := Some "hello"; ga_filter := None; ga_from_user := None;
     ga_wait_time := None; ga_ids := None; ga_reverse := false;
     ga_reply_to := None; ga_scheduled := false |}.

(** [get_messages(chat, limit, filter=InputMessagesFilterPhotos,
    offset_date=date, max_id=max_id)]. *)
Definition photos_before (limit : option Z) (date : datetime) (max_id : Z)
  : GetMessagesArgs :=
  {| ga_entity := chat; ga_limit := limit; ga_offset_date := Some date;
     ga_offset_id := 0; ga_max_id := max_id; ga_min_id := 0;
     ga_add_offset := 0; ga_search := None;
     ga_filter := Some (FilterClass InputMessagesFilterPhotos);
     ga_from_user := None; ga_wait_time := None; ga_ids := None;
     ga_reverse := false; ga_reply_to := None; ga_scheduled := false |}.

(** [get_messages(chat, 10, scheduled=True)],
    [get_messages(chat, 10, reply_to=3)] and
    [get_messages(None, 10, from_user=5)]. *)
Definition scheduled_list : GetMessagesArgs :=
  {| ga_entity := chat; ga_limit := Some 10; ga_offset_date := None;
     ga_offset_id := 0; ga_max_id := 0; ga_min_id := 0; ga_add_offset := 0;
     ga_search := None; ga_filter := None; ga_from_user := None;
     ga_wait_time := None; ga_ids := None; ga_reverse := false;
     ga_reply_to := None; ga_scheduled := true |}.

Definition thread_replies : GetMessagesArgs :=
  {| ga_entity := chat; ga_limit := Some 10; ga_offset_date := None;
     ga_offset_id := 0; ga_max_id := 0; ga_min_id := 0; ga_add_offset := 0;
     ga_search := Some "hello"; ga_filter := None; ga_from_user := None;
     ga_wait_time := None; ga_ids := None; ga_reverse := false;
     ga_reply_to := Some 3; ga_scheduled := false |}.

Definition from_filter : GetMessagesArgs :=
  {| ga_entity := chat; ga_limit := Some 10; ga_offset_date := None;
     ga_offset_id := 0; ga_max_id := 0; ga_min_id := 0; ga_add_offset := 0;
     ga_search := None; ga_filter := None; ga_from_user := Some (EntityId 5);
     ga_wait_time := None; ga_ids := None; ga_reverse := false;
     ga_reply_to := None; ga_scheduled := false |}.

(** The kind of the request [_init] leaves on the iterator. *)
Definition kind_built (client : TelegramClient) (a : GetMessagesArgs)
  : option RequestKind :=
  option_map req_kind (MessagesIter.request (self (snd (initialize client a [])))).

(** [get_messages(None, 10, reverse=True)]. *)
Definition reverse_global : GetMessagesArgs :=
  {| ga_entity := None; ga_limit := Some 10; ga_offset_date := None;
     ga_offset_id := 0; ga_max_id := 0; ga_min_id := 0; ga_add_offset := 0;
     ga_search := None; ga_filter := None; ga_from_user := None;
     ga_wait_time := None; ga_ids := None; ga_reverse := true;
     ga_reply_to := None; ga_scheduled := false |}.

End Scenario.

(** ** The first batch of an ID lookup *)

(** [get_messages(entity, ids=ids)], then [_init] and one
    [_load_next_chunk], as the first pull of the caller runs them. *)
Definition lookup_first_batch (client : TelegramClient) (a : GetMessagesArgs)
    (ids : IdsArg) (w : World) : Res unit * State IDsIter.t :=
  let '(it, (entity, ids)) := ids_iter_of a ids in
  (IDsIter._init client entity ids ;; IDsIter._load_next_chunk client)
    {| self := it; world := w |}.

Definition slot_ids (slots : list (option CustomMessage)) : list (option Z) :=
  map (option_map cm_id) slots.

(** ** The vocabulary of the specification *)

(** The five request variants, as the specification names them. *)
Inductive Variant : Type :=
| GlobalSearch
| ScheduledList
| ThreadReplies
| FilteredSearch
| PlainHistory.

Definition variant_of (k : RequestKind) : Variant :=
  match k with
  | SearchGlobal => GlobalSearch
  | GetScheduledHistory => ScheduledList
  | GetReplies => ThreadReplies
  | Search => FilteredSearch
  | GetHistory => PlainHistory
  end.

(** The precedence of the specification: (1) no target peer and no
    from-filter, (2) the scheduled flag, (3) a reply-to value, (4) a text
    query, a non-empty filter or a from-filter, (5) otherwise. *)
Definition variant_by_precedence (a : GetMessagesArgs) : Variant :=
  if negb (truthy_entity (ga_entity a)) && negb (truthy_entity (ga_from_user a))
  then GlobalSearch
  else if ga_scheduled a then ScheduledList
  else if MessagesIter.is_some (ga_reply_to a) then ThreadReplies
  else if MessagesIter.is_some (ga_search a)
          || negb (is_InputMessagesFilterEmpty
                     (MessagesIter.instantiate_filter (ga_filter a)))
          || truthy_entity (ga_from_user a)
  then FilteredSearch
  else PlainHistory.

(** The offset the window is anchored at, [max(offset_id, bound)] with the
    bound of the direction, and the width of the window up to the opposite
    bound. *)
Definition computed_offset (a : GetMessagesArgs) : Z :=
  if ga_reverse a then Z.max (ga_offset_id a) (ga_min_id a)
  else Z.max (ga_offset_id a) (ga_max_id a).

Definition opposite_bound (a : GetMessagesArgs) : Z :=
  if ga_reverse a then ga_max_id a else ga_min_id a.

Definition window_width (a : GetMessagesArgs) : Z :=
  if ga_reverse a then ga_max_id a - computed_offset a
  else computed_offset a - ga_min_id a.

(** Produced identifiers in the order of the direction and inside the
    exclusive bounds: a forward traversal goes down from [last_id] and stays
    above [min_id]; a reverse traversal goes up from [last_id], which starts
    at [0], and stays below [max_id], where [0] is no bound. *)
Definition ordered_within_bounds (a : GetMessagesArgs) (ids : list Z) : Prop :=
  if ga_reverse a then
    StronglySorted Z.lt ids
    /\ Forall (fun i => 0 < i /\ (ga_max_id a = 0 \/ i < ga_max_id a)) ids
  else
    StronglySorted Z.gt ids
    /\ Forall (fun i => ga_min_id a < i) ids.

Definition produced_ids (r : (list CustomMessage * Ending) * State MessagesIter.t)
  : list Z :=
  map cm_id (fst (fst r)).

Definition ending_of (r : (list CustomMessage * Ending) * State MessagesIter.t)
  : Ending :=
  snd (fst r).

(** ** Invariants of a traversal *)

(** The range invariant: [prev] lists the identifiers accepted so far,
    oldest first; they are in the order of the direction, on the accepted
    side of [last_id], and inside the bound the range check looks at. *)
Definition in_order (reverse : bool) (min_id : Z) (max_id last_id : num)
    (prev : list Z) : Prop :=
  if reverse then
    StronglySorted Z.lt prev
    /\ num_leb (Fin 0) last_id = true
    /\ Forall (fun i => num_leb (Fin i) last_id = true
                        /\ 0 < i /\ num_ltb (Fin i) max_id = true) prev
  else
    StronglySorted Z.gt prev
    /\ Forall (fun i => num_leb last_id (Fin i) = true /\ min_id < i) prev.

Definition range_inv (s : MessagesIter.t) (prev : list Z) : Prop :=
  in_order (MessagesIter.reverse s) (MessagesIter.min_id s)
    (MessagesIter.max_id s) (MessagesIter.last_id s) prev.

(** The attributes a chunk load leaves alone: all but [request], [total],
    [buffer] and [last_id]. *)
Definition same_cursor (s s' : MessagesIter.t) : Prop :=
  MessagesIter.reverse s' = MessagesIter.reverse s
  /\ MessagesIter.limit s' = MessagesIter.limit s
  /\ MessagesIter.left s' = MessagesIter.left s
  /\ MessagesIter.wait_time s' = MessagesIter.wait_time s
  /\ MessagesIter.terminal s' = MessagesIter.terminal s
  /\ MessagesIter.entity s' = MessagesIter.entity s
  /\ MessagesIter.from_id s' = MessagesIter.from_id s
  /\ MessagesIter.add_offset s' = MessagesIter.add_offset s
  /\ MessagesIter.max_id s' = MessagesIter.max_id s
  /\ MessagesIter.min_id s' = MessagesIter.min_id s.

(** ** What the blocks of [_init] compute *)

(** The local [offset_id] after lines 38-50. *)
Definition window_offset (reverse : bool) (kw : MessagesIter.kwargs) : Z :=
  Z.max (MessagesIter.kw_offset_id kw)
    (if reverse then MessagesIter.kw_min_id kw else MessagesIter.kw_max_id kw).

(** The test of lines 40-42 and 48-50. *)
Definition window_collapsed (reverse : bool) (kw : MessagesIter.kwargs) : bool :=
  let offset_id := window_offset reverse kw in
  if reverse then
    negb (offset_id =? 0) && negb (MessagesIter.kw_max_id kw =? 0)
    && (MessagesIter.kw_max_id kw - offset_id <=? 1)
  else
    negb (offset_id =? 0) && negb (MessagesIter.kw_min_id kw =? 0)
    && (offset_id - MessagesIter.kw_min_id kw <=? 1).

(** The local [max_id] after lines 44-45. *)
Definition window_max_id (reverse : bool) (kw : MessagesIter.kwargs) : num :=
  if reverse then
    if MessagesIter.kw_max_id kw =? 0 then Inf else Fin (MessagesIter.kw_max_id kw)
  else Fin (MessagesIter.kw_max_id kw).

(** The local [offset_id] after lines 52-58. *)
Definition anchor_of (reverse : bool) (kw : MessagesIter.kwargs) (offset_id : Z) : Z :=
  if reverse then
    if negb (offset_id =? 0) then offset_id + 1
    else if negb (MessagesIter.is_some (MessagesIter.kw_offset_date kw)) then 1
    else offset_id
  else offset_id.

(** The value lines 159-162 give [total]. *)
Definition reported_total (r : Response) : Z :=
  match r with
  | MessagesNotModified c => c
  | Messages (Some c) _ _ _ _ => c
  | Messages None ms _ _ _ => Z.of_nat (List.length ms)
  end.

(** The identifier the loop of lines 141-143 leaves in the request: one
    more than the identifier of the last item delivered, if any. *)
Definition probed_offset (items : list CustomMessage) (r : MessagesRequest)
  : MessagesRequest :=
  fold_left (fun acc m => with_offset_id (cm_id m + 1) acc) items r.

(** The result of the loop of lines 141-143, by the way the nested
    traversal ended. *)
Definition ending_result (ending : Ending) : Res unit :=
  match ending with
  | Exhausted => Ok tt
  | Failed e => Raise e
  | Pending => Raise Unfinished
  end.

(** The test of line 105 and the test of lines 139-140. *)
Definition search_condition (kw : MessagesIter.kwargs)
    (from_user : option InputPeer) : bool :=
  MessagesIter.is_some (MessagesIter.kw_search kw)
  || negb (is_InputMessagesFilterEmpty
             (MessagesIter.instantiate_filter (MessagesIter.kw_filter kw)))
  || MessagesIter.is_some from_user.

Definition workaround_condition (kw : MessagesIter.kwargs) (offset_id : Z) : bool :=
  MessagesIter.is_some (MessagesIter.kw_offset_date kw)
  && negb (is_InputMessagesFilterEmpty
             (MessagesIter.instantiate_filter (MessagesIter.kw_filter kw)))
  && negb (MessagesIter.truthy_str (MessagesIter.kw_search kw))
  && (offset_id =? 0).

(** The request kind the chain of lines 77-154 selects, from the state
    it starts in. *)
Definition selected_kind (s : MessagesIter.t) (kw : MessagesIter.kwargs)
    (from_user : option InputPeer) : RequestKind :=
  match MessagesIter.entity s with
  | None => SearchGlobal
  | Some _ =>
      if MessagesIter.kw_scheduled kw then GetScheduledHistory
      else if MessagesIter.is_some (MessagesIter.kw_reply_to kw) then GetReplies
      else if search_condition kw from_user then Search
      else GetHistory
  end.

(** ** The collaborators a construction depends on *)

(** The resolver answers for a reference that is passed. *)
Definition resolves (client : TelegramClient) (e : option EntityLike) : Prop :=
  match as_truthy e with
  | Some x => exists p, get_input_entity client x = Ok p
  | None => True
  end.

(** The value of [self.entity] when the request is built: the resolved
    target peer, [InputPeerEmpty] for a from-filter without a target peer,
    [None] for a global search. *)
Definition target_peer (client : TelegramClient) (a : GetMessagesArgs)
  : option InputPeer :=
  match as_truthy (ga_entity a) with
  | Some e =>
      match get_input_entity client e with
      | Ok p => Some p
      | Raise _ => None
      end
  | None => if truthy_entity (ga_from_user a) then Some InputPeerEmpty else None
  end.

(** The entity type of the target peer is known. *)
Definition classifies (client : TelegramClient) (a : GetMessagesArgs) : Prop :=
  exists p ty, target_peer client a = Some p /\ _entity_type client p = Ok ty.

(** The offset identifier the request is built with (lines 38-58). *)
Definition anchor (a : GetMessagesArgs) : Z :=
  anchor_of (ga_reverse a) (snd (messages_iter_of a)) (computed_offset a).

(** The test of lines 139-140 on the arguments. *)
Definition date_workaround_applies (a : GetMessagesArgs) : bool :=
  workaround_condition (snd (messages_iter_of a)) (anchor a).

(** The request a chunk load sends, from the request it finds (lines
    179-182). *)
Definition chunk_request (s : MessagesIter.t) (rq : MessagesRequest)
  : MessagesRequest :=
  let lim := num_min_int (MessagesIter.left s) _MAX_CHUNK_SIZE in
  if MessagesIter.reverse s && negb (lim =? _MAX_CHUNK_SIZE)
  then with_add_offset (MessagesIter.add_offset s - lim) (with_limit lim rq)
  else with_limit lim rq.

(** A request whose skip count is the skip count of the caller minus its
    own limit. *)
Definition skip_follows_limit (caller_add_offset : Z) (q : Request) : Prop :=
  match q with
  | MessagesRequestOf rq =>
      exists lim,
        req_limit rq = Some lim
        /\ req_add_offset rq = Some (caller_add_offset - lim)
  | _ => False
  end.

(** The limit and the skip count of each request sent. *)
Definition limits_and_skips (requests : list Request)
  : list (option Z * option Z) :=
  map (fun q =>
         match q with
         | MessagesRequestOf rq => (req_limit rq, req_add_offset rq)
         | _ => (None, None)
         end)
      requests.

(** The kind of each request sent ([None] for an ID lookup). *)
Definition kinds_sent (requests : list Request) : list (option RequestKind) :=
  map (fun q =>
         match q with
         | MessagesRequestOf rq => Some (req_kind rq)
         | _ => None
         end)
      requests.

(** ** Chunk loads *)

(** The test of lines 192-193: the message is passed over, because it is
    a [MessageEmpty] or because [from_id] is true and is not its sender. *)
Definition passed_over (from_id : option Z) (message : Message) : bool :=
  msg_empty message
  || (truthy_int from_id
      && match from_id with
         | Some f => opt_neqb (msg_sender_id message) f
         | None => false
         end).

(** A chunk request of the kind [k] that asks for 1 to [_MAX_CHUNK_SIZE]
    messages. *)
Definition chunk_sized (k : RequestKind) (q : Request) : Prop :=
  match q with
  | MessagesRequestOf rq =>
      req_kind rq = k
      /\ exists lim, req_limit rq = Some lim /\ 1 <= lim <= _MAX_CHUNK_SIZE
  | _ => False
  end.

(** The skip count of a request of the range iterator. *)
Definition skip_count (q : Request) : option (option Z) :=
  match q with
  | MessagesRequestOf rq => Some (req_add_offset rq)
  | _ => None
  end.

(** The offset peer [_update_offset] stores for a global search (lines
    258-261). *)
Definition offset_peer_of (last_message : CustomMessage) : InputPeer :=
  match cm_input_chat last_message with
  | Some chat => chat
  | None => InputPeerEmpty
  end.

(** ** Batches of an ID lookup *)

(** The identifiers a lookup request asks for. *)
Definition lookup_ids (q : Request) : list Z :=
  match q with
  | ChannelsGetMessages _ ids => ids
  | MessagesGetMessages ids => ids
  | MessagesRequestOf _ => []
  end.

(** The list [ids] of [get_messages] (lines 341-342) in the order
    [_IDsIter._init] keeps it (line 269). *)
Definition ids_in_order (reverse : bool) (ids : IdsArg) : list Z :=
  let l := match ids with OneId i => [i] | ManyIds l => l end in
  if reverse then rev l else l.

(** [n] chunk loads in a row, up to the first exception. *)
Fixpoint load_chunks (client : TelegramClient) (n : nat) : M (State IDsIter.t) unit :=
  match n with
  | O => ret tt
  | S n' => IDsIter._load_next_chunk client ;; load_chunks client n'
  end.

(** [get_messages(entity, ids=ids)], then [_init] and [n] chunk loads, as
    the pulls of a caller run them. *)
Definition lookup_batches (client : TelegramClient) (a : GetMessagesArgs)
    (ids : IdsArg) (n : nat) (w : World) : Res unit * State IDsIter.t :=
  let '(it, (entity, ids)) := ids_iter_of a ids in
  (IDsIter._init client entity ids ;; load_chunks client n)
    {| self := it; world := w |}.

(** ** The sender filter *)

(** The local [from_user] after lines 60-64: the resolved sender, [None]
    when no sender was passed. *)
Definition sender_peer (client : TelegramClient) (a : GetMessagesArgs)
  : option InputPeer :=
  match as_truthy (ga_from_user a) with
  | Some u =>
      match get_input_entity client u with
      | Ok p => Some p
      | Raise _ => None
      end
  | None => None
  end.

(** The skip count the requests of a variant carry: [GlobalSearch] and
    [ScheduledList] requests are built without one (lines 78-92). *)
Definition skip_count_sent (a : GetMessagesArgs) : option Z :=
  match variant_by_precedence a with
  | GlobalSearch | ScheduledList => None
  | _ => Some (ga_add_offset a)
  end.

(** The peer the messages of a batch are checked against (lines 285-296):
    none for a channel and none without an entity. *)
Definition checked_peer (client : TelegramClient) (s : IDsIter.t) : option Peer :=
  if IDsIter.is_CHANNEL (IDsIter._ty s) then None
  else option_map (_get_peer client) (IDsIter._entity s).

(** The request of a batch (lines 286-294). *)
Definition batch_request (s : IDsIter.t) (ids : list Z) : Request :=
  if IDsIter.is_CHANNEL (IDsIter._ty s)
  then ChannelsGetMessages (IDsIter._entity s) ids
  else MessagesGetMessages ids.

(** * Single requests

    [forward_messages], [send_read_acknowledge], [pin_message] and
    [unpin_message] build requests and send them; they keep no state
    between calls.  They are embedded as programs over the log of the
    calls they make. *)

(** ** Exceptions, outcomes and the monad *)

(** The exceptions of the iterators, [IndexError] and
    [UnboundLocalError]. *)
Inductive exception : Type :=
| Builtin (e : exn)
| IndexError (msg : string)
| UnboundLocalError (name : string).

Inductive Outcome (A : Type) : Type :=
| Returned (a : A)
| Raised (e : exception).

Arguments Returned {A} a.
Arguments Raised {A} e.

(** ** Arguments and requests *)

(** A message object a caller passes, with what the functions read of
    it: [m.id], [m.chat_id] and the result of [await m.get_input_chat()]. *)
Record MessageObject : Type := mkMessageObject {
  mo_id : Z;
  mo_chat_id : option Z;
  mo_input_chat : Res (option InputPeer)
}.

(** What a caller passes for a message: an [int], a message object, or
    an object of another type (a true object without an attribute [id], a
    [str] that is not empty say), kept as the text of its type. *)
Inductive MessageIDLike : Type :=
| AnInt (id : Z)
| AMessage (m : MessageObject)
| Another (type_text : string).

(** One message, or a list of them ([utils.is_list_like]). *)
Inductive MessagesArg : Type :=
| OneMessage (m : MessageIDLike)
| ManyMessages (l : list MessageIDLike).

Inductive InputChannel : Type :=
| InputChannelOf (channel_id : Z).

(** The identifier of an inline message, with the datacenter it lives
    in. *)
Inductive InlineMessageID : Type :=
| InputBotInlineMessageID (dc_id id access_hash : Z).

(** Formatting entities, media, buttons and reply markups are passed
    through as they are. *)
Inductive MessageEntity : Type :=
| MessageEntityOf (n : Z).

Inductive Media : Type :=
| MediaOf (n : Z).

Inductive Buttons : Type :=
| ButtonsOf (n : Z).

Inductive Markup : Type :=
| MarkupOf (n : Z).

(** A sender connected to another datacenter. *)
Inductive Sender : Type :=
| SenderOf (dc_id : Z).

Inductive ApiRequest : Type :=
| ForwardMessages (from_peer : option InputPeer) (id : list MessageIDLike)
    (to_peer : InputPeer) (silent background with_my_score : option bool)
    (schedule_date : option datetime)
| UnpinAllMessages (peer : InputPeer)
| UpdatePinnedMessage (peer : InputPeer) (id : Z) (silent unpin pm_oneside : bool)
| ReadMentions (peer : InputPeer)
| ChannelsReadHistory (channel : InputChannel) (max_id : Z)
| MessagesReadHistory (peer : InputPeer) (max_id : Z)
| EditInlineBotMessage (id : InlineMessageID) (message : option string)
    (no_webpage : bool) (entities : list MessageEntity) (media : option Media)
    (reply_markup : option Markup)
| EditMessage (peer : InputPeer) (id : option Z) (message : option string)
    (no_webpage : bool) (entities : list MessageEntity) (media : option Media)
    (reply_markup : option Markup) (schedule_date : option datetime).

Inductive Update : Type :=
| UpdateOf (n : Z).

(** The answers of the transport: an [Updates] object, with its list
    [updates], or another object. *)
Inductive ApiResult : Type :=
| Updates (updates : list Update)
| AffectedMessages (pts_count : Z)
| ApiBool (b : bool).

(** What [_get_response_message] returns: [None], a message, or a list of
    messages and [None]s. *)
Inductive ResponseMessage : Type :=
| NoMessage
| TheMessage (m : CustomMessage)
| TheMessages (l : list (option CustomMessage)).

(** The client with the helpers the single requests call:
    [api_call n request] is the answer to [await self(request)] when [n]
    requests were sent before it. *)
Record Api : Type := mkApi {
  api_client : TelegramClient;
  api_call : nat -> ApiRequest -> Res ApiResult;
  _get_response_message : ApiRequest -> ApiResult -> InputPeer -> Res ResponseMessage;
  get_message_id : option MessageIDLike -> Res (option Z);
  get_input_channel : InputPeer -> Res InputChannel
}.

Inductive Step : Type :=
| Resolved (e : EntityLike)
| Called (r : ApiRequest)
| Borrowed (dc_id : Z)
| CalledWith (sender : Sender) (r : ApiRequest)
| HandedBack (sender : Sender).

(** The calls made so far, oldest first. *)
Definition Log : Type := list Step.

(** The requests sent with [await self(request)]. *)
Definition called (log : Log) : list ApiRequest :=
  flat_map (fun s => match s with Called r => [r] | _ => [] end) log.

Definition Op (A : Type) : Type := Log -> Outcome A * Log.

Definition op_ret {A} (a : A) : Op A := fun log => (Returned a, log).

Definition op_bind {A B} (m : Op A) (k : A -> Op B) : Op B :=
  fun log =>
    match m log with
    | (Returned a, log') => k a log'
    | (Raised e, log') => (Raised e, log')
    end.

Definition op_raise {A} (e : exception) : Op A := fun log => (Raised e, log).

Definition op_of {A} (o : Outcome A) : Op A := fun log => (o, log).

(** A helper that returns or raises without a call of its own. *)
Definition op_lift {A} (r : Res A) : Op A :=
  fun log =>
    match r with
    | Ok a => (Returned a, log)
    | Raise e => (Raised (Builtin e), log)
    end.

Declare Scope op_scope.
Delimit Scope op_scope with op.

Notation "x <- c1 ;; c2" := (op_bind c1 (fun x => c2))
  (at level 61, c1 at next level, right associativity) : op_scope.
Notation "c1 ;; c2" := (op_bind c1 (fun _ => c2))
  (at level 61, right associativity) : op_scope.

Section SingleRequests.

Local Open Scope op_scope.

Variable api : Api.

Definition resolve (e : EntityLike) : Op InputPeer :=
  fun log =>
    match get_input_entity (api_client api) e with
    | Ok p => (Returned p, log ++ [Resolved e])
    | Raise x => (Raised (Builtin x), log ++ [Resolved e])
    end.

Definition send (r : ApiRequest) : Op ApiResult :=
  fun log =>
    match api_call api (List.length (called log)) r with
    | Ok a => (Returned a, log ++ [Called r])
    | Raise x => (Raised (Builtin x), log ++ [Called r])
    end.

(** ** [forward_messages] *)

(** The keyword arguments that are passed on to each request. *)
Record ForwardFlags : Type := mkForwardFlags {
  fw_background : option bool;
  fw_with_my_score : option bool;
  fw_silent : option bool;
  fw_schedule : option datetime
}.

(** Lines 522-531.  A key is [from_peer_id] or a [chat_id], which may be
    [None]. *)
Definition get_key (from_peer_id : option Z) (m : MessageIDLike) : Res (option Z) :=
  match m with
  | AnInt _ =>
      match from_peer_id with
      | Some id => Ok (Some id)
      | None => Raise (ValueError "from_peer must be given if integer IDs are used")
      end
  | AMessage o => Ok (mo_chat_id o)
  | Another type_text =>
      Raise (TypeError ("Cannot forward messages of type " ++ type_text))
  end.

Definition key_eqb (a b : option Z) : bool :=
  match a, b with
  | Some x, Some y => x =? y
  | None, None => true
  | _, _ => false
  end.

(** [m.id], for the list [[m.id for m in chunk]]. *)
Definition id_of (m : MessageIDLike) : Res Z :=
  match m with
  | AMessage o => Ok (mo_id o)
  | AnInt _ | Another _ => Raise (AttributeError "id")
  end.

Fixpoint ids_of_all (l : list MessageIDLike) : Res (list Z) :=
  match l with
  | [] => Ok []
  | m :: rest =>
      match id_of m with
      | Ok i =>
          match ids_of_all rest with
          | Ok ids => Ok (i :: ids)
          | Raise e => Raise e
          end
      | Raise e => Raise e
      end
  end.

(** [sent.extend(x)]. *)
Definition extend (sent : list (option CustomMessage)) (x : ResponseMessage)
  : Res (list (option CustomMessage)) :=
  match x with
  | TheMessages l => Ok (sent ++ l)
  | NoMessage => Raise (TypeError "'NoneType' object is not iterable")
  | TheMessage _ => Raise (TypeError "'Message' object is not iterable")
  end.

(** Lines 536-540: the source chat and the identifiers of a group, from
    its first item. *)
Definition chunk_source (from_peer : option InputPeer) (chunk : list MessageIDLike)
  : Outcome (option InputPeer * list MessageIDLike) :=
  match chunk with
  | AnInt _ :: _ => Returned (from_peer, chunk)
  | AMessage o :: _ =>
      match mo_input_chat o with
      | Ok chat =>
          match ids_of_all chunk with
          | Ok ids => Returned (chat, map AnInt ids)
          | Raise e => Raised (Builtin e)
          end
      | Raise e => Raised (Builtin e)
      end
  | Another _ :: _ => Raised (Builtin (AttributeError "get_input_chat"))
  | [] => Raised (IndexError "list index out of range")
  end.

(** The request of a group (lines 542-550). *)
Definition forward_request (flags : ForwardFlags) (entity : InputPeer)
    (source : option InputPeer * list MessageIDLike) : ApiRequest :=
  ForwardMessages (fst source) (snd source) entity
    (fw_silent flags) (fw_background flags) (fw_with_my_score flags)
    (fw_schedule flags).

(** The body of the loop, lines 535-552, for one group. *)
Definition forward_chunk (flags : ForwardFlags) (entity : InputPeer)
    (from_peer : option InputPeer) (chunk : list MessageIDLike)
    (sent : list (option CustomMessage)) : Op (list (option CustomMessage)) :=
  source <- op_of (chunk_source from_peer chunk) ;;
  let req := forward_request flags entity source in
  result <- send req ;;
  response <- op_lift (_get_response_message api req result entity) ;;
  op_lift (extend sent response).

(** The loop of line 534 over [itertools.groupby(messages, key=get_key)]
    with [list(chunk)]: the items are read one at a time and the key of an
    item is computed when it is read; [chunk] holds the items of the group
    being read, whose key is [key]; the group is complete, and the body of
    the loop runs for it, when an item with another key was read or the
    input is exhausted. *)
Fixpoint forward_groups (flags : ForwardFlags) (entity : InputPeer)
    (from_peer : option InputPeer) (from_peer_id : option Z)
    (key : option Z) (chunk : list MessageIDLike) (rest : list MessageIDLike)
    (sent : list (option CustomMessage)) : Op (list (option CustomMessage)) :=
  match rest with
  | [] => forward_chunk flags entity from_peer chunk sent
  | m :: rest' =>
      k <- op_lift (get_key from_peer_id m) ;;
      if key_eqb k key then
        forward_groups flags entity from_peer from_peer_id key (chunk ++ [m]) rest' sent
      else
        sent' <- forward_chunk flags entity from_peer chunk sent ;;
        forward_groups flags entity from_peer from_peer_id k [m] rest' sent'
  end.

(** Lines 533-552: the loop from its start; the first item read opens
    the first group. *)
Definition forward_all (flags : ForwardFlags) (entity : InputPeer)
    (from_peer : option InputPeer) (from_peer_id : option Z)
    (messages : list MessageIDLike) : Op (list (option CustomMessage)) :=
  match messages with
  | [] => op_ret []
  | m :: rest =>
      k <- op_lift (get_key from_peer_id m) ;;
      forward_groups flags entity from_peer from_peer_id k [m] rest []
  end.

(** A single message, or all of them. *)
Inductive Forwarded : Type :=
| ForwardedOne (m : option CustomMessage)
| ForwardedAll (l : list (option CustomMessage)).

(** Lines 510-512: [single] and the sequence of the messages. *)
Definition is_single (messages : MessagesArg) : bool :=
  match messages with
  | OneMessage _ => true
  | ManyMessages _ => false
  end.

Definition items_of (messages : MessagesArg) : list MessageIDLike :=
  match messages with
  | OneMessage m => [m]
  | ManyMessages l => l
  end.

(** [as_album] only makes the function warn and is left out. *)
Definition forward_messages (entity : EntityLike) (messages : MessagesArg)
    (from_peer : option EntityLike) (flags : ForwardFlags) : Op Forwarded :=
  let single := is_single messages in
  let messages := items_of messages in
  entity <- resolve entity ;;
  from <-
    (match as_truthy from_peer with
     | Some f =>
         p <- resolve f ;;
         op_ret (Some p, Some (get_peer_id (api_client api) p))
     | None => op_ret (None, None)
     end) ;;
  sent <- forward_all flags entity (fst from) (snd from) messages ;;
  if single then
    match sent with
    | first :: _ => op_ret (ForwardedOne first)
    | [] => op_raise (IndexError "list index out of range")
    end
  else op_ret (ForwardedAll sent).

(** ** [send_read_acknowledge] *)

(** [not message]. *)
Definition no_message (message : option MessagesArg) : bool :=
  match message with
  | None => true
  | Some (OneMessage (AnInt i)) => i =? 0
  | Some (OneMessage _) => false
  | Some (ManyMessages []) => true
  | Some (ManyMessages (_ :: _)) => false
  end.

(** What the function returns: the constants of lines 667 and 677, or the
    answer of the transport. *)
Inductive Acknowledged : Type :=
| AckConstant (b : bool)
| AckAnswer (r : ApiResult).

Definition send_read_acknowledge (entity : EntityLike) (message : option MessagesArg)
    (max_id : option Z) (clear_mentions : bool) : Op Acknowledged :=
  max_id <-
    (match max_id with
     | Some v => op_ret (Some v)
     | None =>
         if no_message message then op_ret (Some 0)
         else
           match message with
           | Some (ManyMessages l) =>
               ids <- op_lift (ids_of_all l) ;;
               match ids with
               | i :: rest => op_ret (Some (fold_left Z.max rest i))
               | [] => op_raise (Builtin (ValueError "max() arg is an empty sequence"))
               end
           | Some (OneMessage m) => i <- op_lift (id_of m) ;; op_ret (Some i)
           | None => op_raise (Builtin (AttributeError "id"))
           end
     end) ;;
  entity <- resolve entity ;;
  mentions <-
    (if clear_mentions then
       send (ReadMentions entity) ;;
       match max_id with
       | None => op_ret (Some (AckConstant true))
       | Some _ => op_ret None
       end
     else op_ret None) ;;
  match mentions with
  | Some r => op_ret r
  | None =>
      match max_id with
      | Some v =>
          ty <- op_lift (_entity_type (api_client api) entity) ;;
          match ty with
          | CHANNEL =>
              channel <- op_lift (get_input_channel api entity) ;;
              r <- send (ChannelsReadHistory channel v) ;;
              op_ret (AckAnswer r)
          | _ =>
              r <- send (MessagesReadHistory entity v) ;;
              op_ret (AckAnswer r)
          end
      | None => op_ret (AckConstant false)
      end
  end.

(** ** [pin_message] and [unpin_message] *)

(** [result.updates]. *)
Definition updates_of (r : ApiResult) : Res (list Update) :=
  match r with
  | Updates l => Ok l
  | _ => Raise (AttributeError "updates")
  end.

(** [x or 0] for an identifier that may be [None]. *)
Definition or_0 (x : option Z) : Z :=
  match x with
  | Some v => v
  | None => 0
  end.

Definition _pin (entity : EntityLike) (message : option MessageIDLike)
    (unpin notify pm_oneside : bool) : Op ResponseMessage :=
  id <- op_lift (get_message_id api message) ;;
  let message := or_0 id in
  entity <- resolve entity ;;
  if message <=? 0 then
    send (UnpinAllMessages entity) ;;
    op_ret NoMessage
  else
    let request :=
      UpdatePinnedMessage entity message (negb notify) unpin pm_oneside in
    result <- send request ;;
    if unpin then op_ret NoMessage
    else
      updates <- op_lift (updates_of result) ;;
      match updates with
      | [] => op_ret NoMessage
      | _ :: _ => op_lift (_get_response_message api request result entity)
      end.

Definition pin_message (entity : EntityLike) (message : option MessageIDLike)
    (notify pm_oneside : bool) : Op ResponseMessage :=
  _pin entity message false notify pm_oneside.

Definition unpin_message (entity : EntityLike) (message : option MessageIDLike)
    (notify : bool) : Op ResponseMessage :=
  _pin entity message true notify false.

End SingleRequests.

(** ** [edit_message] *)

(** The arguments [_file_to_media] is given. *)
Record FileArgs : Type := mkFileArgs {
  fa_file : option string;
  fa_supports_streaming : bool;
  fa_thumb : option string;
  fa_attributes : option (list Z);
  fa_force_document : bool
}.

(** The message to edit: the identifier of an inline message, or a
    message of the chat. *)
Inductive EditTarget : Type :=
| InlineMessage (id : InlineMessageID)
| ChatMessage (m : option MessageIDLike).

(** [entity] is a reference to a chat; [ed_entity_dc_id] is its
    attribute [dc_id], when it has one. *)
Record EditArgs : Type := mkEditArgs {
  ed_entity : EntityLike;
  ed_entity_dc_id : option Z;
  ed_message : EditTarget;
  ed_text : option string;
  ed_parse_mode : option string;
  ed_file : FileArgs;
  ed_formatting_entities : option (list MessageEntity);
  ed_link_preview : bool;
  ed_buttons : option Buttons;
  ed_schedule : option datetime
}.

(** The client with the helpers [edit_message] calls.  [_file_to_media]
    gives the media of the triple it returns; [_call n sender request] is
    the answer to [await self._call(sender, request)] when [n] requests were
    sent through a borrowed sender before it. *)
Record Editor : Type := mkEditor {
  editor_api : Api;
  _parse_message_text :
    option string -> option string -> Res (option string * list MessageEntity);
  _file_to_media : FileArgs -> Res (option Media);
  build_reply_markup : option Buttons -> Res (option Markup);
  session_dc_id : Z;
  _borrow_exported_sender : Z -> Res Sender;
  _call : nat -> Sender -> ApiRequest -> Res ApiResult;
  _return_exported_sender : Sender -> Res unit
}.

(** The requests sent through a borrowed sender, the senders that were
    borrowed and the senders that were handed back. *)
Definition called_with (log : Log) : list (Sender * ApiRequest) :=
  flat_map (fun s => match s with CalledWith x r => [(x, r)] | _ => [] end) log.



(** What [edit_message] returns: the answer of the transport for an
    inline message, the edited message otherwise. *)
Inductive Edited : Type :=
| EditedInline (r : ApiResult)
| EditedMessage (m : ResponseMessage).

Section Editing.

Local Open Scope op_scope.

Variable editor : Editor.

Definition borrow (dc_id : Z) : Op Sender :=
  fun log =>
    match _borrow_exported_sender editor dc_id with
    | Ok x => (Returned x, log ++ [Borrowed dc_id])
    | Raise e => (Raised (Builtin e), log ++ [Borrowed dc_id])
    end.

Definition send_with (sender : Sender) (r : ApiRequest) : Op ApiResult :=
  fun log =>
    match _call editor (List.length (called_with log)) sender r with
    | Ok a => (Returned a, log ++ [CalledWith sender r])
    | Raise e => (Raised (Builtin e), log ++ [CalledWith sender r])
    end.

Definition hand_back (sender : Sender) : Op unit :=
  fun log =>
    match _return_exported_sender editor sender with
    | Ok _ => (Returned tt, log ++ [HandedBack sender])
    | Raise e => (Raised (Builtin e), log ++ [HandedBack sender])
    end.

(** Lines 594-598: [sender] is assigned by the first statement of the
    [try] block and read by the [finally] block.  When the first statement
    raises, [sender] is not bound and reading it raises
    [UnboundLocalError]; an exception of the [finally] block replaces the
    outcome of the [try] block. *)
Definition with_borrowed_sender (dc_id : Z) (request : ApiRequest) : Op Edited :=
  fun log =>
    match borrow dc_id log with
    | (Raised _, log1) => (Raised (UnboundLocalError "sender"), log1)
    | (Returned sender, log1) =>
        let '(outcome, log2) := send_with sender request log1 in
        match hand_back sender log2 with
        | (Returned _, log3) =>
            (match outcome with
             | Returned r => Returned (EditedInline r)
             | Raised e => Raised e
             end, log3)
        | (Raised e, log3) => (Raised e, log3)
        end
    end.

Definition edit_message (a : EditArgs) : Op Edited :=
  parsed <-
    (match ed_formatting_entities a with
     | None => op_lift (_parse_message_text editor (ed_text a) (ed_parse_mode a))
     | Some entities => op_ret (ed_text a, entities)
     end) ;;
  let text := fst parsed in
  let formatting_entities := snd parsed in
  media <- op_lift (_file_to_media editor (ed_file a)) ;;
  match ed_message a with
  | InlineMessage id =>
      markup <- op_lift (build_reply_markup editor (ed_buttons a)) ;;
      let request :=
        EditInlineBotMessage id text (negb (ed_link_preview a)) formatting_entities
          media markup in
      dc_id <-
        (match ed_entity_dc_id a with
         | Some d => op_ret d
         | None => op_raise (Builtin (AttributeError "dc_id"))
         end) ;;
      if negb (session_dc_id editor =? dc_id) then with_borrowed_sender dc_id request
      else
        r <- send (editor_api editor) request ;;
        op_ret (EditedInline r)
  | ChatMessage m =>
      entity <- resolve (editor_api editor) (ed_entity a) ;;
      id <- op_lift (get_message_id (editor_api editor) m) ;;
      markup <- op_lift (build_reply_markup editor (ed_buttons a)) ;;
      let request :=
        EditMessage entity id text (negb (ed_link_preview a)) formatting_entities
          media markup (ed_schedule a) in
      result <- send (editor_api editor) request ;;
      msg <- op_lift (_get_response_message (editor_api editor) request result entity) ;;
      op_ret (EditedMessage msg)
  end.

End Editing.

(** ** Runs of messages of one chat *)

(** The chat of a group: the [chat_id] of its first message. *)
Definition chat_of (g : list MessageObject) : option Z :=
  match g with
  | m :: _ => mo_chat_id m
  | [] => None
  end.

(** A group that is not empty and whose messages have the same
    [chat_id]. *)
Definition same_chat (g : list MessageObject) : Prop :=
  g <> [] /\ Forall (fun m => mo_chat_id m = chat_of g) g.

(** Groups of messages of one chat each, where a group and the next are
    of different chats. *)
Fixpoint runs_by_chat (groups : list (list MessageObject)) : Prop :=
  match groups with
  | [] => True
  | g :: rest =>
      same_chat g
      /\ match rest with
         | g' :: _ => chat_of g <> chat_of g'
         | [] => True
         end
      /\ runs_by_chat rest
  end.

(** The request that forwards a group of message objects (lines 539-550):
    from the input chat of the first, with the identifiers of all. *)
Definition group_request (flags : ForwardFlags) (entity : InputPeer)
    (g : list MessageObject) : ApiRequest :=
  forward_request flags entity
    (match g with
     | m :: _ =>
         match mo_input_chat m with
         | Ok chat => chat
         | Raise _ => None
         end
     | [] => None
     end,
     map (fun m => AnInt (mo_id m)) g).

(** ** Test doubles for the single requests *)

Module Stub.

(** The identifier of a message, as [utils.get_message_id] reads it. *)
Definition message_id (m : option MessageIDLike) : Res (option Z) :=
  match m with
  | None => Ok None
  | Some (AnInt i) => Ok (Some i)
  | Some (AMessage o) => Ok (Some (mo_id o))
  | Some (Another type_text) => Raise (TypeError ("Invalid message type: " ++ type_text))
  end.

Definition input_channel (p : InputPeer) : Res InputChannel :=
  match p with
  | InputPeerChannel c => Ok (InputChannelOf c)
  | _ => Raise (TypeError "Cannot cast to InputChannel")
  end.

(** One [None] for each identifier of a forward request, no message for
    the other requests. *)
Definition response_message (r : ApiRequest) (_ : ApiResult) (_ : InputPeer)
  : Res ResponseMessage :=
  match r with
  | ForwardMessages _ ids _ _ _ _ _ => Ok (TheMessages (map (fun _ => None) ids))
  | _ => Ok NoMessage
  end.

(** A client that resolves as [Scenario.resolve] does and answers the
    [n]-th request with the [n]-th reply of a script, and with an empty
    [Updates] after that. *)
Definition scripted (script : list (Res ApiResult)) : Api :=
  {| api_client := Scenario.scripted [];
     api_call := fun n _ => nth n script (Ok (Updates []));
     _get_response_message := response_message;
     get_message_id := message_id;
     get_input_channel := input_channel |}.

Definition no_flags : ForwardFlags :=
  {| fw_background := None; fw_with_my_score := None; fw_silent := None;
     fw_schedule := None |}.

(** The message [id] of the chat [chat]. *)
Definition message (chat id : Z) : MessageObject :=
  {| mo_id := id; mo_chat_id := Some chat;
     mo_input_chat := Ok (Some (InputPeerChat chat)) |}.

Definition group : EntityLike := EntityInput (InputPeerChat 7).

Definition channel : EntityLike := EntityInput (InputPeerChannel 3).

(** An editor of the datacenter 2 whose helpers pass their arguments
    through; [borrowed] is the outcome of borrowing a sender. *)
Definition editor (borrowed : Res Sender) (script : list (Res ApiResult)) : Editor :=
  {| editor_api := scripted script;
     _parse_message_text := fun text _ => Ok (text, []);
     _file_to_media := fun _ => Ok None;
     build_reply_markup := fun _ => Ok None;
     session_dc_id := 2;
     _borrow_exported_sender := fun _ => borrowed;
     _call := fun n _ _ => nth n script (Ok (ApiBool true));
     _return_exported_sender := fun _ => Ok tt |}.

Definition no_file : FileArgs :=
  {| fa_file := None; fa_supports_streaming := false; fa_thumb := None;
     fa_attributes := None; fa_force_document := false |}.

(** [edit_message(inline_id, inline_id, text)] for an inline message of
    the datacenter [dc_id]. *)
Definition inline_edit (dc_id : Z) (text : string) : EditArgs :=
  {| ed_entity := group; ed_entity_dc_id := Some dc_id;
     ed_message := InlineMessage (InputBotInlineMessageID dc_id 1 1);
     ed_text := Some text; ed_parse_mode := None; ed_file := no_file;
     ed_formatting_entities := None; ed_link_preview := true;
     ed_buttons := None; ed_schedule := None |}.

(** An editor that can borrow a sender of the datacenter 4, and the edit
    of an inline message of that datacenter. *)
Definition borrowing : Editor := editor (Ok (SenderOf 4)) [Ok (ApiBool true)].

Definition hello : EditArgs := inline_edit 4 "hi".

End Stub.

Unset Implicit Arguments.

(** * Properties *)

(** ** The monad *)

Lemma bind_inv {S A B} (m : M S A) (k : A -> M S B) s r s' :
  bind m k s = (r, s') ->
  (exists a s1, m s = (Ok a, s1) /\ k a s1 = (r, s'))
  \/ (exists e, m s = (Raise e, s') /\ r = Raise e).
Proof.
  unfold bind. destruct (m s) as [[a | e] s1]; intros H.
  - left. exists a, s1. split; [reflexivity | exact H].
  - right. exists e. inversion H; subst. split; reflexivity.
Qed.

Lemma bind_ok {S A B} (m : M S A) (k : A -> M S B) s a s1 :
  m s = (Ok a, s1) -> bind m k s = k a s1.
Proof. unfold bind. intros ->. reflexivity. Qed.

Lemma bind_raise {S A B} (m : M S A) (k : A -> M S B) s e s1 :
  m s = (Raise e, s1) -> bind m k s = (Raise e, s1).
Proof. unfold bind. intros ->. reflexivity. Qed.

(** ** The local range check *)

(** C10: an iterator constructed without a target peer ([entity] is [None])
    accepts every message in its range check, whatever the bounds and
    whatever [last_id] are. *)
Theorem message_in_range_without_entity (s : MessagesIter.t) (message : Message) :
  MessagesIter.entity s = None ->
  MessagesIter._message_in_range s message = true.
Proof.
  intros H. unfold MessagesIter._message_in_range. rewrite H. reflexivity.
Qed.

Lemma message_in_range_without_entity_witness :
  let st := snd (initialize (Scenario.scripted []) Scenario.global_search []) in
  MessagesIter.min_id (self st) = 6
  /\ MessagesIter._message_in_range (self st) (Scenario.msg 5) = true.
Proof.
  split; [reflexivity |].
  apply (message_in_range_without_entity
           (self (snd (initialize (Scenario.scripted []) Scenario.global_search [])))
           (Scenario.msg 5)).
  reflexivity.
Defined.

(** ** The ID lookup *)

Import IDsIter.

Lemma slots_of_length client s from_id entities messages :
  List.length (slots_of client s from_id entities messages) = List.length messages.
Proof. unfold slots_of. apply length_map. Qed.

(** One slot per message of the reply: the batch that was asked for does
    not enter the count. *)
Lemma load_next_chunk_slots_follow_reply client (s : IDsIter.t) w cnt ms us cs rate :
  firstn (Z.to_nat _MAX_CHUNK_SIZE) (skipn (_offset s) (_ids s)) <> [] ->
  is_CHANNEL (_ty s) = false ->
  call client (List.length (requests_sent w))
    (MessagesGetMessages (firstn (Z.to_nat _MAX_CHUNK_SIZE) (skipn (_offset s) (_ids s))))
  = Ok (Messages cnt ms us cs rate) ->
  let r := _load_next_chunk client {| self := s; world := w |} in
  fst r = Ok tt
  /\ exists slots,
       buffer (self (snd r)) = buffer s ++ slots
       /\ List.length slots = List.length ms.
Proof.
  intros Hne Hty Hcall. unfold _load_next_chunk, bind, get_self.
  cbn [self world fst snd].
  destruct (firstn (Z.to_nat _MAX_CHUNK_SIZE) (skipn (_offset s) (_ids s)))
    as [| i ids] eqn:E; [congruence |].
  simpl. rewrite Hty. unfold client_call, bind. simpl. rewrite Hcall.
  destruct (_entity s); simpl;
    (split; [reflexivity | eexists; split; [reflexivity | apply slots_of_length]]).
Qed.

(** C1: asked for the identifiers 10, 11 and 12, the service answers with
    the messages 10 and 12 only; the chunk then holds two slots, the items
    10 and 12, and no absent marker stands where 11 was asked for. *)
Theorem lookup_omitted_identifier_gets_no_slot :
  let r := lookup_first_batch (Scenario.scripted [Scenario.reply [10; 12]])
             (default_args None None) (ManyIds [10; 11; 12]) [] in
  fst r = Ok tt
  /\ requests_sent (world (snd r)) = [MessagesGetMessages [10; 11; 12]]
  /\ slot_ids (buffer (self (snd r))) = [Some 10; Some 12]
  /\ List.length (buffer (self (snd r))) <> List.length [10; 11; 12].
Proof.
  cbv zeta. repeat split; try reflexivity. vm_compute. discriminate.
Qed.

(** C6: in a batch for a channel, the rejection [MessageIdsEmptyError] is
    caught: the chunk load returns normally and appends one absent marker
    for each identifier of the batch. *)
Theorem channel_batch_all_invalid_is_all_absent client (s : IDsIter.t) (w : World) :
  let ids := firstn (Z.to_nat _MAX_CHUNK_SIZE) (skipn (_offset s) (_ids s)) in
  ids <> [] ->
  _ty s = Some CHANNEL ->
  call client (List.length (requests_sent w)) (ChannelsGetMessages (_entity s) ids)
  = Raise (RpcError MessageIdsEmptyError) ->
  let r := _load_next_chunk client {| self := s; world := w |} in
  fst r = Ok tt
  /\ buffer (self (snd r)) = buffer s ++ repeat None (List.length ids)
  /\ requests_sent (world (snd r))
     = requests_sent w ++ [ChannelsGetMessages (_entity s) ids].
Proof.
  cbv zeta. intros Hne Hty Hcall.
  unfold _load_next_chunk, bind, get_self. cbn [self world fst snd].
  destruct (firstn (Z.to_nat _MAX_CHUNK_SIZE) (skipn (_offset s) (_ids s)))
    as [| i ids] eqn:E; [congruence |].
  simpl. rewrite Hty. simpl.
  unfold try_except, client_call. simpl. rewrite Hcall. simpl.
  repeat split.
  - f_equal. f_equal. clear. induction ids; simpl; congruence.
  - unfold requests_sent. rewrite flat_map_app. reflexivity.
Qed.

Lemma channel_batch_all_invalid_is_all_absent_witness :
  let r := lookup_first_batch
             (Scenario.scripted [Raise (RpcError MessageIdsEmptyError)])
             (default_args (Some (EntityName "channel")) None)
             (ManyIds [10; 11; 12]) [] in
  fst r = Ok tt /\ slot_ids (buffer (self (snd r))) = [None; None; None].
Proof.
  pose proof
    (channel_batch_all_invalid_is_all_absent
       (Scenario.scripted [Raise (RpcError MessageIdsEmptyError)])
       (snd (IDsIter._init (Scenario.scripted [])
               (Some (EntityName "channel")) [10; 11; 12]
               {| self := IDsIter.new false None (Some 3); world := [] |})).(self)
       [EvResolve (EntityName "channel")]) as H.
  cbv zeta in H.
  destruct H as (H1 & H2 & _); try reflexivity; try discriminate.
  split; [exact H1 |].
  unfold slot_ids. change (buffer (self (snd (lookup_first_batch
             (Scenario.scripted [Raise (RpcError MessageIdsEmptyError)])
             (default_args (Some (EntityName "channel")) None)
             (ManyIds [10; 11; 12]) [])))) with
    (buffer (self (snd (_load_next_chunk (Scenario.scripted [Raise (RpcError MessageIdsEmptyError)])
      {| self := self (snd (IDsIter._init (Scenario.scripted [])
               (Some (EntityName "channel")) [10; 11; 12]
               {| self := IDsIter.new false None (Some 3); world := [] |}));
         world := [EvResolve (EntityName "channel")] |})))).
  rewrite H2. reflexivity.
Defined.

(** C6, the claim as stated, fails outside channels: the same rejection of
    the lookup of a batch for a small group chat reaches the caller, and no
    slot is produced. *)
Lemma chat_batch_all_invalid_is_raised :
  let r := lookup_first_batch
             (Scenario.scripted [Raise (RpcError MessageIdsEmptyError)])
             (default_args Scenario.chat None) (ManyIds [10; 11; 12]) [] in
  fst r = Raise (RpcError MessageIdsEmptyError)
  /\ requests_sent (world (snd r)) = [MessagesGetMessages [10; 11; 12]]
  /\ buffer (self (snd r)) = [].
Proof. cbv zeta. repeat split; reflexivity. Qed.

Import MessagesIter.

(** ** Numbers with infinity *)

Lemma num_leb_Fin x y : num_leb (Fin x) (Fin y) = (x <=? y).
Proof. reflexivity. Qed.

(** ** The range invariant of a traversal *)

Lemma StronglySorted_snoc {A} (R : A -> A -> Prop) l x :
  StronglySorted R l -> Forall (fun y => R y x) l -> StronglySorted R (l ++ [x]).
Proof.
  induction 1 as [| y l Hs IH Hy]; intros Hall; simpl.
  - constructor; constructor.
  - inversion Hall; subst. constructor.
    + apply IH. assumption.
    + apply Forall_app. split; [assumption | constructor; [assumption | constructor]].
Qed.

Lemma in_order_accept s prev message :
  entity s <> None ->
  range_inv s prev ->
  _message_in_range s message = true ->
  range_inv (set_last_id (Fin (msg_id message)) s) (prev ++ [msg_id message]).
Proof.
  unfold range_inv, in_order, _message_in_range. intros He Hinv Hin.
  destruct (entity s) as [peer |]; [| congruence]. simpl.
  destruct (reverse s).
  - destruct (num_leb (Fin (msg_id message)) (last_id s)) eqn:E1; [discriminate |].
    destruct (num_leb (max_id s) (Fin (msg_id message))) eqn:E2; [discriminate |].
    destruct Hinv as (Hs & H0 & Hall).
    assert (Hlast : forall i, num_leb (Fin i) (last_id s) = true -> i < msg_id message).
    { intros i Hi. destruct (last_id s); simpl in *; [lia | discriminate]. }
    assert (Hpos : 0 < msg_id message) by (apply Hlast; exact H0).
    split; [| split].
    + apply StronglySorted_snoc; [assumption |].
      eapply Forall_impl; [| exact Hall]. simpl. intros i (Hi & _). apply Hlast, Hi.
    + simpl. lia.
    + apply Forall_app. split.
      * eapply Forall_impl; [| exact Hall]. simpl. intros i (Hi & Hp & Hm).
        repeat split; try assumption. apply Hlast in Hi. lia.
      * constructor; [| constructor]. repeat split; [simpl; lia | assumption |].
        destruct (max_id s); simpl in *; [lia | reflexivity].
  - destruct (num_leb (last_id s) (Fin (msg_id message))) eqn:E1; [discriminate |].
    destruct (msg_id message <=? min_id s) eqn:E2; [discriminate |].
    destruct Hinv as (Hs & Hall).
    assert (Hlast : forall i, num_leb (last_id s) (Fin i) = true -> msg_id message < i).
    { intros i Hi. destruct (last_id s); simpl in *; [lia | discriminate]. }
    split.
    + apply StronglySorted_snoc; [assumption |].
      eapply Forall_impl; [| exact Hall]. simpl. intros i (Hi & _).
      apply Hlast in Hi. lia.
    + apply Forall_app. split.
      * eapply Forall_impl; [| exact Hall]. simpl. intros i (Hi & Hm).
        split; [| assumption]. apply Hlast in Hi. lia.
      * constructor; [| constructor]. split; [simpl; lia | lia].
Qed.

(** ** The loop over a chunk *)

Lemma set_buffer_last_id_same (s : t) :
  set_buffer (buffer s ++ []) (set_last_id (last_id s) s) = s.
Proof. destruct s. unfold set_buffer, set_last_id. simpl. rewrite app_nil_r. reflexivity. Qed.

Lemma scan_messages_spec client entities messages :
  forall (st : State t) prev,
    entity (self st) <> None ->
    range_inv (self st) prev ->
    exists stopped added last,
      scan_messages client entities messages st
      = (Ok stopped,
         {| self := set_buffer (buffer (self st) ++ added) (set_last_id last (self st));
            world := world st |})
      /\ range_inv (set_last_id last (self st)) (prev ++ map cm_id added).
Proof.
  induction messages as [| message rest IH]; intros st prev He Hinv.
  - exists false, [], (last_id (self st)). simpl. unfold ret.
    rewrite set_buffer_last_id_same, app_nil_r. destruct st as [s w]; simpl.
    split; [reflexivity |]. destruct s; exact Hinv.
  - simpl. unfold bind, get_self.
    destruct (msg_empty message
              || truthy_int (from_id (self st))
                 && match from_id (self st) with
                    | Some f => opt_neqb (msg_sender_id message) f
                    | None => false
                    end).
    + apply IH; assumption.
    + destruct (_message_in_range (self st) message) eqn:Hin; simpl.
      * pose proof (in_order_accept (self st) prev message He Hinv Hin) as Hinv'.
        unfold modify_self. simpl.
        match goal with
        | |- context [scan_messages client entities rest ?st2] =>
            destruct (IH st2 (prev ++ [msg_id message])) as (b & added & l & Heq & Hi)
        end.
        { exact He. }
        { exact Hinv'. }
        rewrite Heq. simpl.
        exists b, (Message_new client message entities (entity (self st)) :: added), l.
        split.
        -- f_equal. f_equal. unfold set_buffer, set_last_id. simpl.
           rewrite <- app_assoc. reflexivity.
        -- simpl. rewrite <- app_assoc in Hi. exact Hi.
      * exists true, [], (last_id (self st)). unfold ret.
        rewrite set_buffer_last_id_same, app_nil_r. destruct st as [s w]; simpl.
        split; [reflexivity |]. destruct s; exact Hinv.
Qed.

(** ** Continuation and chunk loading *)

Lemma update_offset_spec last_message response (st : State t) r0 :
  request (self st) = Some r0 ->
  exists r1,
    _update_offset last_message response st
    = (Ok tt, {| self := set_request (Some r1) (self st); world := world st |})
    /\ req_kind r1 = req_kind r0
    /\ req_offset_id r1
       = Some (if reverse (self st) then cm_id last_message + 1 else cm_id last_message)
    /\ req_add_offset r1 = req_add_offset r0
    /\ req_limit r1 = req_limit r0.
Proof.
  intros H.
  unfold _update_offset, modify_request, get_request, bind, get_self, modify_self,
    attr, ret.
  simpl. rewrite H. simpl.
  destruct (reverse (self st)); simpl;
    destruct (req_kind r0) eqn:K; simpl; rewrite ?K; simpl;
    try destruct (cm_input_chat last_message); simpl;
    eexists; (split; [reflexivity |]); simpl; repeat split; assumption || reflexivity.
Qed.

Ltac run_monad_in H :=
  cbv beta iota zeta delta
    [bind get_self modify_request get_request modify_self attr ret raise
     client_call count_or_len response_messages lift_res] in H;
  simpl in H.

Lemma load_next_chunk_spec client (st : State t) prev r st' :
  entity (self st) <> None ->
  buffer (self st) = [] ->
  range_inv (self st) prev ->
  _load_next_chunk client st = (r, st') ->
  same_cursor (self st) (self st')
  /\ range_inv (self st') (prev ++ map cm_id (buffer (self st'))).
Proof.
  intros He Hb Hinv H. unfold _load_next_chunk in H. run_monad_in H.
  destruct (request (self st)) as [r0 |] eqn:Ereq; simpl in H.
  2:{ injection H as Hr Hs; subst r st'. rewrite Hb, app_nil_r. split; [| exact Hinv].
      repeat split. }
  destruct (reverse (self st)
            && negb (num_min_int (left (self st)) _MAX_CHUNK_SIZE =? _MAX_CHUNK_SIZE));
    simpl in H.
  all: match type of H with
       | context [call ?c ?n ?rq] => destruct (call c n rq) as [resp | e]
       end; simpl in H.
  all: try (injection H as Hr Hs; subst r st'; simpl; split;
         [repeat split | rewrite Hb; simpl; rewrite app_nil_r; exact Hinv]).
  all: destruct resp as [c | [c |] ms us cs rate]; simpl in H.
  all: try (injection H as Hr Hs; subst r st'; simpl; split;
         [repeat split | rewrite Hb; simpl; rewrite app_nil_r; exact Hinv]).
  all: match type of H with
       | context [scan_messages ?c ?e ?m ?s] =>
           destruct (scan_messages_spec c e m s prev)
             as (stopped & added & l & Heq & Hinv2);
           [exact He | exact Hinv | rewrite Heq in H; clear Heq]
       end; simpl in H; rewrite Hb in H; simpl in H.
  all: destruct stopped; simpl in H.
  all: try (injection H as Hr Hs; subst r st'; simpl; split; [repeat split | exact Hinv2]).
  all: match type of H with
       | context [Z.ltb ?a ?b] => destruct (Z.ltb a b)
       end; simpl in H.
  all: try (injection H as Hr Hs; subst r st'; simpl; split; [repeat split | exact Hinv2]).
  all: destruct (last (map Some added) None) as [last_message |].
  all: try (injection H as Hr Hs; subst r st'; simpl; split; [repeat split | exact Hinv2]).
  all: match type of H with
       | context [_update_offset ?m ?resp ?s] =>
           edestruct (update_offset_spec m resp s) as (r1 & Heq & _);
           [reflexivity | rewrite Heq in H; clear Heq]
       end.
  all: injection H as Hr Hs; subst r st'; simpl; split; [repeat split | exact Hinv2].
Qed.

(** ** The pull loop keeps the range invariant *)

Lemma pull_in_order client fuel :
  forall (st : State t) prev,
    entity (self st) <> None ->
    range_inv (self st) prev ->
    exists last,
      in_order (reverse (self st)) (min_id (self st)) (max_id (self st)) last
        (prev ++ map cm_id (fst (fst (pull client fuel st)))).
Proof.
  induction fuel as [| fuel IH]; intros st prev He Hinv.
  - simpl. rewrite app_nil_r. exists (last_id (self st)). exact Hinv.
  - simpl.
    destruct (num_leb (left (self st)) (Fin 0) || terminal (self st)).
    { simpl. rewrite app_nil_r. exists (last_id (self st)). exact Hinv. }
    destruct (_load_next_chunk client
                {| self := set_buffer [] (self st); world := world st |})
      as [[last_chunk | e] st1] eqn:Hload.
    + destruct (load_next_chunk_spec client
                  {| self := set_buffer [] (self st); world := world st |}
                  prev (Ok last_chunk) st1 He eq_refl Hinv Hload)
        as (Hsame & Hinv1).
      destruct Hsame as (Hrev & _ & _ & _ & _ & Hent & _ & _ & Hmax & Hmin).
      simpl in Hrev, Hent, Hmax, Hmin.
      match goal with
      | |- context [pull client fuel ?st2] =>
          destruct (IH st2 (prev ++ map cm_id (buffer (self st1)))) as (l & Hl);
          [ simpl; rewrite Hent; exact He
          | exact Hinv1
          | destruct (pull client fuel st2) as [[rest ending] st3] ]
      end.
      simpl in Hl |- *. rewrite Hrev, Hmax, Hmin in Hl.
      exists l. rewrite map_app, app_assoc. exact Hl.
    + exists (last_id (self st)).
      destruct e; simpl; rewrite app_nil_r; exact Hinv.
Qed.

(** ** The blocks of [_init], one equation each *)

Ltac run_monad :=
  cbv beta iota zeta delta
    [bind get_self modify_request get_request modify_self attr ret raise
     client_call client_get_input_entity count_or_len response_messages lift_res];
  simpl.

Lemma init_entity_eq client kw (st : State t) :
  init_entity client kw st
  = match as_truthy (kw_entity kw) with
    | Some e =>
        match get_input_entity client e with
        | Ok p =>
            (Ok tt, {| self := set_entity (Some p) (self st);
                       world := world st ++ [EvResolve e] |})
        | Raise x =>
            (Raise x, {| self := self st; world := world st ++ [EvResolve e] |})
        end
    | None =>
        if reverse (self st) then
          (Raise (ValueError "Cannot reverse global search"),
           {| self := set_entity None (self st); world := world st |})
        else (Ok tt, {| self := set_entity None (self st); world := world st |})
    end.
Proof.
  unfold init_entity. destruct (as_truthy (kw_entity kw)) as [e |]; run_monad.
  - destruct (get_input_entity client e); reflexivity.
  - destruct (reverse (self st)); reflexivity.
Qed.

Lemma init_window_eq kw (st : State t) :
  init_window kw st
  = if window_collapsed (reverse (self st)) kw then (Raise StopAsyncIteration, st)
    else (Ok (window_offset (reverse (self st)) kw,
              window_max_id (reverse (self st)) kw), st).
Proof.
  unfold init_window, window_collapsed, window_offset, window_max_id. run_monad.
  destruct (reverse (self st)); simpl.
  - destruct (negb (Z.max (kw_offset_id kw) (kw_min_id kw) =? 0)); simpl;
      [destruct (negb (kw_max_id kw =? 0)); simpl;
       [destruct (kw_max_id kw - Z.max (kw_offset_id kw) (kw_min_id kw) <=? 1) |] |];
      reflexivity.
  - destruct (negb (Z.max (kw_offset_id kw) (kw_max_id kw) =? 0)); simpl;
      [destruct (negb (kw_min_id kw =? 0)); simpl;
       [destruct (Z.max (kw_offset_id kw) (kw_max_id kw) - kw_min_id kw <=? 1) |] |];
      reflexivity.
Qed.

Lemma init_anchor_eq kw offset_id (st : State t) :
  init_anchor kw offset_id st = (Ok (anchor_of (reverse (self st)) kw offset_id), st).
Proof.
  unfold init_anchor, anchor_of. run_monad.
  destruct (reverse (self st)); [| reflexivity].
  destruct (negb (offset_id =? 0)); [reflexivity |].
  destruct (negb (is_some (kw_offset_date kw))); reflexivity.
Qed.

Lemma init_from_user_eq client kw (st : State t) :
  init_from_user client kw st
  = match as_truthy (kw_from_user kw) with
    | Some u =>
        match get_input_entity client u with
        | Ok p =>
            (Ok (Some p),
             {| self :=
                  match entity (self st) with
                  | None =>
                      set_entity (Some InputPeerEmpty)
                        (set_from_id (Some (get_peer_id client p)) (self st))
                  | Some _ => set_from_id (Some (get_peer_id client p)) (self st)
                  end;
                world := world st ++ [EvResolve u] |})
        | Raise x =>
            (Raise x, {| self := self st; world := world st ++ [EvResolve u] |})
        end
    | None => (Ok None, {| self := set_from_id None (self st); world := world st |})
    end.
Proof.
  unfold init_from_user. destruct (as_truthy (kw_from_user kw)) as [u |]; run_monad.
  - destruct (get_input_entity client u); [| reflexivity]. simpl.
    destruct (entity (self st)); reflexivity.
  - destruct (entity (self st)); reflexivity.
Qed.

Lemma init_total_only_eq client (st : State t) rq :
  request (self st) = Some rq ->
  init_total_only client st
  = if num_leb (limit (self st)) (Fin 0) then
      match call client (List.length (requests_sent (world st))) (MessagesRequestOf rq) with
      | Ok result =>
          (Raise StopAsyncIteration,
           {| self := set_total (Some (reported_total result)) (self st);
              world := world st ++ [EvCall (MessagesRequestOf rq)] |})
      | Raise x =>
          (Raise x, {| self := self st;
                       world := world st ++ [EvCall (MessagesRequestOf rq)] |})
      end
    else (Ok tt, st).
Proof.
  intros Hrq. unfold init_total_only. run_monad.
  destruct (num_leb (limit (self st)) (Fin 0)); [| reflexivity].
  rewrite Hrq. simpl.
  destruct (call client (List.length (requests_sent (world st))) (MessagesRequestOf rq))
    as [[c | [c |] ms us cs rate] | x]; reflexivity.
Qed.

Lemma init_cursor_eq kw max_id (st : State t) rq :
  request (self st) = Some rq ->
  init_cursor kw max_id st
  = let s1 :=
      match wait_time (self st) with
      | None =>
          set_wait_time
            (Some (if num_ltb (Fin 3000) (limit (self st)) then 1 else 0)) (self st)
      | Some _ => self st
      end in
    if reverse (self st) then
      match req_add_offset rq with
      | Some v =>
          (Ok tt,
           {| self :=
                set_last_id (Fin 0)
                  (set_min_id (kw_min_id kw)
                     (set_max_id max_id
                        (set_add_offset (kw_add_offset kw)
                           (set_request
                              (Some (with_add_offset (v - _MAX_CHUNK_SIZE) rq)) s1))));
              world := world st |})
      | None => (Raise (AttributeError "add_offset"), {| self := s1; world := world st |})
      end
    else
      (Ok tt,
       {| self :=
            set_last_id Inf
              (set_min_id (kw_min_id kw)
                 (set_max_id max_id (set_add_offset (kw_add_offset kw) s1)));
          world := world st |}).
Proof.
  intros Hrq. destruct st as [s w]. simpl in Hrq. unfold init_cursor. run_monad.
  destruct (wait_time s); simpl;
    (destruct (reverse s); simpl;
     [rewrite Hrq; simpl; destruct (req_add_offset rq); simpl; rewrite ?Hrq;
      reflexivity | reflexivity]).
Qed.

Lemma workaround_loop_eq items :
  forall (acc : M (State t) unit) (st : State t) s w rq,
    acc st = (Ok tt, {| self := set_request (Some rq) s; world := w |}) ->
    fold_left
      (fun acc m => acc ;; modify_request (with_offset_id (cm_id m + 1)))%py
      items acc st
    = (Ok tt, {| self := set_request (Some (probed_offset items rq)) s; world := w |}).
Proof.
  induction items as [| m items IH]; intros acc st s w rq Hacc.
  - exact Hacc.
  - simpl. apply IH. unfold bind. rewrite Hacc. reflexivity.
Qed.

Lemma date_workaround_eq probe peer date (st : State t) rq :
  request (self st) = Some rq ->
  date_workaround probe peer date st
  = (ending_result (snd (fst (probe peer date (world st)))),
     {| self := set_request
                  (Some (probed_offset (fst (fst (probe peer date (world st)))) rq))
                  (self st);
        world := snd (probe peer date (world st)) |}).
Proof.
  intros Hrq. unfold date_workaround.
  destruct (probe peer date (world st)) as [[items ending] w]. simpl.
  unfold bind at 1.
  rewrite (workaround_loop_eq items (ret tt) _ (self st) w rq).
  - destruct ending; reflexivity.
  - unfold ret. simpl. f_equal. f_equal.
    destruct (self st); simpl in *; subst; reflexivity.
Qed.

(** What [init_request] leaves alone, and the kind of the request it
    assigns. *)
Lemma init_request_spec client probe kw offset_id from_user (st : State t) r st' :
  init_request client probe kw offset_id from_user st = (r, st') ->
  reverse (self st') = reverse (self st)
  /\ limit (self st') = limit (self st)
  /\ left (self st') = left (self st)
  /\ wait_time (self st') = wait_time (self st)
  /\ entity (self st') = entity (self st)
  /\ total (self st') = total (self st)
  /\ ((exists rq, request (self st') = Some rq
                  /\ req_kind rq = selected_kind (self st) kw from_user)
      \/ (request (self st') = request (self st) /\ r <> Ok tt
          /\ world st' = world st)).
Proof.
  intros H. unfold init_request in H. destruct st as [s w].
  unfold selected_kind, search_condition. simpl.
  cbv beta iota zeta delta [bind get_self modify_self ret raise lift_res] in H.
  simpl in H.
  destruct (entity s) as [peer |] eqn:Ent.
  2:{ injection H as Hr Hs; subst r st'. simpl. rewrite Ent.
      repeat split; try reflexivity. left. eexists. split; reflexivity. }
  destruct (kw_scheduled kw).
  { injection H as Hr Hs; subst r st'. simpl. rewrite Ent.
    repeat split; try reflexivity. left. eexists. split; reflexivity. }
  destruct (kw_reply_to kw) as [reply_to |].
  { injection H as Hr Hs; subst r st'. simpl. rewrite Ent.
    repeat split; try reflexivity. left. eexists. split; reflexivity. }
  simpl.
  destruct (is_some (kw_search kw)
            || negb (is_InputMessagesFilterEmpty (instantiate_filter (kw_filter kw)))
            || is_some from_user).
  2:{ injection H as Hr Hs; subst r st'. simpl. rewrite Ent.
      repeat split; try reflexivity. left. eexists. split; reflexivity. }
  destruct (_entity_type client peer) as [ty | x].
  2:{ injection H as Hr Hs; subst r st'. simpl.
      repeat split; try reflexivity; try exact Ent. right. repeat split. discriminate. }
  assert (Hdone :
    forall (s1 : t) rq0 (m : M (State t) unit),
      reverse s1 = reverse s -> limit s1 = limit s -> left s1 = left s ->
      wait_time s1 = wait_time s -> entity s1 = entity s -> total s1 = total s ->
      request s1 = Some rq0 -> req_kind rq0 = Search ->
      m = match kw_offset_date kw with
          | Some date =>
              if negb (is_InputMessagesFilterEmpty (instantiate_filter (kw_filter kw)))
                 && negb (truthy_str (kw_search kw)) && (offset_id =? 0)
              then date_workaround probe peer date
              else (fun s0 : State t => (Ok tt, s0))
          | None => fun s0 : State t => (Ok tt, s0)
          end ->
      m {| self := s1; world := w |} = (r, st') ->
      reverse (self st') = reverse s /\ limit (self st') = limit s
      /\ left (self st') = left s /\ wait_time (self st') = wait_time s
      /\ entity (self st') = Some peer /\ total (self st') = total s
      /\ ((exists rq, request (self st') = Some rq /\ req_kind rq = Search)
          \/ (request (self st') = request s /\ r <> Ok tt /\ world st' = w))).
  { intros s1 rq0 m H1 H2 H3 H4 H5 H6 H7 H8 -> Hm.
    assert (Hplain : (Ok tt, {| self := s1; world := w |}) = (r, st') ->
      reverse (self st') = reverse s /\ limit (self st') = limit s
      /\ left (self st') = left s /\ wait_time (self st') = wait_time s
      /\ entity (self st') = Some peer /\ total (self st') = total s
      /\ ((exists rq, request (self st') = Some rq /\ req_kind rq = Search)
          \/ (request (self st') = request s /\ r <> Ok tt /\ world st' = w))).
    { intros Heq. injection Heq as Hr Hs; subst r st'. simpl.
      rewrite H1, H2, H3, H4, H5, H6, Ent. repeat split.
      left. exists rq0. split; assumption. }
    destruct (kw_offset_date kw) as [date |]; [| exact (Hplain Hm)].
    destruct (negb (is_InputMessagesFilterEmpty (instantiate_filter (kw_filter kw)))
              && negb (truthy_str (kw_search kw)) && (offset_id =? 0));
      [| exact (Hplain Hm)].
    rewrite (date_workaround_eq probe peer date {| self := s1; world := w |} rq0 H7) in Hm.
    injection Hm as Hr Hs; subst r st'. simpl.
    rewrite H1, H2, H3, H4, H5, H6, Ent. repeat split.
    left. eexists. split; [reflexivity |].
    clear - H8. generalize dependent rq0.
    induction (fst (fst (probe peer date w))) as [| m items IH]; intros rq0 H8.
    - exact H8.
    - simpl. apply IH. exact H8. }
  destruct ty; simpl in H;
    (eapply Hdone in H; [exact H | try reflexivity; try exact Ent ..]).
Qed.

(** ** [_init] block by block *)

(** Where [_init] can end: in one of its blocks, with the exception of
    that block, or after the last one. *)
Lemma init_inv client probe kw (st : State t) r st' :
  _init client probe kw st = (r, st') ->
  (exists e, init_entity client kw st = (Raise e, st') /\ r = Raise e)
  \/ exists st1,
      init_entity client kw st = (Ok tt, st1)
      /\ ((window_collapsed (reverse (self st1)) kw = true
           /\ r = Raise StopAsyncIteration /\ st' = st1)
          \/ (window_collapsed (reverse (self st1)) kw = false
              /\ ((exists e, init_from_user client kw st1 = (Raise e, st') /\ r = Raise e)
                  \/ exists from_user st2,
                      init_from_user client kw st1 = (Ok from_user, st2)
                      /\ ((exists e,
                              init_request client probe kw
                                (anchor_of (reverse (self st1)) kw
                                   (window_offset (reverse (self st1)) kw))
                                from_user st2 = (Raise e, st')
                              /\ r = Raise e)
                          \/ exists st3,
                              init_request client probe kw
                                (anchor_of (reverse (self st1)) kw
                                   (window_offset (reverse (self st1)) kw))
                                from_user st2 = (Ok tt, st3)
                              /\ ((exists e, init_total_only client st3 = (Raise e, st')
                                             /\ r = Raise e)
                                  \/ exists st4,
                                      init_total_only client st3 = (Ok tt, st4)
                                      /\ init_cursor kw
                                           (window_max_id (reverse (self st1)) kw) st4
                                         = (r, st')))))).
Proof.
  intros H. unfold _init in H.
  apply bind_inv in H as [([] & st1 & H1 & H) | (e & H1 & ->)];
    [right; exists st1; split; [exact H1 |] | left; exists e; split; [exact H1 | reflexivity]].
  apply bind_inv in H as [(window & st1' & Hw & H) | (e & Hw & ->)];
    rewrite init_window_eq in Hw;
    destruct (window_collapsed (reverse (self st1)) kw); try discriminate;
    injection Hw as Hw1 Hw2; subst.
  2:{ left. repeat split. }
  right. split; [reflexivity |]. simpl in H.
  apply bind_inv in H as [(offset_id & sa & Ha & H) | (e & Ha & ->)];
    rewrite init_anchor_eq in Ha; try discriminate.
  injection Ha as Ha1 Ha2; subst.
  apply bind_inv in H as [(from_user & st2 & Hf & H) | (e & Hf & ->)];
    [right; exists from_user, st2; split; [exact Hf |]
    | left; exists e; split; [exact Hf | reflexivity]].
  apply bind_inv in H as [([] & st3 & Hr & H) | (e & Hr & ->)];
    [right; exists st3; split; [exact Hr |]
    | left; exists e; split; [exact Hr | reflexivity]].
  apply bind_inv in H as [([] & st4 & Ht & H) | (e & Ht & ->)];
    [right; exists st4; split; [exact Ht | exact H]
    | left; exists e; split; [exact Ht | reflexivity]].
Qed.

Lemma as_truthy_None e : as_truthy e = None <-> truthy_entity e = false.
Proof.
  unfold as_truthy. destruct (truthy_entity e) eqn:E.
  - destruct e; [split; discriminate | discriminate E].
  - split; reflexivity.
Qed.

Lemma init_entity_post client kw (st : State t) r st' :
  init_entity client kw st = (r, st') ->
  reverse (self st') = reverse (self st)
  /\ limit (self st') = limit (self st)
  /\ request (self st') = request (self st)
  /\ (r = Ok tt ->
      (entity (self st') = None <-> as_truthy (kw_entity kw) = None)).
Proof.
  rewrite init_entity_eq. intros H.
  destruct (as_truthy (kw_entity kw)) as [e |].
  - destruct (get_input_entity client e); injection H as Hr Hs; subst r st'; simpl;
      repeat split; try discriminate.
  - destruct (reverse (self st)) eqn:Hrev; injection H as Hr Hs; subst r st'; simpl;
      repeat split; try discriminate; try assumption.
Qed.

Lemma init_from_user_post client kw (st : State t) r st' :
  init_from_user client kw st = (r, st') ->
  reverse (self st') = reverse (self st)
  /\ limit (self st') = limit (self st)
  /\ request (self st') = request (self st)
  /\ forall from_user, r = Ok from_user ->
       (from_user = None <-> as_truthy (kw_from_user kw) = None)
       /\ (entity (self st') = None
           <-> entity (self st) = None /\ as_truthy (kw_from_user kw) = None).
Proof.
  rewrite init_from_user_eq. intros H.
  destruct (as_truthy (kw_from_user kw)) as [u |].
  - destruct (get_input_entity client u) as [p | x];
      injection H as Hr Hs; subst r st'; simpl.
    + destruct (entity (self st)) eqn:E; simpl; repeat split; intros;
        try discriminate; try congruence;
        match goal with
        | H : _ /\ _ |- _ => destruct H; discriminate
        | H : Ok _ = Ok _ |- _ => injection H as <-
        end; try discriminate.
    + repeat split; discriminate.
  - injection H as Hr Hs; subst r st'; simpl. repeat split; intros;
      try congruence; try tauto.
Qed.

Lemma init_total_only_post client (st : State t) r st' :
  init_total_only client st = (r, st') ->
  reverse (self st') = reverse (self st)
  /\ limit (self st') = limit (self st)
  /\ entity (self st') = entity (self st)
  /\ request (self st') = request (self st)
  /\ (r = Ok tt -> st' = st /\ num_leb (limit (self st)) (Fin 0) = false).
Proof.
  intros H. destruct (request (self st)) as [rq |] eqn:Hrq.
  - rewrite (init_total_only_eq client st rq Hrq) in H.
    destruct (num_leb (limit (self st)) (Fin 0)).
    + destruct (call client _ _); injection H as Hr Hs; subst r st'; simpl;
        repeat split; try assumption; discriminate.
    + injection H as Hr Hs; subst r st'. repeat split; assumption.
  - unfold init_total_only in H. destruct st as [s w]. simpl in Hrq |- *.
    cbv beta iota zeta delta [bind get_self get_request attr ret raise] in H.
    simpl in H.
    destruct (num_leb (limit s) (Fin 0)); simpl in H; try rewrite Hrq in H;
      simpl in H; injection H as Hr Hs; subst r st'; simpl; repeat split; try assumption;
      try discriminate.
Qed.

Lemma init_cursor_post kw max_id' (st : State t) r st' :
  init_cursor kw max_id' st = (r, st') ->
  reverse (self st') = reverse (self st)
  /\ limit (self st') = limit (self st)
  /\ entity (self st') = entity (self st)
  /\ (forall rq', request (self st') = Some rq' ->
        exists rq, request (self st) = Some rq /\ req_kind rq' = req_kind rq)
  /\ (request (self st) <> None -> request (self st') <> None)
  /\ (r = Ok tt ->
      min_id (self st') = kw_min_id kw
      /\ max_id (self st') = max_id'
      /\ last_id (self st') = (if reverse (self st) then Fin 0 else Inf)).
Proof.
  intros H. destruct (request (self st)) as [rq |] eqn:Hrq.
  - rewrite (init_cursor_eq kw max_id' st rq Hrq) in H. cbv zeta in H.
    destruct (reverse (self st)) eqn:Hrev.
    + destruct (req_add_offset rq); injection H as Hr Hs; subst r st'; simpl;
        destruct (wait_time (self st)); simpl;
        (split; [assumption |]); (split; [reflexivity |]); (split; [reflexivity |]);
        (split; [intros rq' Hrq'; try (rewrite Hrq in Hrq');
                 injection Hrq' as <-; exists rq; split; reflexivity |]);
        (split; [try rewrite Hrq; discriminate |]);
        try discriminate; intros _; repeat split.
    + injection H as Hr Hs; subst r st'; simpl.
      destruct (wait_time (self st)); simpl;
        (split; [assumption |]); (split; [reflexivity |]); (split; [reflexivity |]);
        (split; [intros rq' Hrq'; rewrite Hrq in Hrq';
                 injection Hrq' as <-; exists rq; split; reflexivity |]);
        (split; [rewrite Hrq; discriminate |]);
        intros _; repeat split.
  - unfold init_cursor in H. destruct st as [s w]. simpl in Hrq |- *.
    cbv beta iota zeta delta
      [bind get_self get_request modify_request modify_self attr ret raise] in H.
    simpl in H.
    destruct (wait_time s); simpl in H;
      (destruct (reverse s) eqn:Hrev; simpl in H;
       [rewrite Hrq in H; simpl in H |]);
      injection H as Hr Hs; subst r st'; simpl;
      (split; [assumption |]); (split; [reflexivity |]); (split; [reflexivity |]);
      (split; [intros rq' Hrq'; rewrite Hrq in Hrq'; discriminate |]);
      (split; [intros Hne; exfalso; apply Hne; reflexivity |]);
      try discriminate; intros _; repeat split.
Qed.

(** The state [_init] leaves: the request, when one was assigned, has the
    kind the chain of tests selects for the arguments; after a normal
    return the range attributes are those of the arguments. *)
Lemma init_post client probe kw (st : State t) r st' :
  request (self st) = None ->
  _init client probe kw st = (r, st') ->
  reverse (self st') = reverse (self st)
  /\ limit (self st') = limit (self st)
  /\ (forall rq, request (self st') = Some rq ->
        exists s2 from_user,
          req_kind rq = selected_kind s2 kw from_user
          /\ entity (self st') = entity s2
          /\ (entity s2 = None
              <-> as_truthy (kw_entity kw) = None /\ as_truthy (kw_from_user kw) = None)
          /\ (from_user = None <-> as_truthy (kw_from_user kw) = None))
  /\ (r = Ok tt ->
      request (self st') <> None
      /\ num_leb (limit (self st)) (Fin 0) = false
      /\ min_id (self st') = kw_min_id kw
      /\ max_id (self st') = window_max_id (reverse (self st)) kw
      /\ last_id (self st') = (if reverse (self st) then Fin 0 else Inf)).
Proof.
  intros Hnone H. apply init_inv in H.
  destruct H as [(e & H1 & ->) | (st1 & H1 & H)].
  { apply init_entity_post in H1 as (Hr & Hl & Hq & _).
    repeat split; try assumption; try discriminate.
    intros rq Hrq. congruence. }
  apply init_entity_post in H1 as (Hr1 & Hl1 & Hq1 & He1).
  specialize (He1 eq_refl).
  destruct H as [(_ & -> & ->) | (_ & H)].
  { repeat split; try assumption; try discriminate.
    intros rq Hrq. congruence. }
  destruct H as [(e & H2 & ->) | (from_user & st2 & H2 & H)].
  { apply init_from_user_post in H2 as (Hr & Hl & Hq & _).
    repeat split; try congruence; try discriminate. }
  apply init_from_user_post in H2 as (Hr2 & Hl2 & Hq2 & Hf2).
  destruct (Hf2 from_user eq_refl) as (Hfu & He2). clear Hf2.
  assert (Hent2 : entity (self st2) = None
                  <-> as_truthy (kw_entity kw) = None
                      /\ as_truthy (kw_from_user kw) = None) by tauto.
  destruct H as [(e & H3 & ->) | (st3 & H3 & H)].
  { apply init_request_spec in H3 as (Hr & Hl & _ & _ & He & _ & Hk).
    repeat split; try congruence; try discriminate.
    intros rq Hrq. destruct Hk as [(rq' & Hrq' & Hk) | (Hsame & _)].
    - exists (self st2), from_user. rewrite Hrq in Hrq'. injection Hrq' as <-.
      repeat split; tauto || assumption.
    - congruence. }
  apply init_request_spec in H3 as (Hr3 & Hl3 & _ & _ & He3 & _ & Hk3).
  destruct Hk3 as [(rq3 & Hrq3 & Hk3) | (_ & Habs & _)]; [| congruence].
  destruct H as [(e & H4 & ->) | (st4 & H4 & H)].
  { apply init_total_only_post in H4 as (Hr & Hl & He & Hq & _).
    repeat split; try congruence; try discriminate.
    intros rq Hrq. exists (self st2), from_user.
    rewrite Hq, Hrq3 in Hrq. injection Hrq as <-.
    repeat split; try tauto; congruence. }
  apply init_total_only_post in H4 as (Hr4 & Hl4 & He4 & Hq4 & Hok4).
  destruct (Hok4 eq_refl) as (-> & Hlim). clear Hok4.
  apply init_cursor_post in H as (Hr5 & Hl5 & He5 & Hq5 & Hne5 & Hok5).
  split; [congruence |]. split; [congruence |]. split.
  - intros rq Hrq. destruct (Hq5 rq Hrq) as (rq0 & Hrq0 & Hk).
    exists (self st2), from_user. rewrite Hrq3 in Hrq0. injection Hrq0 as <-.
    repeat split; try tauto; congruence.
  - intros ->. destruct (Hok5 eq_refl) as (Hmin & Hmax & Hlast).
    rewrite Hr3, Hr2, Hr1 in Hlast. rewrite Hr1 in Hmax.
    split; [apply Hne5; congruence |].
    split; [congruence |].
    split; [assumption |]. split; assumption.
Qed.

(** ** Request variant *)

Lemma selected_kind_by_precedence a (s2 : t) from_user :
  (entity s2 = None
   <-> as_truthy (ga_entity a) = None /\ as_truthy (ga_from_user a) = None) ->
  (from_user = None <-> as_truthy (ga_from_user a) = None) ->
  variant_of (selected_kind s2 (snd (messages_iter_of a)) from_user)
  = variant_by_precedence a.
Proof.
  intros He Hf. rewrite !as_truthy_None in He. rewrite as_truthy_None in Hf.
  unfold selected_kind, variant_by_precedence, search_condition. simpl.
  destruct (truthy_entity (ga_entity a)); destruct (truthy_entity (ga_from_user a));
    simpl;
    (destruct (entity s2);
     [| try (exfalso; destruct He as [He _]; destruct (He eq_refl); discriminate)]);
    try (exfalso; destruct He as [_ He]; specialize (He (conj eq_refl eq_refl));
         discriminate);
    try reflexivity;
    destruct (ga_scheduled a); try reflexivity;
    destruct (ga_reply_to a); try reflexivity; simpl;
    (destruct from_user;
     [| try (exfalso; destruct Hf as [Hf _]; specialize (Hf eq_refl); discriminate)]);
    try (exfalso; destruct Hf as [_ Hf]; specialize (Hf eq_refl); discriminate);
    simpl; rewrite ?orb_true_r, ?orb_false_r;
    destruct (is_some (ga_search a)
              || negb (is_InputMessagesFilterEmpty (instantiate_filter (ga_filter a))));
    reflexivity.
Qed.

(** Whenever [_init] has assigned the request, its kind is the variant the
    precedence of the specification gives for the arguments, and [_init]
    never returns normally without having assigned it. *)
Lemma assigned_request_follows_precedence client a w :
  match request (self (snd (initialize client a w))) with
  | Some rq => variant_of (req_kind rq) = variant_by_precedence a
  | None => fst (initialize client a w) <> Ok tt
  end.
Proof.
  unfold initialize.
  destruct (messages_iter_of a) as [it kw] eqn:Hk.
  assert (Hkw : kw = snd (messages_iter_of a)) by (rewrite Hk; reflexivity).
  assert (Hit : request it = None)
    by (unfold messages_iter_of in Hk; injection Hk as <- _; reflexivity).
  destruct (_init client (date_probe client) kw {| self := it; world := w |})
    as [r st'] eqn:Hinit.
  apply init_post in Hinit as (_ & _ & Hrq & Hok); [| exact Hit].
  simpl. destruct (request (self st')) as [rq |] eqn:E.
  - destruct (Hrq rq eq_refl) as (s2 & from_user & Hkind & _ & He & Hf).
    rewrite Hkind, Hkw. apply selected_kind_by_precedence.
    + rewrite Hkw in He. exact He.
    + rewrite Hkw in Hf. exact Hf.
  - intros ->. destruct (Hok eq_refl) as (Hne & _). apply Hne. reflexivity.
Qed.

Example global_search_is_selected :
  Scenario.kind_built (Scenario.scripted []) Scenario.global_search = Some SearchGlobal.
Proof. reflexivity. Qed.

Example scheduled_list_is_selected :
  Scenario.kind_built (Scenario.scripted []) Scenario.scheduled_list
  = Some GetScheduledHistory.
Proof. reflexivity. Qed.

Example thread_replies_is_selected :
  Scenario.kind_built (Scenario.scripted []) Scenario.thread_replies = Some GetReplies.
Proof. reflexivity. Qed.

Example filtered_search_is_selected :
  Scenario.kind_built (Scenario.scripted []) Scenario.from_filter = Some Search.
Proof. reflexivity. Qed.

Example plain_history_is_selected :
  Scenario.kind_built (Scenario.scripted [])
    (Scenario.bounded (Some 10) 0 0 false) = Some GetHistory.
Proof. reflexivity. Qed.

(** ** Order and bounds of the produced identifiers *)

(** C3: in a traversal with a target peer (given, or [InputPeerEmpty] set
    for a from-filter), the identifiers produced are strictly decreasing
    and above [min_id] in forward mode, strictly increasing, positive and
    below [max_id] in reverse mode. *)
Theorem produced_ids_ordered_within_bounds client fuel a w :
  truthy_entity (ga_entity a) = true \/ truthy_entity (ga_from_user a) = true ->
  ordered_within_bounds a (produced_ids (iterate client fuel a w)).
Proof.
  intros Hpeer. unfold iterate, run, produced_ids.
  destruct (messages_iter_of a) as [it kw] eqn:Hk.
  assert (Hkw : kw = snd (messages_iter_of a)) by (rewrite Hk; reflexivity).
  assert (Hit : request it = None /\ reverse it = ga_reverse a)
    by (unfold messages_iter_of in Hk; injection Hk as <- _; split; reflexivity).
  destruct Hit as (Hit & Hrev0).
  assert (Hnil : ordered_within_bounds a []).
  { unfold ordered_within_bounds. destruct (ga_reverse a); split; constructor. }
  destruct (_init client (date_probe client) kw {| self := it; world := w |})
    as [[[] | e] st1] eqn:Hinit.
  2:{ destruct e; exact Hnil. }
  apply init_post in Hinit as (Hrev & _ & Hrq & Hok); [| exact Hit].
  destruct (Hok eq_refl) as (Hne & _ & Hmin & Hmax & Hlast). simpl in *.
  rewrite Hrev0 in Hrev, Hmax, Hlast. rewrite Hkw in Hmin, Hmax. simpl in Hmin.
  destruct (request (self st1)) as [rq |] eqn:E; [| congruence].
  destruct (Hrq rq eq_refl) as (s2 & from_user & _ & Hent & He & _).
  assert (Hentity : entity (self st1) <> None).
  { rewrite Hent. intros Hn. apply He in Hn. rewrite !as_truthy_None in Hn.
    rewrite Hkw in Hn. simpl in Hn. destruct Hn, Hpeer; congruence. }
  assert (Hinv : range_inv (self st1) []).
  { unfold range_inv, in_order. rewrite Hlast.
    destruct (reverse (self st1)); destruct (ga_reverse a); try discriminate;
      repeat split; constructor. }
  destruct (pull_in_order client fuel st1 [] Hentity Hinv) as (l & Hl).
  simpl in Hl. unfold in_order in Hl. unfold ordered_within_bounds.
  rewrite Hrev, Hmin, Hmax in Hl.
  destruct (ga_reverse a).
  - destruct Hl as (Hs & _ & Hall). split; [exact Hs |].
    eapply Forall_impl; [| exact Hall]. simpl. intros i (_ & Hpos & Hlt).
    split; [exact Hpos |]. unfold window_max_id in Hlt. simpl in Hlt.
    destruct (ga_max_id a =? 0) eqn:Ez;
      [left; apply Z.eqb_eq; exact Ez | right; simpl in Hlt; apply Z.ltb_lt; exact Hlt].
  - destruct Hl as (Hs & Hall). split; [exact Hs |].
    eapply Forall_impl; [| exact Hall]. simpl. intros i (_ & Hlt). exact Hlt.
Qed.

Lemma produced_ids_ordered_within_bounds_witness :
  produced_ids
    (iterate (Scenario.scripted [Scenario.reply [50; 49; 48]]) 5
       (Scenario.bounded (Some 10) 0 0 false) [])
  = [50; 49; 48]
  /\ ordered_within_bounds (Scenario.bounded (Some 10) 0 0 false)
       (produced_ids
          (iterate (Scenario.scripted [Scenario.reply [50; 49; 48]]) 5
             (Scenario.bounded (Some 10) 0 0 false) [])).
Proof.
  split; [reflexivity |].
  apply (produced_ids_ordered_within_bounds
           (Scenario.scripted [Scenario.reply [50; 49; 48]]) 5
           (Scenario.bounded (Some 10) 0 0 false) []).
  left. reflexivity.
Defined.

(** C3, the claim as stated, fails for a global search: the messages 5 and
    7 of the reply are both produced, in that order, although they are not
    decreasing and 5 is below [min_id = 6]. *)
Lemma global_search_ids_unordered :
  produced_ids
    (iterate (Scenario.scripted [Scenario.reply [5; 7]]) 5 Scenario.global_search [])
  = [5; 7]
  /\ (ordered_within_bounds Scenario.global_search [5; 7] -> False).
Proof.
  split; [reflexivity |].
  unfold ordered_within_bounds. simpl. intros (Hs & Hall).
  inversion Hall; subst. lia.
Qed.

(** The bound on the side of the anchor is left to the service: a forward
    traversal with [max_id = 50] produces the message 50 when the reply
    holds it. *)
Example forward_max_id_is_not_checked_locally :
  produced_ids
    (iterate (Scenario.scripted [Scenario.reply [50; 49]]) 5
       (Scenario.bounded (Some 10) 0 50 false) [])
  = [50; 49].
Proof. reflexivity. Qed.

(** ** Construction that ends early *)

Lemma requests_sent_app w1 w2 :
  requests_sent (w1 ++ w2) = requests_sent w1 ++ requests_sent w2.
Proof. unfold requests_sent. apply flat_map_app. Qed.

Lemma requests_sent_resolve w e : requests_sent (w ++ [EvResolve e]) = requests_sent w.
Proof. rewrite requests_sent_app. simpl. apply app_nil_r. Qed.

Lemma requests_sent_call w r : requests_sent (w ++ [EvCall r]) = requests_sent w ++ [r].
Proof. rewrite requests_sent_app. reflexivity. Qed.

Lemma window_collapsed_iff a :
  window_collapsed (ga_reverse a) (snd (messages_iter_of a)) = true
  <-> computed_offset a <> 0 /\ opposite_bound a <> 0 /\ window_width a <= 1.
Proof.
  unfold window_width, opposite_bound, computed_offset, window_collapsed, window_offset.
  simpl. destruct (ga_reverse a);
    rewrite !andb_true_iff, !negb_true_iff, !Z.eqb_neq, Z.leb_le; tauto.
Qed.

(** A reverse traversal without a target peer is refused before anything
    is resolved or sent. *)
Lemma init_reverse_global client probe kw (st : State t) :
  reverse (self st) = true ->
  truthy_entity (kw_entity kw) = false ->
  _init client probe kw st
  = (Raise (ValueError "Cannot reverse global search"),
     {| self := set_entity None (self st); world := world st |}).
Proof.
  intros Hrev Hent. unfold _init. apply bind_raise.
  rewrite init_entity_eq. apply as_truthy_None in Hent. rewrite Hent, Hrev.
  reflexivity.
Qed.

(** A collapsed window ends [_init] with [StopAsyncIteration], once the
    target peer is resolved and before any request. *)
Lemma init_collapsed client probe kw (st : State t) :
  (reverse (self st) = true -> truthy_entity (kw_entity kw) = true) ->
  (forall e, as_truthy (kw_entity kw) = Some e ->
             exists p, get_input_entity client e = Ok p) ->
  window_collapsed (reverse (self st)) kw = true ->
  exists st',
    _init client probe kw st = (Raise StopAsyncIteration, st')
    /\ requests_sent (world st') = requests_sent (world st)
    /\ buffer (self st') = buffer (self st)
    /\ total (self st') = total (self st).
Proof.
  intros Hrev Hres Hcol. unfold _init.
  destruct (as_truthy (kw_entity kw)) as [e |] eqn:He.
  - destruct (Hres e eq_refl) as (p & Hp).
    eexists. split.
    + erewrite bind_ok; [| rewrite init_entity_eq, He, Hp; reflexivity].
      apply bind_raise. rewrite init_window_eq. simpl. rewrite Hcol. reflexivity.
    + simpl. rewrite requests_sent_resolve. repeat split.
  - assert (Hfwd : reverse (self st) = false).
    { destruct (reverse (self st)); [| reflexivity].
      apply as_truthy_None in He. rewrite Hrev in He; [discriminate | reflexivity]. }
    eexists. split.
    + erewrite bind_ok; [| rewrite init_entity_eq, He, Hfwd; reflexivity].
      apply bind_raise. rewrite init_window_eq. simpl. rewrite Hcol. reflexivity.
    + repeat split.
Qed.

(** C2: when the computed offset and the opposite bound are both set and
    at most one apart, so that no identifier lies strictly between them,
    the iterator is empty at once: no item, a normal end, no request. *)
Theorem collapsed_window_is_empty client fuel a w :
  (ga_reverse a = true -> truthy_entity (ga_entity a) = true) ->
  (forall e, as_truthy (ga_entity a) = Some e ->
             exists p, get_input_entity client e = Ok p) ->
  computed_offset a <> 0 ->
  opposite_bound a <> 0 ->
  window_width a <= 1 ->
  produced_ids (iterate client fuel a w) = []
  /\ ending_of (iterate client fuel a w) = Exhausted
  /\ requests_sent (world (snd (iterate client fuel a w))) = requests_sent w.
Proof.
  intros Hrev Hres Hoff Hbound Hwidth.
  assert (Hcol : window_collapsed (ga_reverse a) (snd (messages_iter_of a)) = true)
    by (apply window_collapsed_iff; auto).
  unfold iterate, run, produced_ids, ending_of. simpl in *.
  match goal with
  | |- context [_init client ?p ?kw ?st] =>
      destruct (init_collapsed client p kw st Hrev Hres Hcol) as (st' & Hinit & Hw & _)
  end.
  rewrite Hinit. simpl. repeat split. exact Hw.
Qed.

Lemma collapsed_window_is_empty_witness :
  produced_ids
    (iterate (Scenario.scripted [Scenario.reply [101]]) 5
       (Scenario.bounded (Some 10) 100 101 false) []) = []
  /\ ending_of
       (iterate (Scenario.scripted [Scenario.reply [101]]) 5
          (Scenario.bounded (Some 10) 100 101 false) []) = Exhausted
  /\ requests_sent
       (world (snd (iterate (Scenario.scripted [Scenario.reply [101]]) 5
                      (Scenario.bounded (Some 10) 100 101 false) []))) = [].
Proof.
  apply (collapsed_window_is_empty (Scenario.scripted [Scenario.reply [101]]) 5
           (Scenario.bounded (Some 10) 100 101 false) []).
  - discriminate.
  - intros e He. injection He as <-. eexists. reflexivity.
  - vm_compute. discriminate.
  - vm_compute. discriminate.
  - vm_compute. discriminate.
Defined.

(** C2, the claim as stated, fails on its own scenario: a forward traversal
    with [min_id = 100] and [max_id = 102] is not cut at construction; it
    sends its request, anchored at 102, and produces the message 101. *)
Lemma window_of_one_identifier_is_fetched :
  fst (initialize (Scenario.scripted [Scenario.reply [101]])
         (Scenario.bounded (Some 10) 100 102 false) []) = Ok tt
  /\ produced_ids
       (iterate (Scenario.scripted [Scenario.reply [101]]) 5
          (Scenario.bounded (Some 10) 100 102 false) []) = [101]
  /\ List.length
       (requests_sent
          (world (snd (iterate (Scenario.scripted [Scenario.reply [101]]) 5
                         (Scenario.bounded (Some 10) 100 102 false) [])))) = 1%nat.
Proof. repeat split. Qed.

(** C9: a reverse traversal without a target peer raises [ValueError]
    before anything is resolved or sent; a collapsed window is not an
    error: [_init] ends with [StopAsyncIteration], the normal end of the
    sequence, once the target peer is resolved and before any request. *)
Theorem invalid_configuration_at_construction client a w :
  (ga_reverse a = true ->
   truthy_entity (ga_entity a) = false ->
   fst (initialize client a w) = Raise (ValueError "Cannot reverse global search")
   /\ world (snd (initialize client a w)) = w)
  /\ ((ga_reverse a = true -> truthy_entity (ga_entity a) = true) ->
      (forall e, as_truthy (ga_entity a) = Some e ->
                 exists p, get_input_entity client e = Ok p) ->
      computed_offset a <> 0 ->
      opposite_bound a <> 0 ->
      window_width a <= 1 ->
      fst (initialize client a w) = Raise StopAsyncIteration
      /\ requests_sent (world (snd (initialize client a w))) = requests_sent w).
Proof.
  split.
  - intros Hrev Hent. unfold initialize. simpl.
    rewrite init_reverse_global; [split; reflexivity | exact Hrev | exact Hent].
  - intros Hrev Hres Hoff Hbound Hwidth.
    assert (Hcol : window_collapsed (ga_reverse a) (snd (messages_iter_of a)) = true)
      by (apply window_collapsed_iff; auto).
    unfold initialize. simpl in *.
    match goal with
    | |- context [_init client ?p ?kw ?st] =>
        destruct (init_collapsed client p kw st Hrev Hres Hcol) as (st' & Hinit & Hw & _)
    end.
    rewrite Hinit. split; [reflexivity | exact Hw].
Qed.

Lemma invalid_configuration_at_construction_witness :
  (fst (initialize (Scenario.scripted []) Scenario.reverse_global [])
   = Raise (ValueError "Cannot reverse global search")
   /\ world (snd (initialize (Scenario.scripted []) Scenario.reverse_global [])) = [])
  /\ (fst (initialize (Scenario.scripted [])
             (Scenario.bounded (Some 10) 100 101 true) [])
      = Raise StopAsyncIteration
      /\ requests_sent
           (world (snd (initialize (Scenario.scripted [])
                          (Scenario.bounded (Some 10) 100 101 true) []))) = []).
Proof.
  split.
  - apply (proj1 (invalid_configuration_at_construction
                    (Scenario.scripted []) Scenario.reverse_global []));
      reflexivity.
  - apply (proj2 (invalid_configuration_at_construction
                    (Scenario.scripted [])
                    (Scenario.bounded (Some 10) 100 101 true) [])).
    + reflexivity.
    + intros e He. injection He as <-. eexists. reflexivity.
    + vm_compute. discriminate.
    + vm_compute. discriminate.
    + vm_compute. discriminate.
Defined.

(** C9, the claim as stated, fails for the collapsed window: construction
    raises no error there; it ends with [StopAsyncIteration], and the
    caller sees an empty sequence that ends normally. *)
Lemma collapsed_window_is_not_an_error :
  fst (initialize (Scenario.scripted [])
         (Scenario.bounded (Some 10) 100 101 false) []) = Raise StopAsyncIteration
  /\ iterate (Scenario.scripted []) 5 (Scenario.bounded (Some 10) 100 101 false) []
     = (([], Exhausted),
        snd (initialize (Scenario.scripted [])
               (Scenario.bounded (Some 10) 100 101 false) [])).
Proof. split; reflexivity. Qed.

(** ** Construction that reaches the request *)

(** The request [init_request] builds, when no nested traversal runs. *)
Lemma init_request_plain client probe kw offset_id from_user (st : State t) :
  (selected_kind (self st) kw from_user = Search ->
   (exists peer ty, entity (self st) = Some peer /\ _entity_type client peer = Ok ty)
   /\ workaround_condition kw offset_id = false) ->
  exists rq s',
    init_request client probe kw offset_id from_user st
    = (Ok tt, {| self := set_request (Some rq) s'; world := world st |})
    /\ req_kind rq = selected_kind (self st) kw from_user
    /\ (s' = self st \/ s' = set_from_id None (self st))
    /\ (req_kind rq <> GetScheduledHistory -> req_offset_id rq = Some offset_id)
    /\ (req_kind rq <> GetScheduledHistory -> req_kind rq <> SearchGlobal ->
        req_add_offset rq = Some (kw_add_offset kw)).
Proof.
  intros Hsearch. unfold init_request. destruct st as [s w].
  unfold selected_kind, search_condition, workaround_condition in *. simpl in *.
  cbv beta iota zeta delta [bind get_self modify_self ret raise lift_res]. simpl.
  destruct (entity s) as [peer |] eqn:Ent.
  2:{ eexists _, s. split; [reflexivity |]. simpl.
      repeat split; try (left; reflexivity); congruence. }
  destruct (kw_scheduled kw).
  { eexists _, s. split; [reflexivity |]. simpl.
    repeat split; try (left; reflexivity); congruence. }
  destruct (kw_reply_to kw) as [reply_to |]; simpl in *.
  { eexists _, s. split; [reflexivity |]. simpl.
    repeat split; try (left; reflexivity); congruence. }
  destruct (is_some (kw_search kw)
            || negb (is_InputMessagesFilterEmpty (instantiate_filter (kw_filter kw)))
            || is_some from_user).
  2:{ eexists _, s. split; [reflexivity |]. simpl.
      repeat split; try (left; reflexivity); congruence. }
  destruct (Hsearch eq_refl) as ((peer' & ty & Hp & Hty) & Hw).
  injection Hp as <-. rewrite Hty. simpl.
  assert (Hno :
    match kw_offset_date kw with
    | Some date =>
        if negb (is_InputMessagesFilterEmpty (instantiate_filter (kw_filter kw)))
           && negb (truthy_str (kw_search kw)) && (offset_id =? 0)
        then date_workaround probe peer date
        else (fun s0 : State t => (Ok tt, s0))
    | None => fun s0 : State t => (Ok tt, s0)
    end = (fun s0 : State t => (Ok tt, s0))).
  { destruct (kw_offset_date kw); [| reflexivity]. simpl in Hw. rewrite Hw.
    reflexivity. }
  destruct ty; simpl; rewrite Hno;
    [eexists _, s | eexists _, (set_from_id None s) | eexists _, (set_from_id None s)];
    (split; [reflexivity |]); simpl;
    repeat split; try (left; reflexivity); try (right; reflexivity); congruence.
Qed.

Lemma target_peer_None client a :
  resolves client (ga_entity a) ->
  (target_peer client a = None
   <-> as_truthy (ga_entity a) = None /\ as_truthy (ga_from_user a) = None).
Proof.
  unfold resolves, target_peer. intros Hres.
  destruct (as_truthy (ga_entity a)) as [e |].
  - destruct Hres as (p & ->). split; [discriminate | intros (H & _); discriminate].
  - rewrite as_truthy_None. destruct (truthy_entity (ga_from_user a));
      split; try discriminate; try tauto. intros (_ & H). discriminate.
Qed.

Lemma window_offset_computed a :
  window_offset (ga_reverse a) (snd (messages_iter_of a)) = computed_offset a.
Proof. unfold window_offset, computed_offset. simpl. destruct (ga_reverse a); reflexivity. Qed.

(** Lines 26-70 under the conditions below: the peers are resolved,
    nothing is sent, and the cursor is untouched. *)
Lemma init_upto_from_user client a w :
  (ga_reverse a = true -> truthy_entity (ga_entity a) = true) ->
  resolves client (ga_entity a) ->
  resolves client (ga_from_user a) ->
  window_collapsed (ga_reverse a) (snd (messages_iter_of a)) = false ->
  exists from_user st2,
    (forall A (k : Z * num -> Z -> option InputPeer -> M (State t) A),
        (init_entity client (snd (messages_iter_of a)) ;;
         window <- init_window (snd (messages_iter_of a)) ;;
         offset_id <- init_anchor (snd (messages_iter_of a)) (fst window) ;;
         from_user <- init_from_user client (snd (messages_iter_of a)) ;;
         k window offset_id from_user)%py
          {| self := fst (messages_iter_of a); world := w |}
        = k (computed_offset a,
             window_max_id (ga_reverse a) (snd (messages_iter_of a)))
            (anchor a) from_user st2)
    /\ entity (self st2) = target_peer client a
    /\ (from_user = None <-> as_truthy (ga_from_user a) = None)
    /\ requests_sent (world st2) = requests_sent w
    /\ reverse (self st2) = ga_reverse a
    /\ limit (self st2) = limit (fst (messages_iter_of a))
    /\ wait_time (self st2) = ga_wait_time a
    /\ buffer (self st2) = []
    /\ total (self st2) = None
    /\ request (self st2) = None.
Proof.
  intros Hrev Hres1 Hres2 Hwin.
  unfold resolves, target_peer in *.
  assert (Hstep : forall (st1 : State t) from_user st2,
             reverse (self st1) = ga_reverse a ->
             init_entity client (snd (messages_iter_of a))
               {| self := fst (messages_iter_of a); world := w |} = (Ok tt, st1) ->
             init_from_user client (snd (messages_iter_of a)) st1 = (Ok from_user, st2) ->
             forall A (k : Z * num -> Z -> option InputPeer -> M (State t) A),
               (init_entity client (snd (messages_iter_of a)) ;;
                window <- init_window (snd (messages_iter_of a)) ;;
                offset_id <- init_anchor (snd (messages_iter_of a)) (fst window) ;;
                from_user <- init_from_user client (snd (messages_iter_of a)) ;;
                k window offset_id from_user)%py
                 {| self := fst (messages_iter_of a); world := w |}
               = k (computed_offset a,
                    window_max_id (ga_reverse a) (snd (messages_iter_of a)))
                   (anchor a) from_user st2).
  { intros st1 from_user st2 Hr H1 H2 A k.
    rewrite (bind_ok _ _ _ _ _ H1).
    erewrite bind_ok; [| rewrite init_window_eq, Hr, Hwin; reflexivity].
    erewrite bind_ok; [| rewrite init_anchor_eq; reflexivity].
    rewrite (bind_ok _ _ _ _ _ H2). rewrite Hr. cbn [fst].
    rewrite window_offset_computed. reflexivity. }
  destruct (as_truthy (ga_entity a)) as [e |] eqn:He;
    [destruct Hres1 as (p & Hp) |];
    (destruct (as_truthy (ga_from_user a)) as [u |] eqn:Hu;
     [destruct Hres2 as (p' & Hp') |]).
  - eexists _, _. split.
    + apply Hstep with (st1 := {| self := set_entity (Some p) (fst (messages_iter_of a));
                                  world := w ++ [EvResolve e] |}).
      * reflexivity.
      * rewrite init_entity_eq. simpl. rewrite He, Hp. reflexivity.
      * rewrite init_from_user_eq. simpl. rewrite Hu, Hp'. reflexivity.
    + simpl. rewrite Hp, !requests_sent_resolve.
      repeat split; try discriminate.
  - eexists _, _. split.
    + apply Hstep with (st1 := {| self := set_entity (Some p) (fst (messages_iter_of a));
                                  world := w ++ [EvResolve e] |}).
      * reflexivity.
      * rewrite init_entity_eq. simpl. rewrite He, Hp. reflexivity.
      * rewrite init_from_user_eq. simpl. rewrite Hu. reflexivity.
    + simpl. rewrite Hp, !requests_sent_resolve.
      repeat split; try discriminate.
  - assert (Hfwd : ga_reverse a = false).
    { destruct (ga_reverse a); [| reflexivity].
      apply as_truthy_None in He. rewrite Hrev in He; [discriminate | reflexivity]. }
    assert (Htf : truthy_entity (ga_from_user a) = true).
    { destruct (truthy_entity (ga_from_user a)) eqn:E; [reflexivity |].
      apply as_truthy_None in E. congruence. }
    eexists _, _. split.
    + apply Hstep with (st1 := {| self := set_entity None (fst (messages_iter_of a));
                                  world := w |}).
      * reflexivity.
      * rewrite init_entity_eq. simpl. rewrite He, Hfwd. reflexivity.
      * rewrite init_from_user_eq. simpl. rewrite Hu, Hp'. reflexivity.
    + simpl. rewrite Htf, !requests_sent_resolve.
      repeat split; try discriminate.
  - assert (Hfwd : ga_reverse a = false).
    { destruct (ga_reverse a); [| reflexivity].
      apply as_truthy_None in He. rewrite Hrev in He; [discriminate | reflexivity]. }
    assert (Htf : truthy_entity (ga_from_user a) = false)
      by (apply as_truthy_None; exact Hu).
    eexists _, _. split.
    + apply Hstep with (st1 := {| self := set_entity None (fst (messages_iter_of a));
                                  world := w |}).
      * reflexivity.
      * rewrite init_entity_eq. simpl. rewrite He, Hfwd. reflexivity.
      * rewrite init_from_user_eq. simpl. rewrite Hu. reflexivity.
    + simpl. rewrite Htf. repeat split.
Qed.

(** Under the conditions below, [_init] gets to line 156 with the request
    built, nothing sent, and the cursor untouched. *)
Lemma init_reaches_request client probe a w :
  (ga_reverse a = true -> truthy_entity (ga_entity a) = true) ->
  resolves client (ga_entity a) ->
  resolves client (ga_from_user a) ->
  window_collapsed (ga_reverse a) (snd (messages_iter_of a)) = false ->
  (variant_by_precedence a = FilteredSearch ->
   classifies client a /\ date_workaround_applies a = false) ->
  exists st3 rq,
    _init client probe (snd (messages_iter_of a))
      {| self := fst (messages_iter_of a); world := w |}
    = (init_total_only client ;;
       init_cursor (snd (messages_iter_of a))
         (window_max_id (ga_reverse a) (snd (messages_iter_of a))))%py st3
    /\ request (self st3) = Some rq
    /\ variant_of (req_kind rq) = variant_by_precedence a
    /\ requests_sent (world st3) = requests_sent w
    /\ reverse (self st3) = ga_reverse a
    /\ limit (self st3) = limit (fst (messages_iter_of a))
    /\ wait_time (self st3) = ga_wait_time a
    /\ buffer (self st3) = []
    /\ total (self st3) = None
    /\ entity (self st3) = target_peer client a
    /\ (req_kind rq <> GetScheduledHistory -> req_offset_id rq = Some (anchor a))
    /\ (req_kind rq <> GetScheduledHistory -> req_kind rq <> SearchGlobal ->
        req_add_offset rq = Some (ga_add_offset a)).
Proof.
  intros Hrev Hres1 Hres2 Hwin Hsearch.
  destruct (init_upto_from_user client a w Hrev Hres1 Hres2 Hwin)
    as (from_user & st2 & Hpre & Hent & Hfu & Hw & Hr & Hl & Hwt & Hb & Ht & Hq).
  pose proof (target_peer_None client a Hres1) as Htp. rewrite <- Hent in Htp.
  pose proof (selected_kind_by_precedence a (self st2) from_user Htp Hfu) as Hkind.
  destruct (init_request_plain client probe (snd (messages_iter_of a)) (anchor a)
              from_user st2) as (rq & s' & Hreq & Hk & Hs' & Hoff & Hadd).
  { intros Hsel. rewrite Hsel in Hkind. simpl in Hkind.
    destruct (Hsearch (eq_sym Hkind)) as ((p & ty & Hp & Hty) & Hno).
    split; [| exact Hno]. exists p, ty. split; [congruence | exact Hty]. }
  exists {| self := set_request (Some rq) s'; world := world st2 |}, rq.
  split.
  { unfold _init. rewrite Hpre. rewrite (bind_ok _ _ _ _ _ Hreq). reflexivity. }
  destruct Hs' as [-> | ->]; simpl;
    repeat split; try assumption; try (rewrite Hk; exact Hkind).
Qed.

(** ** A limit that is not positive *)

Lemma not_collapsed a :
  ~ (computed_offset a <> 0 /\ opposite_bound a <> 0 /\ window_width a <= 1) ->
  window_collapsed (ga_reverse a) (snd (messages_iter_of a)) = false.
Proof.
  intros H. destruct (window_collapsed _ _) eqn:E; [| reflexivity].
  exfalso. apply H, window_collapsed_iff, E.
Qed.

(** C5: with a limit that is not positive, a construction that gets past
    its early exits (it is not a reverse global search, its window is not
    collapsed, the peers resolve) and that does not run the date workaround
    sends exactly one request, the one it built; when the transport
    answers, [total] is the count of the answer, or the number of its
    messages when it has no count, and [_init] ends the sequence: the
    traversal produces nothing. *)
Theorem nonpositive_limit_probes_total client fuel a w l :
  ga_limit a = Some l ->
  l <= 0 ->
  (ga_reverse a = true -> truthy_entity (ga_entity a) = true) ->
  resolves client (ga_entity a) ->
  resolves client (ga_from_user a) ->
  ~ (computed_offset a <> 0 /\ opposite_bound a <> 0 /\ window_width a <= 1) ->
  (variant_by_precedence a = FilteredSearch ->
   classifies client a /\ date_workaround_applies a = false) ->
  exists rq,
    request (self (snd (initialize client a w))) = Some rq
    /\ variant_of (req_kind rq) = variant_by_precedence a
    /\ requests_sent (world (snd (initialize client a w)))
       = requests_sent w ++ [MessagesRequestOf rq]
    /\ match call client (List.length (requests_sent w)) (MessagesRequestOf rq) with
       | Ok result =>
           fst (initialize client a w) = Raise StopAsyncIteration
           /\ total (self (snd (initialize client a w))) = Some (reported_total result)
           /\ iterate client fuel a w
              = (([], Exhausted), snd (initialize client a w))
       | Raise e => fst (initialize client a w) = Raise e
       end.
Proof.
  intros Hl Hle Hrev Hres1 Hres2 Hwin Hsearch.
  apply not_collapsed in Hwin.
  destruct (init_reaches_request client (date_probe client) a w
              Hrev Hres1 Hres2 Hwin Hsearch)
    as (st3 & rq & Hinit & Hrq & Hvar & Hw & _ & Hlim & _ & _ & Htot & _).
  assert (Hlim0 : num_leb (limit (self st3)) (Fin 0) = true).
  { rewrite Hlim. simpl. rewrite Hl. simpl. apply Z.leb_le. lia. }
  pose proof (init_total_only_eq client st3 rq Hrq) as Hprobe.
  rewrite Hlim0, Hw in Hprobe.
  assert (Hall :
    _init client (date_probe client) (snd (messages_iter_of a))
      {| self := fst (messages_iter_of a); world := w |}
    = match call client (List.length (requests_sent w)) (MessagesRequestOf rq) with
      | Ok result =>
          (Raise StopAsyncIteration,
           {| self := set_total (Some (reported_total result)) (self st3);
              world := world st3 ++ [EvCall (MessagesRequestOf rq)] |})
      | Raise x =>
          (Raise x, {| self := self st3;
                       world := world st3 ++ [EvCall (MessagesRequestOf rq)] |})
      end).
  { rewrite Hinit. unfold bind at 1. rewrite Hprobe.
    destruct (call client _ _); reflexivity. }
  unfold iterate, run, initialize.
  change (messages_iter_of a) with (fst (messages_iter_of a), snd (messages_iter_of a)).
  cbv iota beta. rewrite Hall.
  exists rq.
  destruct (call client (List.length (requests_sent w)) (MessagesRequestOf rq))
    as [result | e]; simpl; rewrite ?requests_sent_call, ?Hw; repeat split;
    assumption.
Qed.

Lemma nonpositive_limit_probes_total_witness :
  exists rq,
    request (self (snd (initialize
                          (Scenario.scripted [Ok (Messages (Some 42) [Scenario.msg 9] [] [] None)])
                          (Scenario.bounded (Some 0) 0 0 false) []))) = Some rq
    /\ variant_of (req_kind rq) = PlainHistory
    /\ requests_sent
         (world (snd (initialize
                        (Scenario.scripted [Ok (Messages (Some 42) [Scenario.msg 9] [] [] None)])
                        (Scenario.bounded (Some 0) 0 0 false) [])))
       = [] ++ [MessagesRequestOf rq]
    /\ match call (Scenario.scripted [Ok (Messages (Some 42) [Scenario.msg 9] [] [] None)])
               0 (MessagesRequestOf rq) with
       | Ok result =>
           fst (initialize
                  (Scenario.scripted [Ok (Messages (Some 42) [Scenario.msg 9] [] [] None)])
                  (Scenario.bounded (Some 0) 0 0 false) []) = Raise StopAsyncIteration
           /\ total (self (snd (initialize
                  (Scenario.scripted [Ok (Messages (Some 42) [Scenario.msg 9] [] [] None)])
                  (Scenario.bounded (Some 0) 0 0 false) []))) = Some (reported_total result)
           /\ iterate
                (Scenario.scripted [Ok (Messages (Some 42) [Scenario.msg 9] [] [] None)])
                5 (Scenario.bounded (Some 0) 0 0 false) []
              = (([], Exhausted),
                 snd (initialize
                        (Scenario.scripted [Ok (Messages (Some 42) [Scenario.msg 9] [] [] None)])
                        (Scenario.bounded (Some 0) 0 0 false) []))
       | Raise e =>
           fst (initialize
                  (Scenario.scripted [Ok (Messages (Some 42) [Scenario.msg 9] [] [] None)])
                  (Scenario.bounded (Some 0) 0 0 false) []) = Raise e
       end.
Proof.
  apply (nonpositive_limit_probes_total
           (Scenario.scripted [Ok (Messages (Some 42) [Scenario.msg 9] [] [] None)])
           5 (Scenario.bounded (Some 0) 0 0 false) [] 0).
  - reflexivity.
  - lia.
  - discriminate.
  - unfold resolves. simpl. eexists. reflexivity.
  - exact I.
  - vm_compute. intros (H & _). apply H. reflexivity.
  - discriminate.
Defined.

(** C5, the claim as stated, fails when the window is collapsed: with
    [limit = 0], [min_id = 100] and [max_id = 101], construction ends
    before line 156; no request is sent and [total] is never set. *)
Lemma collapsed_window_skips_total_probe :
  fst (initialize (Scenario.scripted [Ok (Messages (Some 42) [] [] [] None)])
         (Scenario.bounded (Some 0) 100 101 false) []) = Raise StopAsyncIteration
  /\ requests_sent
       (world (snd (initialize (Scenario.scripted [Ok (Messages (Some 42) [] [] [] None)])
                      (Scenario.bounded (Some 0) 100 101 false) []))) = []
  /\ total (self (snd (initialize
                         (Scenario.scripted [Ok (Messages (Some 42) [] [] [] None)])
                         (Scenario.bounded (Some 0) 100 101 false) []))) = None.
Proof. repeat split. Qed.

(** ** The request of a chunk *)

Lemma scan_messages_shape client entities messages :
  forall (st : State t),
    exists stopped added last,
      scan_messages client entities messages st
      = (Ok stopped,
         {| self := set_buffer (buffer (self st) ++ added) (set_last_id last (self st));
            world := world st |}).
Proof.
  induction messages as [| message rest IH]; intros st.
  - exists false, [], (last_id (self st)). simpl. unfold ret.
    rewrite set_buffer_last_id_same. destruct st; reflexivity.
  - simpl. unfold bind, get_self.
    destruct (msg_empty message
              || truthy_int (from_id (self st))
                 && match from_id (self st) with
                    | Some f => opt_neqb (msg_sender_id message) f
                    | None => false
                    end).
    + apply IH.
    + destruct (_message_in_range (self st) message); simpl.
      * unfold modify_self. simpl.
        match goal with
        | |- context [scan_messages client entities rest ?st2] =>
            destruct (IH st2) as (b & added & l & Heq)
        end.
        rewrite Heq. simpl.
        exists b, (Message_new client message entities (entity (self st)) :: added), l.
        f_equal. f_equal. unfold set_buffer, set_last_id. simpl.
        rewrite <- app_assoc. reflexivity.
      * exists true, [], (last_id (self st)). unfold ret.
        rewrite set_buffer_last_id_same. destruct st; reflexivity.
Qed.

Lemma last_Some_nonempty {A} (l : list A) x :
  last (map Some l) None = Some x -> l <> [].
Proof. destruct l; [discriminate | discriminate]. Qed.

(** A chunk load sends one request, the request it found with the limit
    and, for a short chunk of a reverse traversal, the skip count set; it
    returns [False] only with a buffer that is not empty. *)
Lemma load_next_chunk_sends client (st : State t) rq r st' :
  request (self st) = Some rq ->
  buffer (self st) = [] ->
  _load_next_chunk client st = (r, st') ->
  world st' = world st ++ [EvCall (MessagesRequestOf (chunk_request (self st) rq))]
  /\ reverse (self st') = reverse (self st)
  /\ left (self st') = left (self st)
  /\ add_offset (self st') = add_offset (self st)
  /\ (exists rq',
         request (self st') = Some rq'
         /\ req_kind rq' = req_kind rq
         /\ req_add_offset rq' = req_add_offset (chunk_request (self st) rq))
  /\ (r = Ok false -> buffer (self st') <> []).
Proof.
  intros Hrq Hb H. unfold _load_next_chunk in H. run_monad_in H.
  rewrite Hrq in H. simpl in H. unfold chunk_request.
  destruct (reverse (self st)
            && negb (num_min_int (left (self st)) _MAX_CHUNK_SIZE =? _MAX_CHUNK_SIZE));
    simpl in H.
  all: match type of H with
       | context [call ?c ?n ?q] => destruct (call c n q) as [resp | e]
       end; simpl in H.
  all: try (injection H as Hr Hs; subst r st'; simpl;
            repeat split; try discriminate; eexists; repeat split; reflexivity).
  all: destruct resp as [c | [c |] ms us cs rate]; simpl in H.
  all: try (injection H as Hr Hs; subst r st'; simpl;
            repeat split; try discriminate; eexists; repeat split; reflexivity).
  all: match type of H with
       | context [scan_messages ?c ?e ?m ?s] =>
           destruct (scan_messages_shape c e m s) as (stopped & added & l & Heq);
           rewrite Heq in H; clear Heq
       end; simpl in H; rewrite Hb in H; simpl in H.
  all: destruct stopped; simpl in H.
  all: try (injection H as Hr Hs; subst r st'; simpl;
            repeat split; try discriminate; eexists; repeat split; reflexivity).
  all: match type of H with
       | context [Z.ltb ?a ?b] => destruct (Z.ltb a b)
       end; simpl in H.
  all: try (injection H as Hr Hs; subst r st'; simpl;
            repeat split; try discriminate; eexists; repeat split; reflexivity).
  all: destruct (last (map Some added) None) as [last_message |] eqn:Hlast.
  all: try (injection H as Hr Hs; subst r st'; simpl;
            repeat split; try discriminate; eexists; repeat split; reflexivity).
  all: match type of H with
       | context [_update_offset ?m ?resp ?s] =>
           edestruct (update_offset_spec m resp s) as (r1 & Heq & Hk1 & _ & Ha1 & _);
           [reflexivity | rewrite Heq in H; clear Heq]
       end.
  all: injection H as Hr Hs; subst r st'; simpl.
  all: repeat split; try (intros _; eapply last_Some_nonempty; exact Hlast).
  all: exists r1; repeat split; assumption.
Qed.

(** ** Reverse traversal *)

Lemma chunk_request_reverse (s : t) rq :
  reverse s = true ->
  (num_min_int (left s) _MAX_CHUNK_SIZE = _MAX_CHUNK_SIZE ->
   req_add_offset rq = Some (add_offset s - _MAX_CHUNK_SIZE)) ->
  req_limit (chunk_request s rq) = Some (num_min_int (left s) _MAX_CHUNK_SIZE)
  /\ req_add_offset (chunk_request s rq)
     = Some (add_offset s - num_min_int (left s) _MAX_CHUNK_SIZE).
Proof.
  intros Hrev Hfull. unfold chunk_request. rewrite Hrev. simpl.
  destruct (num_min_int (left s) _MAX_CHUNK_SIZE =? _MAX_CHUNK_SIZE) eqn:E; simpl.
  - apply Z.eqb_eq in E. rewrite E. split; [reflexivity | apply Hfull, E].
  - split; reflexivity.
Qed.

Lemma budget_full_chunk (l : num) n :
  0 <= n ->
  num_min_int (num_max_int (num_sub_int l n) 0) _MAX_CHUNK_SIZE = _MAX_CHUNK_SIZE ->
  num_min_int l _MAX_CHUNK_SIZE = _MAX_CHUNK_SIZE.
Proof.
  unfold _MAX_CHUNK_SIZE. destruct l as [x |]; simpl; [lia | reflexivity].
Qed.

(** Every request a reverse traversal sends from its chunks carries the
    skip count of the iterator minus the limit of the request. *)
Lemma pull_reverse_requests client fuel :
  forall (st : State t) rq,
    reverse (self st) = true ->
    request (self st) = Some rq ->
    (num_min_int (left (self st)) _MAX_CHUNK_SIZE = _MAX_CHUNK_SIZE ->
     req_add_offset rq = Some (add_offset (self st) - _MAX_CHUNK_SIZE)) ->
    exists reqs,
      requests_sent (world (snd (pull client fuel st)))
      = requests_sent (world st) ++ reqs
      /\ Forall (skip_follows_limit (add_offset (self st))) reqs.
Proof.
  induction fuel as [| fuel IH]; intros st rq Hrev Hrq Hfull.
  - exists []. simpl. rewrite app_nil_r. split; [reflexivity | constructor].
  - simpl.
    destruct (num_leb (left (self st)) (Fin 0) || terminal (self st)).
    { exists []. simpl. rewrite app_nil_r. split; [reflexivity | constructor]. }
    destruct (_load_next_chunk client
                {| self := set_buffer [] (self st); world := world st |})
      as [[last_chunk | e] st1] eqn:Hload.
    + destruct (load_next_chunk_sends client
                  {| self := set_buffer [] (self st); world := world st |}
                  rq _ _ Hrq eq_refl Hload)
        as (Hw & Hr1 & Hl1 & Ha1 & (rq1 & Hrq1 & _ & Hadd1) & _).
      destruct (chunk_request_reverse (set_buffer [] (self st)) rq Hrev Hfull)
        as (Hlim & Hskip).
      simpl in Hw, Hr1, Hl1, Ha1, Hlim, Hskip.
      match goal with
      | |- context [pull client fuel ?st2] =>
          destruct (IH st2 rq1) as (reqs & Hreqs & Hall);
          [ simpl; congruence
          | exact Hrq1
          | simpl; intros Hfull2; rewrite Hl1 in Hfull2;
            apply budget_full_chunk in Hfull2; [| lia];
            rewrite Hadd1, Ha1; simpl in Hskip |- *; rewrite Hskip;
            simpl in Hfull2; rewrite Hfull2; reflexivity
          | destruct (pull client fuel st2) as [[rest ending] st3] ]
      end.
      simpl in Hreqs, Hall |- *. rewrite Hreqs, Hw, requests_sent_call, <- app_assoc.
      eexists. split; [reflexivity |]. simpl. constructor.
      * simpl. eexists. split; [exact Hlim | exact Hskip].
      * rewrite Ha1 in Hall. exact Hall.
    + destruct (load_next_chunk_sends client
                  {| self := set_buffer [] (self st); world := world st |}
                  rq _ _ Hrq eq_refl Hload)
        as (Hw & _).
      destruct (chunk_request_reverse (set_buffer [] (self st)) rq Hrev Hfull)
        as (Hlim & Hskip).
      simpl in Hw, Hlim, Hskip.
      exists [MessagesRequestOf (chunk_request (set_buffer [] (self st)) rq)].
      split.
      * destruct e; simpl; rewrite Hw, requests_sent_call; reflexivity.
      * constructor; [| constructor]. simpl. eexists. split; [exact Hlim | exact Hskip].
Qed.

(** C7: in a reverse traversal that is constructed normally (a target
    peer that resolves, a window that is not collapsed, a positive limit,
    a request kind with a skip count, no date workaround), the request is
    anchored one above the computed offset (at [0] when the computed offset
    is [0] and an offset date is given), its skip count starts at the skip
    count of the caller minus the chunk size, and every request the
    traversal sends carries the skip count of the caller minus the limit
    of that request: on a short chunk the bias is the limit of that chunk,
    not zero. *)
Theorem reverse_offset_bookkeeping client fuel a w :
  ga_reverse a = true ->
  truthy_entity (ga_entity a) = true ->
  resolves client (ga_entity a) ->
  resolves client (ga_from_user a) ->
  ~ (computed_offset a <> 0 /\ opposite_bound a <> 0 /\ window_width a <= 1) ->
  (forall l, ga_limit a = Some l -> 0 < l) ->
  variant_by_precedence a <> ScheduledList ->
  (variant_by_precedence a = FilteredSearch ->
   classifies client a /\ date_workaround_applies a = false) ->
  (fst (initialize client a w) = Ok tt
   /\ add_offset (self (snd (initialize client a w))) = ga_add_offset a
   /\ exists rq,
       request (self (snd (initialize client a w))) = Some rq
       /\ req_offset_id rq
          = Some (if (computed_offset a =? 0) && is_some (ga_offset_date a)
                  then 0 else computed_offset a + 1)
       /\ req_add_offset rq = Some (ga_add_offset a - _MAX_CHUNK_SIZE))
  /\ exists reqs,
      requests_sent (world (snd (iterate client fuel a w))) = requests_sent w ++ reqs
      /\ Forall (skip_follows_limit (ga_add_offset a)) reqs.
Proof.
  intros Hrev Hent Hres1 Hres2 Hwin Hlimit Hsched Hsearch.
  apply not_collapsed in Hwin.
  destruct (init_reaches_request client (date_probe client) a w
              (fun _ => Hent) Hres1 Hres2 Hwin Hsearch)
    as (st3 & rq & Hinit & Hrq & Hvar & Hw & Hr3 & Hlim & _ & _ & _ & _ & Hoff & Hadd).
  assert (Hk1 : req_kind rq <> GetScheduledHistory).
  { intros E. rewrite E in Hvar. simpl in Hvar. congruence. }
  assert (Hk2 : req_kind rq <> SearchGlobal).
  { intros E. rewrite E in Hvar. unfold variant_by_precedence in Hvar.
    rewrite Hent in Hvar. simpl in Hvar.
    destruct (ga_scheduled a); [discriminate |].
    destruct (is_some (ga_reply_to a)); [discriminate |].
    destruct (is_some (ga_search a)
              || negb (is_InputMessagesFilterEmpty (instantiate_filter (ga_filter a)))
              || truthy_entity (ga_from_user a)); discriminate. }
  specialize (Hoff Hk1). specialize (Hadd Hk1 Hk2).
  assert (Hpos : num_leb (limit (self st3)) (Fin 0) = false).
  { rewrite Hlim. simpl. destruct (ga_limit a) as [l |] eqn:El; [| reflexivity].
    simpl. apply Z.leb_gt. specialize (Hlimit l eq_refl). lia. }
  pose proof (init_total_only_eq client st3 rq Hrq) as Htot. rewrite Hpos in Htot.
  pose proof (init_cursor_eq (snd (messages_iter_of a))
                (window_max_id (ga_reverse a) (snd (messages_iter_of a)))
                st3 rq Hrq) as Hcur.
  cbv zeta in Hcur. rewrite Hr3, Hrev, Hadd in Hcur.
  assert (Hall :
    exists st4,
      _init client (date_probe client) (snd (messages_iter_of a))
        {| self := fst (messages_iter_of a); world := w |} = (Ok tt, st4)
      /\ world st4 = world st3
      /\ reverse (self st4) = true
      /\ add_offset (self st4) = ga_add_offset a
      /\ request (self st4)
         = Some (with_add_offset (ga_add_offset a - _MAX_CHUNK_SIZE) rq)).
  { eexists. split.
    - rewrite Hinit. unfold bind at 1. rewrite Htot. rewrite Hrev. exact Hcur.
    - simpl. repeat split. destruct (wait_time (self st3)); simpl; congruence. }
  destruct Hall as (st4 & Hinit4 & Hw4 & Hr4 & Ha4 & Hrq4).
  unfold iterate, run, initialize.
  change (messages_iter_of a) with (fst (messages_iter_of a), snd (messages_iter_of a)).
  cbv iota beta. rewrite Hinit4. simpl fst. simpl snd.
  split.
  - split; [reflexivity |]. split; [exact Ha4 |].
    eexists. split; [exact Hrq4 |]. simpl. split; [| reflexivity].
    rewrite Hoff. unfold anchor, anchor_of. rewrite Hrev. simpl. f_equal.
    destruct (Z.eqb_spec (computed_offset a) 0) as [E | E]; simpl; [| reflexivity].
    rewrite E. destruct (is_some (ga_offset_date a)); reflexivity.
  - destruct (pull_reverse_requests client fuel st4 _ Hr4 Hrq4) as (reqs & Hreqs & Hfa).
    + intros _. simpl. rewrite Ha4. reflexivity.
    + exists reqs. rewrite Hreqs, Hw4, Hw, Ha4 in *. split; [reflexivity | exact Hfa].
Qed.

Lemma reverse_offset_bookkeeping_witness :
  (fst (initialize (Scenario.scripted [Scenario.reply [3; 2; 1]])
          (Scenario.bounded (Some 10) 0 0 true) []) = Ok tt
   /\ add_offset (self (snd (initialize (Scenario.scripted [Scenario.reply [3; 2; 1]])
                               (Scenario.bounded (Some 10) 0 0 true) []))) = 0
   /\ exists rq,
       request (self (snd (initialize (Scenario.scripted [Scenario.reply [3; 2; 1]])
                             (Scenario.bounded (Some 10) 0 0 true) []))) = Some rq
       /\ req_offset_id rq = Some 1
       /\ req_add_offset rq = Some (0 - _MAX_CHUNK_SIZE))
  /\ exists reqs,
      requests_sent
        (world (snd (iterate (Scenario.scripted [Scenario.reply [3; 2; 1]]) 5
                       (Scenario.bounded (Some 10) 0 0 true) []))) = [] ++ reqs
      /\ Forall (skip_follows_limit 0) reqs.
Proof.
  apply (reverse_offset_bookkeeping (Scenario.scripted [Scenario.reply [3; 2; 1]]) 5
           (Scenario.bounded (Some 10) 0 0 true) []).
  - reflexivity.
  - reflexivity.
  - unfold resolves. simpl. eexists. reflexivity.
  - exact I.
  - vm_compute. intros (H & _). apply H. reflexivity.
  - intros l H. injection H as <-. lia.
  - discriminate.
  - discriminate.
Defined.

(** C7, the claim as stated, fails on the final short chunk: a reverse
    traversal with [limit = 10] and a skip count of [0] sends one request,
    with limit 10 and skip count [-10], not the skip count of the caller. *)
Lemma short_reverse_chunk_skips_its_limit :
  produced_ids
    (iterate (Scenario.scripted [Scenario.reply [3; 2; 1]]) 5
       (Scenario.bounded (Some 10) 0 0 true) []) = [1; 2; 3]
  /\ limits_and_skips
       (requests_sent
          (world (snd (iterate (Scenario.scripted [Scenario.reply [3; 2; 1]]) 5
                         (Scenario.bounded (Some 10) 0 0 true) []))))
     = [(Some 10, Some (-10))]
  /\ Some (-10) <> Some (ga_add_offset (Scenario.bounded (Some 10) 0 0 true)).
Proof. repeat split. discriminate. Qed.

(** ** The date workaround *)

(** The nested traversal starts from a plain-history request for one
    message before the date. *)
Lemma date_probe_init client peer date w p' :
  get_input_entity client (EntityInput peer) = Ok p' ->
  _init client no_nested_traversal
    (snd (messages_iter_of
            (with_offset_date_arg (Some date)
               (default_args (Some (EntityInput peer)) (Some 1)))))
    {| self := fst (messages_iter_of
                      (with_offset_date_arg (Some date)
                         (default_args (Some (EntityInput peer)) (Some 1))));
       world := w |}
  = (Ok tt,
     {| self :=
          {| reverse := false; limit := Fin 1; left := Fin 1; wait_time := Some 0;
             total := None; buffer := []; terminal := false;
             entity := Some p'; from_id := None;
             request := Some (new_GetHistory p' 1 (Some date) 0 0);
             add_offset := 0; max_id := Fin 0; min_id := 0; last_id := Inf |};
        world := w ++ [EvResolve (EntityInput peer)] |}).
Proof.
  intros Hres. unfold _init.
  erewrite bind_ok; [| rewrite init_entity_eq; simpl; rewrite Hres; reflexivity].
  erewrite bind_ok; [| rewrite init_window_eq; reflexivity].
  erewrite bind_ok; [| rewrite init_anchor_eq; reflexivity].
  erewrite bind_ok; [| rewrite init_from_user_eq; reflexivity].
  simpl.
  erewrite bind_ok; [| reflexivity].
  erewrite bind_ok; [| reflexivity].
  reflexivity.
Qed.

Lemma pull_one_item client (st : State t) rq :
  left (self st) = Fin 1 ->
  terminal (self st) = false ->
  request (self st) = Some rq ->
  requests_sent (world (snd (pull client 2 st)))
  = requests_sent (world st)
    ++ [MessagesRequestOf (chunk_request (set_buffer [] (self st)) rq)]
  /\ snd (fst (pull client 2 st)) <> Pending.
Proof.
  intros Hleft Hterm Hrq.
  change (pull client 2 st) with
    (if num_leb (left (self st)) (Fin 0) || terminal (self st)
     then (([], Exhausted), st)
     else
       match _load_next_chunk client
               {| self := set_buffer [] (self st); world := world st |} with
       | (Raise StopAsyncIteration, st') => (([], Exhausted), st')
       | (Raise e, st') => (([], Failed e), st')
       | (Ok last_chunk, st') =>
           let items := buffer (self st') in
           let budget :=
             num_max_int
               (num_sub_int (left (self st')) (Z.of_nat (List.length items))) 0 in
           let st'' :=
             {| self := set_terminal last_chunk
                          (set_buffer [] (set_left budget (self st')));
                world := world st' |} in
           let '((rest, ending), st3) := pull client 1 st'' in
           ((items ++ rest, ending), st3)
       end).
  rewrite Hleft, Hterm. simpl orb. cbv iota.
  destruct (_load_next_chunk client
              {| self := set_buffer [] (self st); world := world st |})
    as [[last_chunk | e] st1] eqn:Hload;
    destruct (load_next_chunk_sends client
                {| self := set_buffer [] (self st); world := world st |}
                rq _ _ Hrq eq_refl Hload)
      as (Hw & _ & Hl1 & _ & _ & Hne); simpl in Hw, Hl1.
  - cbv zeta. simpl pull. rewrite Hl1, Hleft. simpl set_left.
    assert (Hend :
      num_leb (num_max_int (num_sub_int (Fin 1)
                              (Z.of_nat (List.length (buffer (self st1))))) 0)
        (Fin 0) || last_chunk = true).
    { destruct last_chunk; [apply orb_true_r |].
      specialize (Hne eq_refl). destruct (buffer (self st1)); [congruence |].
      apply orb_true_iff. left. cbn [num_sub_int num_max_int num_leb List.length].
      apply Z.leb_le. lia. }
    simpl left. simpl terminal. rewrite Hend. simpl.
    rewrite Hw, requests_sent_call. split; [reflexivity | discriminate].
  - destruct e; simpl; rewrite Hw, requests_sent_call;
      (split; [reflexivity | discriminate]).
Qed.

(** The nested traversal sends exactly one request, the plain-history
    request for one message before the date, and it always ends. *)
Lemma date_probe_sends client peer date w p' :
  get_input_entity client (EntityInput peer) = Ok p' ->
  requests_sent (snd (date_probe client peer date w))
  = requests_sent w ++ [MessagesRequestOf (new_GetHistory p' 1 (Some date) 0 0)]
  /\ snd (fst (date_probe client peer date w)) <> Pending.
Proof.
  intros Hres. unfold date_probe, run.
  change (messages_iter_of
            (with_offset_date_arg (Some date)
               (default_args (Some (EntityInput peer)) (Some 1))))
    with (fst (messages_iter_of
                 (with_offset_date_arg (Some date)
                    (default_args (Some (EntityInput peer)) (Some 1)))),
          snd (messages_iter_of
                 (with_offset_date_arg (Some date)
                    (default_args (Some (EntityInput peer)) (Some 1))))).
  cbv iota beta. rewrite (date_probe_init client peer date w p' Hres).
  match goal with
  | |- context [pull client 2 ?st] =>
      destruct (pull_one_item client st (new_GetHistory p' 1 (Some date) 0 0)
                  eq_refl eq_refl eq_refl) as (Hw & Hend);
      destruct (pull client 2 st) as [[items ending] st']
  end.
  simpl in *. rewrite Hw, requests_sent_resolve. split; [reflexivity | exact Hend].
Qed.

(** The nested traversal is never cut short by the bound on chunk
    fetches. *)
Lemma date_probe_ends client peer date w :
  snd (fst (date_probe client peer date w)) <> Pending.
Proof.
  destruct (get_input_entity client (EntityInput peer)) as [p' | e] eqn:Hres.
  - apply (date_probe_sends client peer date w p' Hres).
  - unfold date_probe, run.
    change (messages_iter_of
              (with_offset_date_arg (Some date)
                 (default_args (Some (EntityInput peer)) (Some 1))))
      with (fst (messages_iter_of
                   (with_offset_date_arg (Some date)
                      (default_args (Some (EntityInput peer)) (Some 1)))),
            snd (messages_iter_of
                   (with_offset_date_arg (Some date)
                      (default_args (Some (EntityInput peer)) (Some 1))))).
    cbv iota beta. unfold _init.
    erewrite bind_raise; [| rewrite init_entity_eq; simpl; rewrite Hres; reflexivity].
    destruct e; simpl; discriminate.
Qed.

Lemma probed_offset_fields items :
  forall rq,
    req_kind (probed_offset items rq) = req_kind rq
    /\ req_add_offset (probed_offset items rq) = req_add_offset rq
    /\ req_offset_id (probed_offset items rq)
       = match last (map Some items) None with
         | Some m => Some (cm_id m + 1)
         | None => req_offset_id rq
         end.
Proof.
  unfold probed_offset. induction items as [| m items IH]; intros rq.
  - repeat split.
  - simpl fold_left. destruct (IH (with_offset_id (cm_id m + 1) rq)) as (Hk & Ha & Ho).
    rewrite Hk, Ha, Ho. repeat split.
    destruct items as [| c items]; [reflexivity |].
    change (last (map Some (m :: c :: items)) None)
      with (last (map Some (c :: items)) None).
    destruct (last (map Some (c :: items)) None) eqn:E; [reflexivity |].
    exfalso. clear - E. revert c E. induction items as [| d items IH]; intros c E.
    + discriminate.
    + apply (IH d). exact E.
Qed.

(** The request [init_request] builds when the date workaround runs. *)
Lemma init_request_workaround client probe kw offset_id from_user (st : State t)
    peer ty date :
  selected_kind (self st) kw from_user = Search ->
  entity (self st) = Some peer ->
  _entity_type client peer = Ok ty ->
  kw_offset_date kw = Some date ->
  workaround_condition kw offset_id = true ->
  exists rq0 s',
    req_kind rq0 = Search
    /\ req_offset_id rq0 = Some 0
    /\ req_add_offset rq0 = Some (kw_add_offset kw)
    /\ (s' = self st \/ s' = set_from_id None (self st))
    /\ init_request client probe kw offset_id from_user st
       = (ending_result (snd (fst (probe peer date (world st)))),
          {| self := set_request
                       (Some (probed_offset (fst (fst (probe peer date (world st)))) rq0))
                       s';
             world := snd (probe peer date (world st)) |}).
Proof.
  intros Hsel Hent Hty Hdate Hcond.
  unfold selected_kind, search_condition in Hsel. rewrite Hent in Hsel.
  unfold workaround_condition in Hcond. rewrite Hdate in Hcond. simpl in Hcond.
  apply andb_true_iff in Hcond as (Hcond & Hzero).
  apply Z.eqb_eq in Hzero. subst offset_id.
  unfold init_request. destruct st as [s w]. simpl in *.
  cbv beta iota zeta delta [bind get_self modify_self ret raise lift_res]. simpl.
  rewrite Hent.
  destruct (kw_scheduled kw); [discriminate |].
  destruct (kw_reply_to kw); [discriminate |]. simpl in Hsel.
  destruct (is_some (kw_search kw)
            || negb (is_InputMessagesFilterEmpty (instantiate_filter (kw_filter kw)))
            || is_some from_user); [| discriminate].
  rewrite Hty, Hdate. simpl. rewrite Hcond. simpl.
  destruct ty; simpl;
    match goal with
    | |- context [date_workaround probe peer date ?st0] =>
        match st0 with
        | {| self := set_request (Some ?rq0) ?s'; world := _ |} =>
            exists rq0, s';
            rewrite (date_workaround_eq probe peer date st0 rq0 eq_refl)
        end
    end; simpl;
    repeat split; try (left; reflexivity); try (right; reflexivity).
Qed.

Lemma variant_of_Search k : variant_of k = FilteredSearch -> k = Search.
Proof. destruct k; simpl; congruence. Qed.

(** C8: when the request is a filtered search with a filter that is not
    empty, an offset date, no text, and no offset identifier left by lines
    38-58 (neither [offset_id] nor the bound of the direction is set), the
    first request construction sends is the plain-history request for one
    message before that date; the offset identifier of the search request
    is then one more than the identifier of the last item that traversal
    delivered (it stays [0] when it delivered none), and the search
    request is sent only after it. *)
Theorem date_workaround_probes_first client a w date p p' :
  (ga_reverse a = true -> truthy_entity (ga_entity a) = true) ->
  resolves client (ga_entity a) ->
  resolves client (ga_from_user a) ->
  ~ (computed_offset a <> 0 /\ opposite_bound a <> 0 /\ window_width a <= 1) ->
  variant_by_precedence a = FilteredSearch ->
  is_InputMessagesFilterEmpty (instantiate_filter (ga_filter a)) = false ->
  ga_offset_date a = Some date ->
  truthy_str (ga_search a) = false ->
  anchor a = 0 ->
  target_peer client a = Some p ->
  (exists ty, _entity_type client p = Ok ty) ->
  get_input_entity client (EntityInput p) = Ok p' ->
  exists w2 rq rest,
    requests_sent w2 = requests_sent w
    /\ requests_sent (world (snd (initialize client a w)))
       = requests_sent w
         ++ MessagesRequestOf (new_GetHistory p' 1 (Some date) 0 0) :: rest
    /\ (rest = [] \/ rest = [MessagesRequestOf rq])
    /\ request (self (snd (initialize client a w))) = Some rq
    /\ req_kind rq = Search
    /\ req_offset_id rq
       = Some match last (map Some (fst (fst (date_probe client p date w2)))) None with
              | Some m => cm_id m + 1
              | None => 0
              end.
Proof.
  intros Hrev Hres1 Hres2 Hwin Hvar Hfilter Hdate Hsearch Hanchor Hpeer (ty & Hty) Hinner.
  apply not_collapsed in Hwin.
  destruct (init_upto_from_user client a w Hrev Hres1 Hres2 Hwin)
    as (from_user & st2 & Hpre & Hent & Hfu & Hw & Hr & Hl & _).
  pose proof (target_peer_None client a Hres1) as Htp. rewrite <- Hent in Htp.
  pose proof (selected_kind_by_precedence a (self st2) from_user Htp Hfu) as Hkind.
  rewrite Hvar in Hkind. apply variant_of_Search in Hkind.
  rewrite Hpeer in Hent.
  assert (Hcond : workaround_condition (snd (messages_iter_of a)) (anchor a) = true).
  { unfold workaround_condition. simpl. rewrite Hdate, Hfilter, Hsearch, Hanchor.
    reflexivity. }
  destruct (init_request_workaround client (date_probe client)
              (snd (messages_iter_of a)) (anchor a) from_user st2 p ty date
              Hkind Hent Hty Hdate Hcond)
    as (rq0 & s' & Hk0 & Ho0 & Ha0 & Hs' & Hreq).
  destruct (date_probe_sends client p date (world st2) p' Hinner) as (Hsent & Hend).
  destruct (probed_offset_fields (fst (fst (date_probe client p date (world st2)))) rq0)
    as (Hk3 & Ha3 & Ho3).
  rewrite Ho0 in Ho3. rewrite Hk0 in Hk3. rewrite Ha0 in Ha3.
  set (rq3 := probed_offset (fst (fst (date_probe client p date (world st2)))) rq0) in *.
  set (st3 := {| self := set_request (Some rq3) s';
                 world := snd (date_probe client p date (world st2)) |}) in *.
  assert (Hreverse3 : reverse (self st3) = ga_reverse a)
    by (destruct Hs' as [-> | ->]; exact Hr).
  assert (Hall :
    exists r st' rq rest,
      _init client (date_probe client) (snd (messages_iter_of a))
        {| self := fst (messages_iter_of a); world := w |} = (r, st')
      /\ requests_sent (world st')
         = requests_sent w
           ++ MessagesRequestOf (new_GetHistory p' 1 (Some date) 0 0) :: rest
      /\ (rest = [] \/ rest = [MessagesRequestOf rq])
      /\ request (self st') = Some rq
      /\ req_kind rq = Search
      /\ req_offset_id rq = req_offset_id rq3).
  { unfold _init. rewrite Hpre. unfold bind at 1. rewrite Hreq.
    destruct (snd (fst (date_probe client p date (world st2)))) as [| e |] eqn:Eend;
      [| | congruence]; simpl ending_result; cbv iota.
    - (* the nested traversal ended normally *)
      pose proof (init_total_only_eq client st3 rq3 eq_refl) as Htot.
      unfold bind at 1. rewrite Htot.
      destruct (num_leb (limit (self st3)) (Fin 0)).
      + destruct (call client _ _);
          eexists _, _, rq3, [MessagesRequestOf rq3];
          (split; [reflexivity |]); simpl;
          rewrite requests_sent_call, Hsent, Hw, <- app_assoc;
          (split; [reflexivity |]); (split; [right; reflexivity |]);
          (split; [reflexivity |]); (split; [exact Hk3 |]); reflexivity.
      + pose proof (init_cursor_eq (snd (messages_iter_of a))
                      (window_max_id (ga_reverse a) (snd (messages_iter_of a)))
                      st3 rq3 eq_refl) as Hcur.
        cbv zeta in Hcur. cbv iota beta. cbn [snd]. rewrite Hcur.
        destruct (wait_time (self st3)); destruct (reverse (self st3));
          rewrite ?Ha3;
          eexists _, _, _, [];
          (split; [reflexivity |]); simpl; rewrite Hsent, Hw;
          (split; [reflexivity |]); (split; [left; reflexivity |]);
          (split; [reflexivity |]); (split; [exact Hk3 |]); reflexivity.
    - (* the nested traversal failed *)
      eexists _, _, rq3, []. (split; [reflexivity |]). simpl. rewrite Hsent, Hw.
      (split; [reflexivity |]); (split; [left; reflexivity |]);
      (split; [reflexivity |]); (split; [exact Hk3 |]); reflexivity. }
  destruct Hall as (r & st' & rq & rest & Hinit & Hreqs & Hrest & Hrq & Hk & Ho).
  exists (world st2), rq, rest.
  unfold initialize.
  change (messages_iter_of a) with (fst (messages_iter_of a), snd (messages_iter_of a)).
  cbv iota beta. rewrite Hinit. cbn [snd].
  split; [exact Hw |]. split; [exact Hreqs |]. split; [exact Hrest |].
  split; [exact Hrq |]. split; [exact Hk |].
  rewrite Ho, Ho3. destruct (last _ None); reflexivity.
Qed.

Lemma date_workaround_probes_first_witness :
  (exists w2 rq rest,
      requests_sent w2 = requests_sent []
      /\ requests_sent
           (world (snd (initialize (Scenario.scripted [Scenario.reply [77]])
                          (Scenario.photos_before (Some 10) (Datetime 5000) 0) [])))
         = requests_sent []
           ++ MessagesRequestOf
                (new_GetHistory (InputPeerChat 7) 1 (Some (Datetime 5000)) 0 0) :: rest
      /\ (rest = [] \/ rest = [MessagesRequestOf rq])
      /\ request
           (self (snd (initialize (Scenario.scripted [Scenario.reply [77]])
                         (Scenario.photos_before (Some 10) (Datetime 5000) 0) [])))
         = Some rq
      /\ req_kind rq = Search
      /\ req_offset_id rq
         = Some match last (map Some
                              (fst (fst (date_probe (Scenario.scripted [Scenario.reply [77]])
                                           (InputPeerChat 7) (Datetime 5000) w2))))
                        None with
                | Some m => cm_id m + 1
                | None => 0
                end)
  /\ option_map req_offset_id
       (request
          (self (snd (initialize (Scenario.scripted [Scenario.reply [77]])
                        (Scenario.photos_before (Some 10) (Datetime 5000) 0) []))))
     = Some (Some 78).
Proof.
  split; [| reflexivity].
  apply (date_workaround_probes_first (Scenario.scripted [Scenario.reply [77]])
           (Scenario.photos_before (Some 10) (Datetime 5000) 0) []
           (Datetime 5000) (InputPeerChat 7) (InputPeerChat 7)).
  - discriminate.
  - unfold resolves. simpl. eexists. reflexivity.
  - exact I.
  - vm_compute. intros (H & _). apply H. reflexivity.
  - reflexivity.
  - reflexivity.
  - reflexivity.
  - reflexivity.
  - reflexivity.
  - reflexivity.
  - eexists. reflexivity.
  - reflexivity.
Defined.

(** C8, the claim as stated, fails when a bound stands in for the offset:
    with a filter, an offset date, no text and no [offset_id], but
    [max_id = 50], construction sends nothing, and the only request of the
    traversal is the search itself, anchored at 50. *)
Lemma bound_as_offset_skips_date_probe :
  ga_offset_id (Scenario.photos_before (Some 10) (Datetime 5000) 50) = 0
  /\ requests_sent
       (world (snd (initialize (Scenario.scripted [Scenario.reply [40]])
                      (Scenario.photos_before (Some 10) (Datetime 5000) 50) []))) = []
  /\ kinds_sent
       (requests_sent
          (world (snd (iterate (Scenario.scripted [Scenario.reply [40]]) 5
                         (Scenario.photos_before (Some 10) (Datetime 5000) 50) []))))
     = [Some Search]
  /\ option_map req_offset_id
       (request
          (self (snd (initialize (Scenario.scripted [Scenario.reply [40]])
                        (Scenario.photos_before (Some 10) (Datetime 5000) 50) []))))
     = Some (Some 50).
Proof. repeat split. Qed.

(** With a limit that is not positive, the date workaround comes before the
    request for the total: two requests are sent. *)
Example date_workaround_before_total :
  kinds_sent
    (requests_sent
       (world (snd (initialize (Scenario.scripted [Scenario.reply [77]])
                      (Scenario.photos_before (Some 0) (Datetime 5000) 0) []))))
  = [Some GetHistory; Some Search].
Proof. reflexivity. Qed.

(** ** Every chunk of a traversal *)

Lemma chunk_request_fields (s : t) rq :
  req_kind (chunk_request s rq) = req_kind rq
  /\ req_limit (chunk_request s rq) = Some (num_min_int (left s) _MAX_CHUNK_SIZE)
  /\ (reverse s = false -> req_add_offset (chunk_request s rq) = req_add_offset rq).
Proof.
  unfold chunk_request.
  destruct (reverse s && negb (num_min_int (left s) _MAX_CHUNK_SIZE =? _MAX_CHUNK_SIZE))
    eqn:E; simpl; repeat split; try reflexivity.
  intros Hf. rewrite Hf in E. discriminate.
Qed.

Lemma positive_budget_chunk (l : num) :
  num_leb l (Fin 0) = false ->
  1 <= num_min_int l _MAX_CHUNK_SIZE <= _MAX_CHUNK_SIZE.
Proof.
  unfold _MAX_CHUNK_SIZE. destruct l as [x |]; simpl; [| lia].
  intros H. apply Z.leb_gt in H. lia.
Qed.

(** The requests a traversal sends from its chunks: each is of the kind
    of the request the iterator holds and asks for 1 to 100 messages; in a
    forward traversal each carries the skip count of that request. *)
Lemma pull_requests client fuel :
  forall (st : State t) rq,
    request (self st) = Some rq ->
    exists reqs,
      requests_sent (world (snd (pull client fuel st)))
      = requests_sent (world st) ++ reqs
      /\ Forall (fun q =>
                   chunk_sized (req_kind rq) q
                   /\ (reverse (self st) = false ->
                       skip_count q = Some (req_add_offset rq)))
           reqs.
Proof.
  induction fuel as [| fuel IH]; intros st rq Hrq.
  - exists []. simpl. rewrite app_nil_r. split; [reflexivity | constructor].
  - simpl.
    destruct (num_leb (left (self st)) (Fin 0) || terminal (self st)) eqn:Hgo.
    { exists []. simpl. rewrite app_nil_r. split; [reflexivity | constructor]. }
    apply orb_false_iff in Hgo. destruct Hgo as (Hleft & _).
    destruct (chunk_request_fields (set_buffer [] (self st)) rq) as (Hk & Hlim & Hskip).
    simpl in Hlim, Hskip.
    assert (Hfirst :
      chunk_sized (req_kind rq)
        (MessagesRequestOf (chunk_request (set_buffer [] (self st)) rq))
      /\ (reverse (self st) = false ->
          skip_count (MessagesRequestOf (chunk_request (set_buffer [] (self st)) rq))
          = Some (req_add_offset rq))).
    { split.
      - simpl. split; [exact Hk |]. eexists. split; [exact Hlim |].
        apply positive_budget_chunk, Hleft.
      - intros Hf. simpl. rewrite (Hskip Hf). reflexivity. }
    destruct (_load_next_chunk client
                {| self := set_buffer [] (self st); world := world st |})
      as [[last_chunk | e] st1] eqn:Hload.
    + destruct (load_next_chunk_sends client
                  {| self := set_buffer [] (self st); world := world st |}
                  rq _ _ Hrq eq_refl Hload)
        as (Hw & Hr1 & _ & _ & (rq1 & Hrq1 & Hk1 & Hadd1) & _).
      simpl in Hw, Hr1.
      match goal with
      | |- context [pull client fuel ?st2] =>
          destruct (IH st2 rq1) as (reqs & Hreqs & Hall);
          [ exact Hrq1 | destruct (pull client fuel st2) as [[rest ending] st3] ]
      end.
      simpl in Hreqs, Hall |- *. rewrite Hreqs, Hw, requests_sent_call, <- app_assoc.
      eexists. split; [reflexivity |]. simpl. constructor; [exact Hfirst |].
      eapply Forall_impl; [| exact Hall]. intros q (Hq1 & Hq2).
      rewrite Hk1 in Hq1. split; [exact Hq1 |].
      intros Hf. rewrite Hr1 in Hq2. rewrite (Hq2 Hf), Hadd1. f_equal.
      apply Hskip, Hf.
    + destruct (load_next_chunk_sends client
                  {| self := set_buffer [] (self st); world := world st |}
                  rq _ _ Hrq eq_refl Hload)
        as (Hw & _).
      simpl in Hw.
      exists [MessagesRequestOf (chunk_request (set_buffer [] (self st)) rq)].
      split.
      * destruct e; simpl; rewrite Hw, requests_sent_call; reflexivity.
      * constructor; [exact Hfirst | constructor].
Qed.

(** X1: once the iterator holds its request, every request the rest of
    the traversal sends is of the kind of that request and asks for at least
    1 and at most [_MAX_CHUNK_SIZE] messages. *)
Theorem chunk_requests_keep_kind_and_size client fuel (st : State t) rq :
  request (self st) = Some rq ->
  exists reqs,
    requests_sent (world (snd (pull client fuel st)))
    = requests_sent (world st) ++ reqs
    /\ Forall (chunk_sized (req_kind rq)) reqs.
Proof.
  intros Hrq. destruct (pull_requests client fuel st rq Hrq) as (reqs & Hreqs & Hall).
  exists reqs. split; [exact Hreqs |].
  eapply Forall_impl; [| exact Hall]. intros q (H & _). exact H.
Qed.

Lemma chunk_requests_keep_kind_and_size_witness :
  let client := Scenario.scripted [Scenario.reply [9; 8; 7]] in
  let st := snd (initialize client (Scenario.bounded (Some 250) 0 0 false) []) in
  request (self st) = Some (new_GetHistory (InputPeerChat 7) 1 None 0 0)
  /\ exists reqs,
       requests_sent (world (snd (pull client 5 st))) = requests_sent (world st) ++ reqs
       /\ Forall (chunk_sized GetHistory) reqs.
Proof.
  cbv zeta. split; [reflexivity |].
  apply (chunk_requests_keep_kind_and_size
           (Scenario.scripted [Scenario.reply [9; 8; 7]]) 5
           (snd (initialize (Scenario.scripted [Scenario.reply [9; 8; 7]])
                   (Scenario.bounded (Some 250) 0 0 false) []))
           (new_GetHistory (InputPeerChat 7) 1 None 0 0)).
  reflexivity.
Defined.

(** ** What a chunk load accepts *)

Lemma scan_messages_added client entities messages :
  forall (st : State t),
    exists stopped added last,
      scan_messages client entities messages st
      = (Ok stopped,
         {| self := set_buffer (buffer (self st) ++ added) (set_last_id last (self st));
            world := world st |})
      /\ Forall (fun m => passed_over (from_id (self st)) (cm_message m) = false) added
      /\ (forallb (passed_over (from_id (self st))) messages = true ->
          stopped = false /\ added = [] /\ last = last_id (self st)).
Proof.
  induction messages as [| message rest IH]; intros st.
  - exists false, [], (last_id (self st)). simpl. unfold ret.
    rewrite set_buffer_last_id_same. destruct st; simpl.
    repeat split; constructor.
  - simpl. unfold bind, get_self.
    fold (passed_over (from_id (self st)) message).
    destruct (passed_over (from_id (self st)) message) eqn:Hp.
    + destruct (IH st) as (b & added & l & Heq & Hall & Hnone).
      exists b, added, l. repeat split; try assumption; apply Hnone; assumption.
    + destruct (_message_in_range (self st) message); simpl.
      * unfold modify_self. simpl.
        match goal with
        | |- context [scan_messages client entities rest ?st2] =>
            destruct (IH st2) as (b & added & l & Heq & Hall & _)
        end.
        rewrite Heq. simpl in Hall |- *.
        exists b, (Message_new client message entities (entity (self st)) :: added), l.
        split; [| split; [| discriminate]].
        -- f_equal. f_equal. unfold set_buffer, set_last_id. simpl.
           rewrite <- app_assoc. reflexivity.
        -- constructor; [exact Hp | exact Hall].
      * exists true, [], (last_id (self st)). unfold ret.
        rewrite set_buffer_last_id_same. destruct st; simpl.
        split; [reflexivity |]. split; [constructor | discriminate].
Qed.

Lemma forallb_rev_true {A} (f : A -> bool) l :
  forallb f l = true -> forallb f (rev l) = true.
Proof.
  rewrite !forallb_forall. intros H x Hx. apply H, in_rev, Hx.
Qed.

(** A chunk load whose request is answered with a list of messages: the
    request sent is stored, [total] is set, the messages are scanned, and
    the load reports the last chunk unless the chunk is full and some
    message was accepted, in which case the offset is updated. *)
Lemma load_next_chunk_answer client (st : State t) rq c ms us cs rate :
  request (self st) = Some rq ->
  buffer (self st) = [] ->
  call client (List.length (requests_sent (world st)))
    (MessagesRequestOf (chunk_request (self st) rq))
  = Ok (Messages c ms us cs rate) ->
  exists stopped added last_seen,
    let st1 :=
      {| self :=
           set_buffer added
             (set_last_id last_seen
                (set_total (Some (reported_total (Messages c ms us cs rate)))
                   (set_request (Some (chunk_request (self st) rq)) (self st))));
         world := world st ++ [EvCall (MessagesRequestOf (chunk_request (self st) rq))] |} in
    Forall (fun m => passed_over (from_id (self st)) (cm_message m) = false) added
    /\ (forallb (passed_over (from_id (self st))) ms = true ->
        stopped = false /\ added = [])
    /\ _load_next_chunk client st
       = if stopped
            || (Z.of_nat (List.length ms) <? num_min_int (left (self st)) _MAX_CHUNK_SIZE)
         then (Ok true, st1)
         else
           match last (map Some added) None with
           | Some last_message =>
               (_update_offset last_message (Messages c ms us cs rate) ;; ret false) st1
           | None => (Ok true, st1)
           end.
Proof.
  intros Hrq Hb Hcall. unfold _load_next_chunk. run_monad.
  rewrite Hrq. simpl. unfold chunk_request in *.
  destruct (reverse (self st)
            && negb (num_min_int (left (self st)) _MAX_CHUNK_SIZE =? _MAX_CHUNK_SIZE))
    eqn:Hshort; simpl; rewrite Hcall; simpl.
  all: destruct c as [c |]; simpl.
  all: match goal with
       | |- context [scan_messages ?c ?e ?m ?s] =>
           destruct (scan_messages_added c e m s) as (stopped & added & l & Heq & Hall & Hnone);
           rewrite Heq; clear Heq
       end; simpl in Hall, Hnone |- *; rewrite Hb in *; simpl.
  all: exists stopped, added, l; split; [exact Hall |]; split.
  all: try (intros Hf;
            destruct Hnone as (Hs & Ha & _);
            [ destruct (reverse (self st)); [apply forallb_rev_true |]; exact Hf
            | split; assumption ]).
  all: destruct stopped; simpl; try reflexivity.
  all: destruct (Z.of_nat (List.length ms) <? num_min_int (left (self st)) _MAX_CHUNK_SIZE);
       try reflexivity.
  all: cbn [buffer self set_buffer].
  all: destruct (last (map Some added) None); reflexivity.
Qed.

(** A chunk load that returns normally was answered with a list of
    messages. *)
Lemma load_next_chunk_ok_inv client (st : State t) b st' :
  _load_next_chunk client st = (Ok b, st') ->
  exists rq c ms us cs rate,
    request (self st) = Some rq
    /\ call client (List.length (requests_sent (world st)))
         (MessagesRequestOf (chunk_request (self st) rq))
       = Ok (Messages c ms us cs rate).
Proof.
  intros H. unfold _load_next_chunk in H. run_monad_in H.
  destruct (request (self st)) as [rq |] eqn:Hrq; simpl in H; [| discriminate].
  exists rq. unfold chunk_request.
  destruct (reverse (self st)
            && negb (num_min_int (left (self st)) _MAX_CHUNK_SIZE =? _MAX_CHUNK_SIZE));
    simpl in H.
  all: match type of H with
       | context [call ?c ?n ?q] => destruct (call c n q) as [resp | e] eqn:Hcall
       end; simpl in H; [| discriminate].
  all: destruct resp as [c | c ms us cs rate]; simpl in H; [discriminate |].
  all: exists c, ms, us, cs, rate; split; reflexivity.
Qed.

(** After a chunk load that returns normally, the buffer holds messages
    that were not passed over, and the sender filter is the same. *)
Lemma load_next_chunk_accepts client (st : State t) b st' :
  buffer (self st) = [] ->
  _load_next_chunk client st = (Ok b, st') ->
  from_id (self st') = from_id (self st)
  /\ Forall (fun m => passed_over (from_id (self st)) (cm_message m) = false)
       (buffer (self st')).
Proof.
  intros Hb H.
  destruct (load_next_chunk_ok_inv client st b st' H)
    as (rq & c & ms & us & cs & rate & Hrq & Hcall).
  destruct (load_next_chunk_answer client st rq c ms us cs rate Hrq Hb Hcall)
    as (stopped & added & l & Hall & _ & Heq).
  cbv zeta in Heq. rewrite Heq in H. clear Heq.
  destruct (stopped
            || (Z.of_nat (List.length ms) <? num_min_int (left (self st)) _MAX_CHUNK_SIZE)).
  { injection H as _ <-. simpl. split; [reflexivity | exact Hall]. }
  destruct (last (map Some added) None) as [m |].
  2:{ injection H as _ <-. simpl. split; [reflexivity | exact Hall]. }
  unfold bind in H.
  match type of H with
  | context [_update_offset ?m ?resp ?s] =>
      edestruct (update_offset_spec m resp s) as (r1 & Heq & _);
      [reflexivity | rewrite Heq in H; clear Heq]
  end.
  unfold ret in H. injection H as _ <-. simpl. split; [reflexivity | exact Hall].
Qed.

Lemma passed_over_false from_id message :
  passed_over from_id message = false ->
  msg_empty message = false
  /\ forall f, from_id = Some f -> f <> 0 -> msg_sender_id message = Some f.
Proof.
  unfold passed_over. intros H. apply orb_false_iff in H. destruct H as (He & Hs).
  split; [exact He |]. intros f -> Hf. simpl in Hs.
  destruct (Z.eqb_spec f 0) as [E | _]; [contradiction |]. simpl in Hs.
  unfold opt_neqb in Hs. destruct (msg_sender_id message) as [x |]; [| discriminate].
  apply negb_false_iff, Z.eqb_eq in Hs. congruence.
Qed.

(** X2: a traversal never produces a [MessageEmpty], and when the
    iterator checks the sender locally ([from_id] is set and is not 0) it
    produces only messages of that sender. *)
Theorem produced_items_pass_the_filters client fuel :
  forall (st : State t),
    Forall (fun m =>
              msg_empty (cm_message m) = false
              /\ forall f, from_id (self st) = Some f -> f <> 0 ->
                           msg_sender_id (cm_message m) = Some f)
      (fst (fst (pull client fuel st))).
Proof.
  induction fuel as [| fuel IH]; intros st; simpl; [constructor |].
  destruct (num_leb (left (self st)) (Fin 0) || terminal (self st)); [constructor |].
  destruct (_load_next_chunk client
              {| self := set_buffer [] (self st); world := world st |})
    as [[last_chunk | e] st1] eqn:Hload.
  2:{ destruct e; constructor. }
  destruct (load_next_chunk_accepts client
              {| self := set_buffer [] (self st); world := world st |}
              _ _ eq_refl Hload) as (Hf & Hall).
  simpl in Hf, Hall.
  match goal with
  | |- context [pull client fuel ?st2] =>
      pose proof (IH st2) as Hrest; destruct (pull client fuel st2) as [[rest ending] st3]
  end.
  simpl in Hrest |- *. rewrite Hf in Hrest. apply Forall_app. split.
  - eapply Forall_impl; [| exact Hall]. intros m Hm. apply passed_over_false, Hm.
  - exact Hrest.
Qed.

(** ** The chunk that ends a traversal *)

Lemma pull_last_chunk client fuel (st st1 : State t) :
  num_leb (left (self st)) (Fin 0) = false ->
  terminal (self st) = false ->
  _load_next_chunk client {| self := set_buffer [] (self st); world := world st |}
  = (Ok true, st1) ->
  fst (pull client (S (S fuel)) st) = (buffer (self st1), Exhausted)
  /\ world (snd (pull client (S (S fuel)) st)) = world st1.
Proof.
  intros Hleft Hterm Hload.
  change (pull client (S (S fuel)) st)
    with (if num_leb (left (self st)) (Fin 0) || terminal (self st)
          then (([], Exhausted), st)
          else
            match _load_next_chunk client
                    {| self := set_buffer [] (self st); world := world st |} with
            | (Raise StopAsyncIteration, st') => (([], Exhausted), st')
            | (Raise e, st') => (([], Failed e), st')
            | (Ok last_chunk, st') =>
                let items := buffer (self st') in
                let budget :=
                  num_max_int
                    (num_sub_int (left (self st')) (Z.of_nat (List.length items))) 0 in
                let st'' :=
                  {| self := set_terminal last_chunk
                               (set_buffer [] (set_left budget (self st')));
                     world := world st' |} in
                let '((rest, ending), st3) := pull client (S fuel) st'' in
                ((items ++ rest, ending), st3)
            end).
  rewrite Hleft, Hterm, Hload. cbv zeta. simpl.
  rewrite orb_true_r. simpl. rewrite app_nil_r. split; reflexivity.
Qed.

(** X3: when every message of the answer to a chunk request is passed
    over (each is a [MessageEmpty], or none is of the sender the iterator
    checks locally), the traversal ends there, whatever the number of
    messages of the answer: that request is the only one sent and nothing is
    produced. *)
Theorem chunk_without_accepted_message_ends_traversal client fuel (st : State t)
    rq c ms us cs rate :
  request (self st) = Some rq ->
  num_leb (left (self st)) (Fin 0) = false ->
  terminal (self st) = false ->
  call client (List.length (requests_sent (world st)))
    (MessagesRequestOf (chunk_request (self st) rq))
  = Ok (Messages c ms us cs rate) ->
  forallb (passed_over (from_id (self st))) ms = true ->
  fst (pull client (S (S fuel)) st) = ([], Exhausted)
  /\ requests_sent (world (snd (pull client (S (S fuel)) st)))
     = requests_sent (world st) ++ [MessagesRequestOf (chunk_request (self st) rq)].
Proof.
  intros Hrq Hleft Hterm Hcall Hall.
  destruct (load_next_chunk_answer client
              {| self := set_buffer [] (self st); world := world st |}
              rq c ms us cs rate Hrq eq_refl Hcall)
    as (stopped & added & l & _ & Hnone & Heq).
  destruct (Hnone Hall) as (-> & ->). cbv zeta in Heq. simpl in Heq.
  assert (Hload :
    exists st1,
      _load_next_chunk client {| self := set_buffer [] (self st); world := world st |}
      = (Ok true, st1)
      /\ buffer (self st1) = []
      /\ world st1
         = world st ++ [EvCall (MessagesRequestOf (chunk_request (self st) rq))]).
  { eexists. split; [| split]; [rewrite Heq |..].
    - destruct (Z.of_nat (List.length ms) <? num_min_int (left (self st)) _MAX_CHUNK_SIZE);
        reflexivity.
    - reflexivity.
    - reflexivity. }
  destruct Hload as (st1 & Hload & Hb & Hw).
  destruct (pull_last_chunk client fuel st st1 Hleft Hterm Hload) as (Hres & Hworld).
  rewrite Hres, Hworld, Hb, Hw, requests_sent_call. split; reflexivity.
Qed.

Lemma chunk_without_accepted_message_ends_traversal_witness :
  let full := map (fun i => Scenario.msg (200 - Z.of_nat i)) (seq 0 100) in
  let client :=
    Scenario.scripted [Ok (Messages (Some 5000) full [] [] None); Scenario.reply [1]] in
  let a :=
    {| ga_entity := Some (EntityId 9); ga_limit := Some 500; ga_offset_date := None;
       ga_offset_id := 0; ga_max_id := 0; ga_min_id := 0; ga_add_offset := 0;
       ga_search := None; ga_filter := None; ga_from_user := Some (EntityId 6);
       ga_wait_time := None; ga_ids := None; ga_reverse := false;
       ga_reply_to := None; ga_scheduled := false |} in
  let st := snd (initialize client a []) in
  from_id (self st) = Some 6
  /\ List.length full = 100%nat
  /\ fst (pull client 5 st) = ([], Exhausted)
  /\ List.length (requests_sent (world (snd (pull client 5 st)))) = 1%nat.
Proof.
  cbv zeta. split; [reflexivity |]. split; [reflexivity |].
  match goal with
  | |- fst (pull ?c 5 ?st) = _ /\ _ =>
      destruct (chunk_without_accepted_message_ends_traversal c 3 st
                  (new_Search (InputPeerUser 9) "" InputMessagesFilterEmpty None 0 0 0 None)
                  (Some 5000)
                  (map (fun i => Scenario.msg (200 - Z.of_nat i)) (seq 0 100))
                  [] [] None) as (H1 & H2);
        [reflexivity | reflexivity | reflexivity | reflexivity | reflexivity |]
  end.
  split; [exact H1 |]. rewrite H2. reflexivity.
Defined.

(** X4: when the answer to a chunk request holds fewer messages than the
    request asked for, the traversal ends with that chunk: no other request
    is sent, and the traversal produces what that chunk accepted. *)
Theorem short_chunk_ends_traversal client fuel (st : State t) rq c ms us cs rate :
  request (self st) = Some rq ->
  num_leb (left (self st)) (Fin 0) = false ->
  terminal (self st) = false ->
  call client (List.length (requests_sent (world st)))
    (MessagesRequestOf (chunk_request (self st) rq))
  = Ok (Messages c ms us cs rate) ->
  Z.of_nat (List.length ms) < num_min_int (left (self st)) _MAX_CHUNK_SIZE ->
  snd (fst (pull client (S (S fuel)) st)) = Exhausted
  /\ requests_sent (world (snd (pull client (S (S fuel)) st)))
     = requests_sent (world st) ++ [MessagesRequestOf (chunk_request (self st) rq)]
  /\ total (self (snd (pull client (S (S fuel)) st)))
     = Some (reported_total (Messages c ms us cs rate)).
Proof.
  intros Hrq Hleft Hterm Hcall Hshort.
  destruct (load_next_chunk_answer client
              {| self := set_buffer [] (self st); world := world st |}
              rq c ms us cs rate Hrq eq_refl Hcall)
    as (stopped & added & l & _ & _ & Heq).
  cbv zeta in Heq. simpl in Heq.
  apply Z.ltb_lt in Hshort. rewrite Hshort, orb_true_r in Heq.
  simpl.
  rewrite Hleft, Hterm. simpl.
  change (chunk_request (set_buffer [] (self st)) rq) with (chunk_request (self st) rq)
    in Heq.
  rewrite Heq. simpl. rewrite orb_true_r. simpl.
  rewrite requests_sent_call. repeat split.
Qed.

Lemma short_chunk_ends_traversal_witness :
  let client := Scenario.scripted [Scenario.reply [9; 8; 7]; Scenario.reply [6; 5]] in
  let st := snd (initialize client (Scenario.bounded (Some 10) 0 0 false) []) in
  produced_ids (pull client 5 st) = [9; 8; 7]
  /\ snd (fst (pull client 5 st)) = Exhausted
  /\ List.length (requests_sent (world (snd (pull client 5 st)))) = 1%nat
  /\ total (self (snd (pull client 5 st))) = Some 3.
Proof.
  cbv zeta. split; [reflexivity |].
  match goal with
  | |- snd (fst (pull ?c 5 ?st)) = _ /\ _ =>
      destruct (short_chunk_ends_traversal c 3 st
                  (new_GetHistory (InputPeerChat 7) 1 None 0 0)
                  None (map Scenario.msg [9; 8; 7]) [] [] None) as (H1 & H2 & H3);
        [reflexivity | reflexivity | reflexivity | reflexivity | vm_compute; reflexivity |]
  end.
  split; [exact H1 |]. split; [rewrite H2; reflexivity | exact H3].
Defined.

(** ** Continuation *)

Lemma update_offset_fields last_message response (st : State t) r0 :
  request (self st) = Some r0 ->
  exists r1,
    _update_offset last_message response st
    = (Ok tt, {| self := set_request (Some r1) (self st); world := world st |})
    /\ req_kind r1 = req_kind r0
    /\ req_offset_id r1
       = Some (if reverse (self st) then cm_id last_message + 1 else cm_id last_message)
    /\ (req_kind r0 = Search -> req_max_date r1 = Some None)
    /\ (req_kind r0 <> Search -> req_offset_date r1 = Some (cm_date last_message))
    /\ (req_kind r0 = SearchGlobal ->
        req_offset_peer r1 = Some (offset_peer_of last_message)
        /\ req_offset_rate r1 = Some (next_rate_or_0 response)).
Proof.
  intros H.
  unfold _update_offset, modify_request, get_request, bind, get_self, modify_self,
    attr, ret, offset_peer_of.
  simpl. rewrite H. simpl.
  destruct (reverse (self st)); simpl;
    destruct (req_kind r0) eqn:K; simpl; rewrite ?K; simpl;
    try destruct (cm_input_chat last_message); simpl;
    eexists; (split; [reflexivity |]); simpl;
    repeat split; try assumption; try reflexivity; try discriminate;
    try (intros E; exfalso; apply E; reflexivity).
Qed.

(** X5: when a chunk load does not end the traversal, the chunk was full
    and accepted a message, and the request is anchored at the last message
    it accepted for the next load: the offset is the identifier of that
    message (one more in a reverse traversal); a search has its maximum date
    cleared, the other requests take the date of that message as offset
    date; a global search also takes the chat of that message, or
    [InputPeerEmpty], as offset peer, and as offset rate the [next_rate] of
    the answer ([None] when the answer has it with the value [None]), or 0
    when the answer has no such attribute. *)
Theorem next_request_is_anchored_at_last_item client (st st' : State t) rq :
  request (self st) = Some rq ->
  buffer (self st) = [] ->
  _load_next_chunk client st = (Ok false, st') ->
  exists response last_message rq',
    call client (List.length (requests_sent (world st)))
      (MessagesRequestOf (chunk_request (self st) rq)) = Ok response
    /\ last (map Some (buffer (self st'))) None = Some last_message
    /\ request (self st') = Some rq'
    /\ req_kind rq' = req_kind rq
    /\ req_offset_id rq'
       = Some (if reverse (self st) then cm_id last_message + 1 else cm_id last_message)
    /\ (req_kind rq = Search -> req_max_date rq' = Some None)
    /\ (req_kind rq <> Search -> req_offset_date rq' = Some (cm_date last_message))
    /\ (req_kind rq = SearchGlobal ->
        req_offset_peer rq' = Some (offset_peer_of last_message)
        /\ req_offset_rate rq' = Some (next_rate_or_0 response)).
Proof.
  intros Hrq Hb H.
  destruct (load_next_chunk_ok_inv client st false st' H)
    as (rq0 & c & ms & us & cs & rate & Hrq0 & Hcall).
  rewrite Hrq in Hrq0. injection Hrq0 as <-.
  destruct (load_next_chunk_answer client st rq c ms us cs rate Hrq Hb Hcall)
    as (stopped & added & l & _ & _ & Heq).
  cbv zeta in Heq. rewrite Heq in H. clear Heq.
  destruct (stopped
            || (Z.of_nat (List.length ms) <? num_min_int (left (self st)) _MAX_CHUNK_SIZE));
    [discriminate |].
  destruct (last (map Some added) None) as [m |] eqn:Hlast; [| discriminate].
  unfold bind in H.
  match type of H with
  | context [_update_offset ?m ?resp ?s] =>
      edestruct (update_offset_fields m resp s) as (r1 & Heq & Hk & Hoff & Hmax & Hdate & Hglob);
      [reflexivity | rewrite Heq in H; clear Heq]
  end.
  unfold ret in H. injection H as <-.
  destruct (chunk_request_fields (self st) rq) as (Hck & _).
  rewrite Hck in *. simpl in Hoff.
  exists (Messages c ms us cs rate), m, r1. simpl.
  repeat split; try assumption; apply Hglob; assumption.
Qed.

Lemma next_request_is_anchored_at_last_item_witness :
  let client := Scenario.scripted [Scenario.reply [9; 8; 7]] in
  let st := snd (initialize client (Scenario.bounded (Some 3) 0 0 false) []) in
  let st' := snd (_load_next_chunk client st) in
  fst (_load_next_chunk client st) = Ok false
  /\ exists response last_message rq',
       call client (List.length (requests_sent (world st)))
         (MessagesRequestOf
            (chunk_request (self st) (new_GetHistory (InputPeerChat 7) 1 None 0 0)))
       = Ok response
       /\ last (map Some (buffer (self st'))) None = Some last_message
       /\ request (self st') = Some rq'
       /\ req_kind rq' = GetHistory
       /\ req_offset_id rq' = Some (cm_id last_message)
       /\ cm_id last_message = 7.
Proof.
  cbv zeta. split; [reflexivity |].
  match goal with
  | |- context [_load_next_chunk ?c ?st] =>
      destruct (next_request_is_anchored_at_last_item c st
                  (snd (_load_next_chunk c st))
                  (new_GetHistory (InputPeerChat 7) 1 None 0 0))
        as (response & m & rq' & H1 & H2 & H3 & H4 & H5 & _);
        [vm_compute; reflexivity | vm_compute; reflexivity | vm_compute; reflexivity |]
  end.
  exists response, m, rq'. repeat split; try assumption.
  vm_compute in H2. injection H2 as <-. reflexivity.
Defined.

(** After a full chunk of a global search, an answer that has [next_rate]
    with the value [None] leaves [None] as the offset rate of the next
    request; an answer without that attribute leaves 0, and an answer with
    a rate leaves that rate. *)
Example offset_rate_is_the_next_rate_of_the_answer :
  let full := map Scenario.msg [20; 19; 18; 17; 16; 15; 14; 13; 12; 11] in
  let st := snd (initialize (Scenario.scripted []) Scenario.global_search []) in
  let offset_rate_after next_rate :=
    option_map req_offset_rate
      (request (self (snd (_load_next_chunk
                             (Scenario.scripted [Ok (Messages (Some 50) full [] [] next_rate)])
                             st)))) in
  offset_rate_after (Some None) = Some (Some None)
  /\ offset_rate_after None = Some (Some (Some 0))
  /\ offset_rate_after (Some (Some 4)) = Some (Some (Some 4)).
Proof. cbv zeta. repeat split; vm_compute; reflexivity. Qed.

(** ** The request a construction builds *)

Lemma probed_offset_from_id items :
  forall rq, req_from_id (probed_offset items rq) = req_from_id rq
             /\ req_peer (probed_offset items rq) = req_peer rq.
Proof.
  unfold probed_offset. induction items as [| m items IH]; intros rq; simpl.
  - split; reflexivity.
  - destruct (IH (with_offset_id (cm_id m + 1) rq)) as (H1 & H2).
    rewrite H1, H2. split; reflexivity.
Qed.

(** Whatever the outcome of lines 72-154, the request they leave on the
    iterator has a skip count unless it is a global search or a scheduled
    list; a scheduled list is asked of the reference the caller passed; and
    a search carries the sender or the iterator checks it locally,
    by the entity type of the target peer. *)
Lemma init_request_fields client probe kw offset_id from_user (st : State t) r st' :
  request (self st) = None ->
  init_request client probe kw offset_id from_user st = (r, st') ->
  forall rq,
    request (self st') = Some rq ->
    req_kind rq = selected_kind (self st) kw from_user
    /\ req_add_offset rq
       = match req_kind rq with
         | SearchGlobal | GetScheduledHistory => None
         | _ => Some (kw_add_offset kw)
         end
    /\ (req_kind rq = GetScheduledHistory -> req_peer rq = Some (kw_entity kw))
    /\ (req_kind rq = Search ->
        exists peer ty,
          entity (self st) = Some peer
          /\ _entity_type client peer = Ok ty
          /\ req_from_id rq = Some (match ty with USER => None | _ => from_user end)
          /\ from_id (self st')
             = match ty with USER => from_id (self st) | _ => None end)
    /\ (req_kind rq <> Search -> from_id (self st') = from_id (self st)).
Proof.
  intros Hnone H rq Hrq. unfold init_request in H. destruct st as [s w].
  unfold selected_kind, search_condition. simpl in *.
  cbv beta iota zeta delta [bind get_self modify_self ret raise lift_res] in H.
  simpl in H.
  destruct (entity s) as [peer |] eqn:Ent.
  2:{ injection H as _ <-. simpl in Hrq. injection Hrq as <-. simpl.
      repeat split; try discriminate. }
  destruct (kw_scheduled kw).
  { injection H as _ <-. simpl in Hrq. injection Hrq as <-. simpl.
    repeat split; try discriminate. }
  destruct (kw_reply_to kw) as [reply_to |]; simpl in *.
  { injection H as _ <-. simpl in Hrq. injection Hrq as <-. simpl.
    repeat split; try discriminate. }
  destruct (is_some (kw_search kw)
            || negb (is_InputMessagesFilterEmpty (instantiate_filter (kw_filter kw)))
            || is_some from_user).
  2:{ injection H as _ <-. simpl in Hrq. injection Hrq as <-. simpl.
      repeat split; try discriminate. }
  destruct (_entity_type client peer) as [ty | e] eqn:Hty; simpl in H.
  2:{ injection H as _ <-. simpl in Hrq. congruence. }
  assert (Hgen : forall s1 fu,
    (match kw_offset_date kw with
     | Some date =>
         if negb (is_InputMessagesFilterEmpty (instantiate_filter (kw_filter kw)))
            && negb (truthy_str (kw_search kw)) && (offset_id =? 0)
         then date_workaround probe peer date
         else (fun s0 : State t => (Ok tt, s0))
     | None => fun s0 : State t => (Ok tt, s0)
     end)
      {| self :=
           set_request
             (Some (new_Search peer (str_or_empty (kw_search kw))
                      (instantiate_filter (kw_filter kw)) (kw_offset_date kw)
                      offset_id (kw_add_offset kw) 0 fu)) s1;
         world := w |} = (r, st') ->
    req_kind rq = Search
    /\ req_add_offset rq = Some (kw_add_offset kw)
    /\ req_from_id rq = Some fu
    /\ from_id (self st') = from_id s1).
  { intros s1 fu Hrun.
    destruct (kw_offset_date kw) as [date |].
    2:{ injection Hrun as _ <-. simpl in Hrq. injection Hrq as <-. simpl.
        repeat split. }
    destruct (negb (is_InputMessagesFilterEmpty (instantiate_filter (kw_filter kw)))
              && negb (truthy_str (kw_search kw)) && (offset_id =? 0)).
    2:{ injection Hrun as _ <-. simpl in Hrq. injection Hrq as <-. simpl.
        repeat split. }
    erewrite date_workaround_eq in Hrun; [| reflexivity].
    injection Hrun as _ <-. simpl in Hrq. injection Hrq as <-. simpl.
    destruct (probed_offset_fields
                (fst (fst (probe peer date w)))
                (new_Search peer (str_or_empty (kw_search kw))
                   (instantiate_filter (kw_filter kw)) (Some date)
                   offset_id (kw_add_offset kw) 0 fu)) as (Hk & Ha & _).
    destruct (probed_offset_from_id
                (fst (fst (probe peer date w)))
                (new_Search peer (str_or_empty (kw_search kw))
                   (instantiate_filter (kw_filter kw)) (Some date)
                   offset_id (kw_add_offset kw) 0 fu)) as (Hf & _).
    rewrite Hk, Ha, Hf. repeat split. }
  destruct ty; simpl in H; apply Hgen in H; destruct H as (Hk & Ha & Hf & Hfrom);
    rewrite Hk, Ha; (split; [reflexivity |]); (split; [reflexivity |]);
    (split; [discriminate |]);
    (split; [intros _; eexists _, _; split; [reflexivity |]; split; [exact Hty |];
             split; [exact Hf | exact Hfrom]
            | intros E; exfalso; apply E; reflexivity]).
Qed.

(** Lines 26-70 with the peers resolved: the local [from_user] is the
    resolved sender and [from_id] its identifier. *)
Lemma init_upto_from_user_ids client a w :
  (ga_reverse a = true -> truthy_entity (ga_entity a) = true) ->
  resolves client (ga_entity a) ->
  resolves client (ga_from_user a) ->
  window_collapsed (ga_reverse a) (snd (messages_iter_of a)) = false ->
  exists st2,
    (forall A (k : Z * num -> Z -> option InputPeer -> M (State t) A),
        (init_entity client (snd (messages_iter_of a)) ;;
         window <- init_window (snd (messages_iter_of a)) ;;
         offset_id <- init_anchor (snd (messages_iter_of a)) (fst window) ;;
         from_user <- init_from_user client (snd (messages_iter_of a)) ;;
         k window offset_id from_user)%py
          {| self := fst (messages_iter_of a); world := w |}
        = k (computed_offset a,
             window_max_id (ga_reverse a) (snd (messages_iter_of a)))
            (anchor a) (sender_peer client a) st2)
    /\ entity (self st2) = target_peer client a
    /\ from_id (self st2) = option_map (get_peer_id client) (sender_peer client a)
    /\ requests_sent (world st2) = requests_sent w
    /\ reverse (self st2) = ga_reverse a
    /\ limit (self st2) = limit (fst (messages_iter_of a))
    /\ request (self st2) = None.
Proof.
  intros Hrev Hres1 Hres2 Hwin.
  unfold resolves, target_peer, sender_peer in *.
  assert (Hstep : forall (st1 : State t) from_user st2,
             reverse (self st1) = ga_reverse a ->
             init_entity client (snd (messages_iter_of a))
               {| self := fst (messages_iter_of a); world := w |} = (Ok tt, st1) ->
             init_from_user client (snd (messages_iter_of a)) st1 = (Ok from_user, st2) ->
             forall A (k : Z * num -> Z -> option InputPeer -> M (State t) A),
               (init_entity client (snd (messages_iter_of a)) ;;
                window <- init_window (snd (messages_iter_of a)) ;;
                offset_id <- init_anchor (snd (messages_iter_of a)) (fst window) ;;
                from_user <- init_from_user client (snd (messages_iter_of a)) ;;
                k window offset_id from_user)%py
                 {| self := fst (messages_iter_of a); world := w |}
               = k (computed_offset a,
                    window_max_id (ga_reverse a) (snd (messages_iter_of a)))
                   (anchor a) from_user st2).
  { intros st1 from_user st2 Hr H1 H2 A k.
    rewrite (bind_ok _ _ _ _ _ H1).
    erewrite bind_ok; [| rewrite init_window_eq, Hr, Hwin; reflexivity].
    erewrite bind_ok; [| rewrite init_anchor_eq; reflexivity].
    rewrite (bind_ok _ _ _ _ _ H2). rewrite Hr. cbn [fst].
    rewrite window_offset_computed. reflexivity. }
  destruct (as_truthy (ga_entity a)) as [e |] eqn:He;
    [destruct Hres1 as (p & Hp) |];
    (destruct (as_truthy (ga_from_user a)) as [u |] eqn:Hu;
     [destruct Hres2 as (p' & Hp') |]).
  - eexists. split.
    + rewrite Hp'.
      apply Hstep with (st1 := {| self := set_entity (Some p) (fst (messages_iter_of a));
                                  world := w ++ [EvResolve e] |}).
      * reflexivity.
      * rewrite init_entity_eq. simpl. rewrite He, Hp. reflexivity.
      * rewrite init_from_user_eq. simpl. rewrite Hu, Hp'. reflexivity.
    + simpl. rewrite Hp, Hp', !requests_sent_resolve. repeat split.
  - eexists. split.
    + apply Hstep with (st1 := {| self := set_entity (Some p) (fst (messages_iter_of a));
                                  world := w ++ [EvResolve e] |}).
      * reflexivity.
      * rewrite init_entity_eq. simpl. rewrite He, Hp. reflexivity.
      * rewrite init_from_user_eq. simpl. rewrite Hu. reflexivity.
    + simpl. rewrite Hp, !requests_sent_resolve. repeat split.
  - assert (Hfwd : ga_reverse a = false).
    { destruct (ga_reverse a); [| reflexivity].
      apply as_truthy_None in He. rewrite Hrev in He; [discriminate | reflexivity]. }
    assert (Htf : truthy_entity (ga_from_user a) = true).
    { destruct (truthy_entity (ga_from_user a)) eqn:E; [reflexivity |].
      apply as_truthy_None in E. congruence. }
    eexists. split.
    + rewrite Hp'.
      apply Hstep with (st1 := {| self := set_entity None (fst (messages_iter_of a));
                                  world := w |}).
      * reflexivity.
      * rewrite init_entity_eq. simpl. rewrite He, Hfwd. reflexivity.
      * rewrite init_from_user_eq. simpl. rewrite Hu, Hp'. reflexivity.
    + simpl. rewrite Htf, Hp', !requests_sent_resolve. repeat split.
  - assert (Hfwd : ga_reverse a = false).
    { destruct (ga_reverse a); [| reflexivity].
      apply as_truthy_None in He. rewrite Hrev in He; [discriminate | reflexivity]. }
    assert (Htf : truthy_entity (ga_from_user a) = false)
      by (apply as_truthy_None; exact Hu).
    eexists. split.
    + apply Hstep with (st1 := {| self := set_entity None (fst (messages_iter_of a));
                                  world := w |}).
      * reflexivity.
      * rewrite init_entity_eq. simpl. rewrite He, Hfwd. reflexivity.
      * rewrite init_from_user_eq. simpl. rewrite Hu. reflexivity.
    + simpl. rewrite Htf. repeat split.
Qed.

(** Lines 156-176 once the request is built: nothing but [_init]'s own
    total probe is sent, the sender filter stays, and the request keeps its
    kind, its sender and its peer. *)
Lemma init_tail_frame client kw max_id' (st : State t) rq r st' :
  request (self st) = Some rq ->
  (init_total_only client ;; init_cursor kw max_id')%py st = (r, st') ->
  from_id (self st') = from_id (self st)
  /\ (exists rq',
         request (self st') = Some rq'
         /\ req_kind rq' = req_kind rq
         /\ req_from_id rq' = req_from_id rq
         /\ req_peer rq' = req_peer rq)
  /\ (num_leb (limit (self st)) (Fin 0) = false ->
      world st' = world st
      /\ (reverse (self st) = false ->
          r = Ok tt /\ request (self st') = Some rq /\ reverse (self st') = false)
      /\ (reverse (self st) = true -> req_add_offset rq = None ->
          r = Raise (AttributeError "add_offset"))).
Proof.
  intros Hrq H. unfold bind in H.
  rewrite (init_total_only_eq client st rq Hrq) in H.
  destruct (num_leb (limit (self st)) (Fin 0)).
  - destruct (call client (List.length (requests_sent (world st))) (MessagesRequestOf rq));
      injection H as _ <-; simpl;
      (split; [reflexivity |]); (split; [| discriminate]);
      exists rq; repeat split; assumption.
  - rewrite (init_cursor_eq kw max_id' st rq Hrq) in H. cbv zeta in H.
    destruct (reverse (self st)) eqn:Hrev.
    + destruct (req_add_offset rq) as [v |] eqn:Hadd.
      * injection H as _ <-. simpl.
        split; [destruct (wait_time (self st)); reflexivity |].
        split; [eexists; split; [reflexivity |]; repeat split |].
        intros _. repeat split; discriminate.
      * injection H as <- <-. simpl.
        split; [destruct (wait_time (self st)); reflexivity |].
        split; [exists rq; split;
                [destruct (wait_time (self st)); simpl; exact Hrq | repeat split] |].
        intros _. repeat split; discriminate.
    + injection H as <- <-. simpl.
      split; [destruct (wait_time (self st)); reflexivity |].
      split; [exists rq; split;
              [destruct (wait_time (self st)); simpl; exact Hrq | repeat split] |].
      intros _. split; [reflexivity |]. split; [| discriminate].
      intros _. split; [reflexivity |].
      split; destruct (wait_time (self st)); simpl; assumption.
Qed.

(** ** What a construction sends *)

Lemma init_request_world client probe kw offset_id from_user (st : State t) r st' :
  workaround_condition kw offset_id = false ->
  init_request client probe kw offset_id from_user st = (r, st') ->
  world st' = world st.
Proof.
  intros Hw H. unfold init_request in H. destruct st as [s w].
  unfold workaround_condition in Hw. simpl in *.
  cbv beta iota zeta delta [bind get_self modify_self ret raise lift_res] in H.
  simpl in H.
  destruct (entity s) as [peer |]; [| injection H as _ <-; reflexivity].
  destruct (kw_scheduled kw); [injection H as _ <-; reflexivity |].
  destruct (kw_reply_to kw); [injection H as _ <-; reflexivity |].
  destruct (is_some (kw_search kw)
            || negb (is_InputMessagesFilterEmpty (instantiate_filter (kw_filter kw)))
            || is_some from_user); [| injection H as _ <-; reflexivity].
  destruct (_entity_type client peer) as [ty | e]; simpl in H;
    [| injection H as _ <-; reflexivity].
  destruct (kw_offset_date kw) as [date |]; simpl in Hw.
  - rewrite Hw in H. destruct ty; simpl in H; injection H as _ <-; reflexivity.
  - destruct ty; simpl in H; injection H as _ <-; reflexivity.
Qed.

Lemma init_total_only_skipped client (st : State t) :
  num_leb (limit (self st)) (Fin 0) = false ->
  init_total_only client st = (Ok tt, st).
Proof.
  intros H. unfold init_total_only, bind, get_self. rewrite H. reflexivity.
Qed.

Lemma init_cursor_world kw max_id' (st : State t) r st' :
  init_cursor kw max_id' st = (r, st') -> world st' = world st.
Proof.
  intros H. destruct (request (self st)) as [rq |] eqn:Hrq.
  - rewrite (init_cursor_eq kw max_id' st rq Hrq) in H. cbv zeta in H.
    destruct (reverse (self st)); [destruct (req_add_offset rq) |];
      injection H as _ <-; reflexivity.
  - unfold init_cursor in H.
    cbv beta iota zeta delta
      [bind get_self modify_request get_request modify_self attr ret raise] in H.
    simpl in H.
    destruct (wait_time (self st)); simpl in H;
      destruct (reverse (self st)); simpl in H; rewrite ?Hrq in H; simpl in H;
      injection H as _ <-; reflexivity.
Qed.

Lemma positive_limit_budget (a : GetMessagesArgs) :
  (forall l, ga_limit a = Some l -> 0 < l) ->
  num_leb (limit (fst (messages_iter_of a))) (Fin 0) = false.
Proof.
  intros Hlimit. simpl. destruct (ga_limit a) as [l |] eqn:El; [| reflexivity].
  simpl. apply Z.leb_gt. specialize (Hlimit l eq_refl). lia.
Qed.

(** X9: with a limit that is positive or absent, a construction that does
    not meet the condition of the date workaround sends no request, whatever
    its outcome: the first request of the traversal is the one of its first
    chunk. *)
Theorem construction_sends_no_request client a w :
  (forall l, ga_limit a = Some l -> 0 < l) ->
  date_workaround_applies a = false ->
  requests_sent (world (snd (initialize client a w))) = requests_sent w.
Proof.
  intros Hlimit Hno. apply positive_limit_budget in Hlimit.
  unfold initialize.
  change (messages_iter_of a) with (fst (messages_iter_of a), snd (messages_iter_of a)).
  cbv iota beta.
  destruct (_init client (date_probe client) (snd (messages_iter_of a))
              {| self := fst (messages_iter_of a); world := w |}) as [r st'] eqn:Hinit.
  apply init_inv in Hinit. cbn [snd].
  destruct Hinit as [(e & H1 & _) | (st1 & H1 & Hrest)].
  { rewrite init_entity_eq in H1. cbn [self world] in H1.
    destruct (as_truthy _) as [x |].
    - destruct (get_input_entity client x); [discriminate |].
      injection H1 as _ <-. simpl. apply requests_sent_resolve.
    - destruct (reverse _); [| discriminate]. injection H1 as _ <-. reflexivity. }
  assert (Hw1 : requests_sent (world st1) = requests_sent w).
  { rewrite init_entity_eq in H1. cbn [self world] in H1.
    destruct (as_truthy _) as [x |].
    - destruct (get_input_entity client x); [| discriminate].
      injection H1 as <-. simpl. apply requests_sent_resolve.
    - destruct (reverse _); [discriminate |]. injection H1 as <-. reflexivity. }
  destruct (init_entity_post client _ _ _ _ H1) as (Hr1 & Hl1 & _).
  cbn [self] in Hr1, Hl1.
  destruct Hrest as [(_ & _ & ->) | (_ & Hrest)]; [exact Hw1 |].
  assert (Hfu : forall r2 st2,
             init_from_user client (snd (messages_iter_of a)) st1 = (r2, st2) ->
             requests_sent (world st2) = requests_sent w).
  { intros r2 st2 H2. rewrite init_from_user_eq in H2.
    destruct (as_truthy _) as [u |].
    - destruct (get_input_entity client u); injection H2 as _ <-; simpl;
        rewrite requests_sent_resolve; exact Hw1.
    - injection H2 as _ <-. exact Hw1. }
  destruct Hrest as [(e & H2 & _) | (from_user & st2 & H2 & Hrest)];
    [apply (Hfu _ _ H2) |].
  pose proof (Hfu _ _ H2) as Hw2.
  destruct (init_from_user_post client _ _ _ _ H2) as (Hr2 & Hl2 & _).
  assert (Hanchor :
    anchor_of (reverse (self st1)) (snd (messages_iter_of a))
      (window_offset (reverse (self st1)) (snd (messages_iter_of a))) = anchor a).
  { rewrite Hr1. cbn [MessagesIter.reverse fst messages_iter_of MessagesIter.new].
    rewrite window_offset_computed. reflexivity. }
  rewrite Hanchor in Hrest.
  destruct Hrest as [(e & H3 & _) | (st3 & H3 & Hrest)].
  { rewrite (init_request_world _ _ _ _ _ _ _ _ Hno H3). exact Hw2. }
  pose proof (init_request_world _ _ _ _ _ _ _ _ Hno H3) as Hw3.
  destruct (init_request_spec _ _ _ _ _ _ _ _ H3) as (_ & Hl3 & _).
  assert (Hpos : num_leb (limit (self st3)) (Fin 0) = false)
    by (rewrite Hl3, Hl2, Hl1; exact Hlimit).
  rewrite (init_total_only_skipped client st3 Hpos) in Hrest.
  destruct Hrest as [(e & H4 & _) | (st4 & H4 & H5)]; [discriminate |].
  injection H4 as <-.
  rewrite (init_cursor_world _ _ _ _ _ H5), Hw3. exact Hw2.
Qed.

Lemma construction_sends_no_request_witness :
  fst (initialize (Scenario.scripted [Scenario.reply [9; 8; 7]])
         (Scenario.photos_before (Some 10) (Datetime 5000) 50) []) = Ok tt
  /\ requests_sent
       (world (snd (initialize (Scenario.scripted [Scenario.reply [9; 8; 7]])
                      (Scenario.photos_before (Some 10) (Datetime 5000) 50) []))) = [].
Proof.
  split; [reflexivity |].
  apply (construction_sends_no_request (Scenario.scripted [Scenario.reply [9; 8; 7]])
           (Scenario.photos_before (Some 10) (Datetime 5000) 50) []).
  - intros l H. injection H as <-. lia.
  - reflexivity.
Defined.

Lemma sender_peer_None client a :
  resolves client (ga_from_user a) ->
  (sender_peer client a = None <-> as_truthy (ga_from_user a) = None).
Proof.
  unfold resolves, sender_peer. intros Hres.
  destruct (as_truthy (ga_from_user a)) as [u |]; [| tauto].
  destruct Hres as (p & ->). split; discriminate.
Qed.

(** A construction with the peers resolved gets to line 156 with the
    request built and nothing sent; the request has the skip count of its
    variant. *)
Lemma init_built client probe a w :
  (ga_reverse a = true -> truthy_entity (ga_entity a) = true) ->
  resolves client (ga_entity a) ->
  resolves client (ga_from_user a) ->
  window_collapsed (ga_reverse a) (snd (messages_iter_of a)) = false ->
  (variant_by_precedence a = FilteredSearch ->
   classifies client a /\ date_workaround_applies a = false) ->
  exists st3 rq,
    _init client probe (snd (messages_iter_of a))
      {| self := fst (messages_iter_of a); world := w |}
    = (init_total_only client ;;
       init_cursor (snd (messages_iter_of a))
         (window_max_id (ga_reverse a) (snd (messages_iter_of a))))%py st3
    /\ request (self st3) = Some rq
    /\ variant_of (req_kind rq) = variant_by_precedence a
    /\ requests_sent (world st3) = requests_sent w
    /\ reverse (self st3) = ga_reverse a
    /\ limit (self st3) = limit (fst (messages_iter_of a))
    /\ req_add_offset rq = skip_count_sent a
    /\ (req_kind rq = GetScheduledHistory -> req_peer rq = Some (ga_entity a)).
Proof.
  intros Hrev Hres1 Hres2 Hwin Hsearch.
  destruct (init_upto_from_user_ids client a w Hrev Hres1 Hres2 Hwin)
    as (st2 & Hpre & Hent & _ & Hw & Hr & Hl & Hq).
  pose proof (target_peer_None client a Hres1) as Htp. rewrite <- Hent in Htp.
  pose proof (selected_kind_by_precedence a (self st2) (sender_peer client a) Htp
                (sender_peer_None client a Hres2)) as Hkind.
  destruct (init_request_plain client probe (snd (messages_iter_of a)) (anchor a)
              (sender_peer client a) st2) as (rq & s' & Hreq & Hk & Hs' & _).
  { intros Hsel. rewrite Hsel in Hkind. simpl in Hkind.
    destruct (Hsearch (eq_sym Hkind)) as ((p & ty & Hp & Hty) & Hno).
    split; [| exact Hno]. exists p, ty. split; [congruence | exact Hty]. }
  destruct (init_request_fields client probe _ _ _ st2 _ _ Hq Hreq rq eq_refl)
    as (_ & Hadd & Hpeer & _).
  exists {| self := set_request (Some rq) s'; world := world st2 |}, rq.
  split.
  { unfold _init. rewrite Hpre. rewrite (bind_ok _ _ _ _ _ Hreq). reflexivity. }
  assert (Hskip : req_add_offset rq = skip_count_sent a).
  { rewrite Hadd. unfold skip_count_sent. rewrite <- Hkind, <- Hk.
    destruct (req_kind rq); reflexivity. }
  destruct Hs' as [-> | ->]; simpl;
    repeat split; try assumption; try (rewrite Hk; exact Hkind).
Qed.

(** X6: a forward traversal sends the skip count of the caller with each
    of its requests, and no skip count at all with the requests of a global
    search or of a scheduled list, which are built without one: for these
    two [add_offset] has no effect. *)
Theorem forward_requests_carry_caller_skip_count client fuel a w :
  ga_reverse a = false ->
  resolves client (ga_entity a) ->
  resolves client (ga_from_user a) ->
  ~ (computed_offset a <> 0 /\ opposite_bound a <> 0 /\ window_width a <= 1) ->
  (forall l, ga_limit a = Some l -> 0 < l) ->
  (variant_by_precedence a = FilteredSearch ->
   classifies client a /\ date_workaround_applies a = false) ->
  exists reqs,
    requests_sent (world (snd (iterate client fuel a w))) = requests_sent w ++ reqs
    /\ Forall (fun q => skip_count q = Some (skip_count_sent a)) reqs.
Proof.
  intros Hfwd Hres1 Hres2 Hwin Hlimit Hsearch.
  apply not_collapsed in Hwin. apply positive_limit_budget in Hlimit.
  destruct (init_built client (date_probe client) a w) as
    (st3 & rq & Hinit & Hrq & _ & Hw & Hr3 & Hl3 & Hskip & _);
    try assumption.
  { intros E. congruence. }
  destruct ((init_total_only client ;;
             init_cursor (snd (messages_iter_of a))
               (window_max_id (ga_reverse a) (snd (messages_iter_of a))))%py st3)
    as [r st4] eqn:Htail.
  destruct (init_tail_frame client _ _ st3 rq r st4 Hrq Htail) as (_ & _ & Hpos).
  rewrite Hl3 in Hpos. destruct (Hpos Hlimit) as (Hw4 & Hok & _).
  rewrite Hr3 in Hok. destruct (Hok Hfwd) as (-> & Hrq4 & Hr4).
  unfold iterate, run.
  change (messages_iter_of a) with (fst (messages_iter_of a), snd (messages_iter_of a)).
  cbv iota beta. rewrite Hinit.
  destruct (pull_requests client fuel st4 rq Hrq4) as (reqs & Hreqs & Hall).
  exists reqs. rewrite Hreqs, Hw4, Hw. split; [reflexivity |].
  eapply Forall_impl; [| exact Hall]. intros q (_ & Hq).
  rewrite (Hq Hr4), Hskip. reflexivity.
Qed.

Lemma forward_requests_carry_caller_skip_count_witness :
  let a :=
    {| ga_entity := None; ga_limit := Some 10; ga_offset_date := None;
       ga_offset_id := 0; ga_max_id := 0; ga_min_id := 0; ga_add_offset := 25;
       ga_search := Some "hello"; ga_filter := None; ga_from_user := None;
       ga_wait_time := None; ga_ids := None; ga_reverse := false;
       ga_reply_to := None; ga_scheduled := false |} in
  skip_count_sent a = None
  /\ skip_count_sent (Scenario.bounded (Some 10) 0 0 false) = Some 0
  /\ exists reqs,
       requests_sent
         (world (snd (iterate (Scenario.scripted [Scenario.reply [9; 8; 7]]) 5 a [])))
       = [] ++ reqs
       /\ Forall (fun q => skip_count q = Some (skip_count_sent a)) reqs.
Proof.
  cbv zeta. split; [reflexivity |]. split; [reflexivity |].
  apply (forward_requests_carry_caller_skip_count
           (Scenario.scripted [Scenario.reply [9; 8; 7]]) 5).
  - reflexivity.
  - exact I.
  - exact I.
  - vm_compute. intros (H & _). apply H. reflexivity.
  - intros l H. injection H as <-. lia.
  - discriminate.
Defined.

(** X7: a reverse traversal of the scheduled messages fails at
    construction: the request of a scheduled list is built without a skip
    count (lines 89-92), and line 171 reads it.  [_init] raises
    [AttributeError] and nothing is sent. *)
Theorem reverse_scheduled_fails_at_construction client fuel a w :
  ga_reverse a = true ->
  ga_scheduled a = true ->
  truthy_entity (ga_entity a) = true ->
  resolves client (ga_entity a) ->
  resolves client (ga_from_user a) ->
  ~ (computed_offset a <> 0 /\ opposite_bound a <> 0 /\ window_width a <= 1) ->
  (forall l, ga_limit a = Some l -> 0 < l) ->
  fst (initialize client a w) = Raise (AttributeError "add_offset")
  /\ fst (iterate client fuel a w) = ([], Failed (AttributeError "add_offset"))
  /\ requests_sent (world (snd (iterate client fuel a w))) = requests_sent w.
Proof.
  intros Hrev Hsched Hent Hres1 Hres2 Hwin Hlimit.
  apply not_collapsed in Hwin. apply positive_limit_budget in Hlimit.
  assert (Hvar : variant_by_precedence a = ScheduledList).
  { unfold variant_by_precedence. rewrite Hent, Hsched. reflexivity. }
  destruct (init_built client (date_probe client) a w) as
    (st3 & rq & Hinit & Hrq & _ & Hw & Hr3 & Hl3 & Hskip & _);
    try assumption.
  { intros _. exact Hent. }
  { rewrite Hvar. discriminate. }
  unfold skip_count_sent in Hskip. rewrite Hvar in Hskip.
  destruct ((init_total_only client ;;
             init_cursor (snd (messages_iter_of a))
               (window_max_id (ga_reverse a) (snd (messages_iter_of a))))%py st3)
    as [r st4] eqn:Htail.
  destruct (init_tail_frame client _ _ st3 rq r st4 Hrq Htail) as (_ & _ & Hpos).
  rewrite Hl3 in Hpos. destruct (Hpos Hlimit) as (Hw4 & _ & Hfail).
  rewrite Hr3 in Hfail. specialize (Hfail Hrev Hskip). subst r.
  unfold iterate, run, initialize.
  change (messages_iter_of a) with (fst (messages_iter_of a), snd (messages_iter_of a)).
  cbv iota beta. rewrite Hinit. cbn [fst snd]. rewrite Hw4, Hw.
  repeat split.
Qed.

Lemma reverse_scheduled_fails_at_construction_witness :
  let a :=
    {| ga_entity := Scenario.chat; ga_limit := Some 10; ga_offset_date := None;
       ga_offset_id := 0; ga_max_id := 0; ga_min_id := 0; ga_add_offset := 0;
       ga_search := None; ga_filter := None; ga_from_user := None;
       ga_wait_time := None; ga_ids := None; ga_reverse := true;
       ga_reply_to := None; ga_scheduled := true |} in
  fst (initialize (Scenario.scripted [Scenario.reply [3; 2; 1]]) a [])
  = Raise (AttributeError "add_offset")
  /\ fst (iterate (Scenario.scripted [Scenario.reply [3; 2; 1]]) 5 a [])
     = ([], Failed (AttributeError "add_offset"))
  /\ requests_sent
       (world (snd (iterate (Scenario.scripted [Scenario.reply [3; 2; 1]]) 5 a [])))
     = requests_sent [].
Proof.
  cbv zeta.
  apply (reverse_scheduled_fails_at_construction
           (Scenario.scripted [Scenario.reply [3; 2; 1]]) 5).
  - reflexivity.
  - reflexivity.
  - reflexivity.
  - unfold resolves. simpl. eexists. reflexivity.
  - exact I.
  - vm_compute. intros (H & _). apply H. reflexivity.
  - intros l H. injection H as <-. lia.
Defined.

(** ** The sender filter *)

(** When the entity type of the target peer is known, lines 72-154 leave
    a request on the iterator, whatever their outcome. *)
Lemma init_request_builds client probe kw offset_id from_user (st : State t) r st' :
  (selected_kind (self st) kw from_user = Search ->
   exists peer ty, entity (self st) = Some peer /\ _entity_type client peer = Ok ty) ->
  init_request client probe kw offset_id from_user st = (r, st') ->
  exists rq, request (self st') = Some rq.
Proof.
  intros Hsearch H. unfold init_request in H. destruct st as [s w].
  unfold selected_kind, search_condition in Hsearch. simpl in *.
  cbv beta iota zeta delta [bind get_self modify_self ret raise lift_res] in H.
  simpl in H.
  destruct (entity s) as [peer |] eqn:Ent;
    [| injection H as _ <-; eexists; reflexivity].
  destruct (kw_scheduled kw); [injection H as _ <-; eexists; reflexivity |].
  destruct (kw_reply_to kw); simpl in *; [injection H as _ <-; eexists; reflexivity |].
  destruct (is_some (kw_search kw)
            || negb (is_InputMessagesFilterEmpty (instantiate_filter (kw_filter kw)))
            || is_some from_user); [| injection H as _ <-; eexists; reflexivity].
  destruct (Hsearch eq_refl) as (peer' & ty & Hp & Hty).
  injection Hp as <-. rewrite Hty in H. simpl in H.
  assert (Hgen : forall s1 fu,
    (match kw_offset_date kw with
     | Some date =>
         if negb (is_InputMessagesFilterEmpty (instantiate_filter (kw_filter kw)))
            && negb (truthy_str (kw_search kw)) && (offset_id =? 0)
         then date_workaround probe peer date
         else (fun s0 : State t => (Ok tt, s0))
     | None => fun s0 : State t => (Ok tt, s0)
     end)
      {| self :=
           set_request
             (Some (new_Search peer (str_or_empty (kw_search kw))
                      (instantiate_filter (kw_filter kw)) (kw_offset_date kw)
                      offset_id (kw_add_offset kw) 0 fu)) s1;
         world := w |} = (r, st') ->
    exists rq, request (self st') = Some rq).
  { intros s1 fu Hrun.
    destruct (kw_offset_date kw) as [date |];
      [| injection Hrun as _ <-; eexists; reflexivity].
    destruct (negb (is_InputMessagesFilterEmpty (instantiate_filter (kw_filter kw)))
              && negb (truthy_str (kw_search kw)) && (offset_id =? 0));
      [| injection Hrun as _ <-; eexists; reflexivity].
    erewrite date_workaround_eq in Hrun; [| reflexivity].
    injection Hrun as _ <-. eexists; reflexivity. }
  destruct ty; simpl in H; apply Hgen in H; exact H.
Qed.

(** ** The request variant a construction selects *)

(** C4: a construction that gets past its guards (in a reverse traversal
    the target peer is given, the references resolve, the window is not
    collapsed) selects one request variant, by the precedence of the
    specification: [_init] assigns the request, whatever it does afterwards,
    and the kind of the request is the variant the precedence gives for the
    arguments.  For a filtered search the entity type of the peer of the
    request has to be known. *)
Theorem construction_selects_variant_by_precedence client a w :
  (ga_reverse a = true -> truthy_entity (ga_entity a) = true) ->
  resolves client (ga_entity a) ->
  resolves client (ga_from_user a) ->
  ~ (computed_offset a <> 0 /\ opposite_bound a <> 0 /\ window_width a <= 1) ->
  (variant_by_precedence a = FilteredSearch -> classifies client a) ->
  exists rq,
    request (self (snd (initialize client a w))) = Some rq
    /\ variant_of (req_kind rq) = variant_by_precedence a.
Proof.
  intros Hrev Hres1 Hres2 Hwin Hcls.
  apply not_collapsed in Hwin.
  destruct (init_upto_from_user_ids client a w Hrev Hres1 Hres2 Hwin)
    as (st2 & Hpre & Hent & _ & _ & _ & _ & Hq).
  pose proof (target_peer_None client a Hres1) as Htp. rewrite <- Hent in Htp.
  pose proof (selected_kind_by_precedence a (self st2) (sender_peer client a) Htp
                (sender_peer_None client a Hres2)) as Hkind.
  unfold initialize.
  change (messages_iter_of a) with (fst (messages_iter_of a), snd (messages_iter_of a)).
  cbv iota beta. unfold _init. rewrite Hpre.
  destruct (init_request client (date_probe client) (snd (messages_iter_of a))
              (anchor a) (sender_peer client a) st2) as [r3 st3] eqn:Hreq.
  assert (Hknown :
    selected_kind (self st2) (snd (messages_iter_of a)) (sender_peer client a) = Search ->
    exists peer ty, entity (self st2) = Some peer /\ _entity_type client peer = Ok ty).
  { intros Hsel. rewrite Hsel in Hkind. simpl in Hkind.
    destruct (Hcls (eq_sym Hkind)) as (p & ty & Hp & Hty).
    exists p, ty. split; [congruence | exact Hty]. }
  destruct (init_request_builds _ _ _ _ _ _ _ _ Hknown Hreq) as (rq & Hrq).
  destruct (init_request_fields _ _ _ _ _ _ _ _ Hq Hreq rq Hrq) as (Hk & _).
  destruct r3 as [[] | e].
  - rewrite (bind_ok _ _ _ _ _ Hreq).
    match goal with
    | |- context [bind ?m ?k st3] => destruct (bind m k st3) as [r st4] eqn:Htail
    end.
    destruct (init_tail_frame client _ _ st3 rq r st4 Hrq Htail)
      as (_ & (rq4 & Hrq4 & Hk4 & _) & _).
    cbn [snd]. exists rq4. split; [exact Hrq4 |]. rewrite Hk4, Hk. exact Hkind.
  - rewrite (bind_raise _ _ _ _ _ Hreq). cbn [snd]. exists rq.
    split; [exact Hrq |]. rewrite Hk. exact Hkind.
Qed.

Lemma construction_selects_variant_by_precedence_witness :
  exists rq,
    request (self (snd (initialize (Scenario.scripted []) Scenario.from_filter [])))
    = Some rq
    /\ variant_of (req_kind rq) = FilteredSearch.
Proof.
  apply (construction_selects_variant_by_precedence (Scenario.scripted [])
           Scenario.from_filter []).
  - discriminate.
  - unfold resolves. simpl. eexists. reflexivity.
  - unfold resolves. simpl. eexists. reflexivity.
  - vm_compute. intros (H & _). apply H. reflexivity.
  - intros _. exists (InputPeerChat 7), CHAT. split; reflexivity.
Defined.

(** [get_messages(chat, 10, min_id=100, max_id=101)]: the precedence gives
    a plain history, and the construction ends at the guard of lines 48-50
    before a request is built. *)
Lemma collapsed_window_selects_no_variant :
  variant_by_precedence (Scenario.bounded (Some 10) 100 101 false) = PlainHistory
  /\ fst (initialize (Scenario.scripted []) (Scenario.bounded (Some 10) 100 101 false) [])
     = Raise StopAsyncIteration
  /\ ~ exists rq,
        request (self (snd (initialize (Scenario.scripted [])
                              (Scenario.bounded (Some 10) 100 101 false) [])))
        = Some rq.
Proof.
  split; [reflexivity |]. split; [reflexivity |].
  intros (rq & H). vm_compute in H. discriminate.
Qed.

(** [get_messages(None, 10, reverse=True)]: the precedence gives a global
    search, and the construction raises at line 31 before a request is
    built. *)
Example reverse_global_search_selects_no_variant :
  variant_by_precedence Scenario.reverse_global = GlobalSearch
  /\ Scenario.kind_built (Scenario.scripted []) Scenario.reverse_global = None.
Proof. split; reflexivity. Qed.

(** [get_messages(None, 10, from_user=5)]: the precedence gives a filtered
    search, whose peer is [InputPeerEmpty]; with a resolver that knows no
    entity type for [InputPeerEmpty], line 107 raises before the request is
    built. *)
Example from_filter_without_target_needs_an_entity_type :
  let args :=
    {| ga_entity := None; ga_limit := Some 10; ga_offset_date := None;
       ga_offset_id := 0; ga_max_id := 0; ga_min_id := 0; ga_add_offset := 0;
       ga_search := None; ga_filter := None; ga_from_user := Some (EntityId 5);
       ga_wait_time := None; ga_ids := None; ga_reverse := false;
       ga_reply_to := None; ga_scheduled := false |} in
  variant_by_precedence args = FilteredSearch
  /\ target_peer (Scenario.scripted []) args = Some InputPeerEmpty
  /\ fst (initialize (Scenario.scripted []) args [])
     = Raise (TypeError "InputPeerEmpty does not have any entity type")
  /\ Scenario.kind_built (Scenario.scripted []) args = None.
Proof. cbv zeta. repeat split; vm_compute; reflexivity. Qed.

(** X8: in a search with a sender, the sender is filtered on one side
    only, chosen by the entity type of the target peer: in a private chat
    ([USER]) the request carries no sender and the iterator keeps the
    identifier of the sender to check each message locally; otherwise the
    request carries the resolved sender and the iterator checks nothing. *)
Theorem sender_is_filtered_on_one_side client a w p ty u :
  (ga_reverse a = true -> truthy_entity (ga_entity a) = true) ->
  resolves client (ga_entity a) ->
  ~ (computed_offset a <> 0 /\ opposite_bound a <> 0 /\ window_width a <= 1) ->
  variant_by_precedence a = FilteredSearch ->
  target_peer client a = Some p ->
  _entity_type client p = Ok ty ->
  sender_peer client a = Some u ->
  exists rq,
    request (self (snd (initialize client a w))) = Some rq
    /\ req_kind rq = Search
    /\ req_from_id rq = Some (match ty with USER => None | _ => Some u end)
    /\ from_id (self (snd (initialize client a w)))
       = match ty with USER => Some (get_peer_id client u) | _ => None end.
Proof.
  intros Hrev Hres1 Hwin Hvar Htarget Hty Hsender.
  apply not_collapsed in Hwin.
  assert (Hres2 : resolves client (ga_from_user a)).
  { unfold resolves. unfold sender_peer in Hsender.
    destruct (as_truthy (ga_from_user a)) as [x |]; [| exact I].
    destruct (get_input_entity client x) as [q |]; [| discriminate].
    exists q. reflexivity. }
  destruct (init_upto_from_user_ids client a w Hrev Hres1 Hres2 Hwin)
    as (st2 & Hpre & Hent & Hfrom & _ & _ & _ & Hq).
  pose proof (target_peer_None client a Hres1) as Htp. rewrite <- Hent in Htp.
  pose proof (selected_kind_by_precedence a (self st2) (sender_peer client a) Htp
                (sender_peer_None client a Hres2)) as Hkind.
  rewrite Hvar in Hkind. apply variant_of_Search in Hkind.
  rewrite Htarget in Hent. rewrite Hsender in Hfrom. simpl in Hfrom.
  unfold initialize.
  change (messages_iter_of a) with (fst (messages_iter_of a), snd (messages_iter_of a)).
  cbv iota beta. unfold _init. rewrite Hpre.
  destruct (init_request client (date_probe client) (snd (messages_iter_of a))
              (anchor a) (sender_peer client a) st2) as [r3 st3] eqn:Hreq.
  destruct (init_request_builds _ _ _ _ _ _ _ _
              (fun _ => ex_intro _ p (ex_intro _ ty (conj Hent Hty))) Hreq)
    as (rq & Hrq).
  destruct (init_request_fields _ _ _ _ _ _ _ _ Hq Hreq rq Hrq)
    as (Hk & _ & _ & Hs & _).
  rewrite Hkind in Hk. destruct (Hs Hk) as (p' & ty' & Hp' & Hty' & Hf & Hid).
  rewrite Hent in Hp'. injection Hp' as <-.
  rewrite Hty in Hty'. injection Hty' as <-.
  rewrite Hsender in Hf. rewrite Hfrom in Hid.
  destruct r3 as [[] | e].
  - rewrite (bind_ok _ _ _ _ _ Hreq).
    match goal with
    | |- context [bind ?m ?k st3] => destruct (bind m k st3) as [r st4] eqn:Htail
    end.
    destruct (init_tail_frame client _ _ st3 rq r st4 Hrq Htail)
      as (Hid4 & (rq4 & Hrq4 & Hk4 & Hf4 & _) & _).
    cbn [snd]. exists rq4. rewrite Hid4, Hk4, Hf4. repeat split; assumption.
  - rewrite (bind_raise _ _ _ _ _ Hreq). cbn [snd]. exists rq.
    repeat split; assumption.
Qed.

Lemma sender_is_filtered_on_one_side_witness :
  let private :=
    {| ga_entity := Some (EntityId 9); ga_limit := Some 10; ga_offset_date := None;
       ga_offset_id := 0; ga_max_id := 0; ga_min_id := 0; ga_add_offset := 0;
       ga_search := None; ga_filter := None; ga_from_user := Some (EntityId 6);
       ga_wait_time := None; ga_ids := None; ga_reverse := false;
       ga_reply_to := None; ga_scheduled := false |} in
  exists rq,
    request (self (snd (initialize (Scenario.scripted []) private []))) = Some rq
    /\ req_kind rq = Search
    /\ req_from_id rq = Some None
    /\ from_id (self (snd (initialize (Scenario.scripted []) private []))) = Some 6.
Proof.
  cbv zeta.
  apply (sender_is_filtered_on_one_side (Scenario.scripted []) _ []
           (InputPeerUser 9) USER (InputPeerUser 6)).
  - discriminate.
  - unfold resolves. simpl. eexists. reflexivity.
  - vm_compute. intros (H & _). apply H. reflexivity.
  - reflexivity.
  - reflexivity.
  - reflexivity.
  - reflexivity.
Defined.

(** In a small group chat the same call sends the sender with the request
    and checks nothing locally. *)
Example sender_is_sent_outside_private_chats :
  option_map req_from_id
    (request (self (snd (initialize (Scenario.scripted []) Scenario.from_filter []))))
  = Some (Some (Some (InputPeerUser 5)))
  /\ from_id (self (snd (initialize (Scenario.scripted []) Scenario.from_filter [])))
     = None.
Proof. split; reflexivity. Qed.

Import IDsIter.

(** ** The batches of an ID lookup *)

(** A chunk load of the ID lookup: with no identifier left it raises
    [StopAsyncIteration] and changes nothing; otherwise it advances the
    offset, sends one request for the next identifiers, and appends the
    slots of the answer. *)
Lemma ids_load_cases client (st : State IDsIter.t) r st' :
  _load_next_chunk client st = (r, st') ->
  let ids := firstn (Z.to_nat _MAX_CHUNK_SIZE) (skipn (_offset (self st)) (_ids (self st))) in
  (ids = [] /\ r = Raise StopAsyncIteration /\ st' = st)
  \/ (ids <> []
      /\ world st' = world st ++ [EvCall (batch_request (self st) ids)]
      /\ exists added,
           self st'
           = set_buffer (buffer (self st) ++ added)
               (set__offset (_offset (self st) + Z.to_nat _MAX_CHUNK_SIZE)%nat (self st))
           /\ (r = Ok tt ->
               added = map (fun _ => None) ids
               \/ exists c ms us cs rate,
                    call client (List.length (requests_sent (world st)))
                      (batch_request (self st) ids)
                    = Ok (Messages c ms us cs rate)
                    /\ added
                       = slots_of client (self st) (checked_peer client (self st))
                           (entities_of us cs) ms)
           /\ (r <> Ok tt -> added = [])).
Proof.
  intros H. cbv zeta. unfold _load_next_chunk, bind, get_self in H.
  destruct st as [s w]. cbn [self world fst snd] in *.
  unfold batch_request, checked_peer.
  destruct (firstn (Z.to_nat _MAX_CHUNK_SIZE) (skipn (_offset s) (_ids s)))
    as [| i ids] eqn:E.
  { left. injection H as <- <-. repeat split. }
  right. split; [discriminate |].
  unfold modify_self, try_except, client_call, ret in H. cbn [self world fst snd] in H.
  destruct (is_CHANNEL (_ty s)) eqn:Hty; cbn [self world fst snd] in H.
  - destruct (call client (List.length (requests_sent w))
                (ChannelsGetMessages (_entity s) (i :: ids))) as [resp | e] eqn:Hcall.
    + destruct resp as [c | c ms us cs rate]; cbn [fst snd self world] in H;
        injection H as <- <-; cbn [self world]; (split; [reflexivity |]);
        eexists; (split; [reflexivity |]); split; try congruence; intros _.
      * left. reflexivity.
      * right. exists c, ms, us, cs, rate. split; reflexivity.
    + destruct e as [| | | | [| code] | |]; cbn [fst snd self world] in H;
        injection H as <- <-; cbn [self world]; (split; [reflexivity |]).
      all: try (exists []; rewrite app_nil_r; split; [reflexivity |];
                split; [discriminate | reflexivity]).
      eexists; (split; [reflexivity |]); split; [intros _; left; reflexivity | congruence].
  - destruct (call client (List.length (requests_sent w))
                (MessagesGetMessages (i :: ids))) as [resp | e] eqn:Hcall;
      cbn [fst snd self world] in H.
    + destruct (_entity s) as [p |]; cbn [fst snd self world] in H;
        destruct resp as [c | c ms us cs rate]; cbn [fst snd self world] in H;
        injection H as <- <-; cbn [self world]; (split; [reflexivity |]);
        eexists; (split; [reflexivity |]); split; try congruence; intros _;
        try (left; reflexivity);
        right; exists c, ms, us, cs, rate; split; reflexivity.
    + injection H as <- <-. cbn [self world]. split; [reflexivity |].
      exists []. rewrite app_nil_r. split; [reflexivity |].
      split; [discriminate | reflexivity].
Qed.

Lemma ids_init_spec client entity ids (st : State IDsIter.t) r st' :
  _init client entity ids st = (r, st') ->
  total (self st') = Some (Z.of_nat (List.length ids))
  /\ requests_sent (world st') = requests_sent (world st)
  /\ _ids (self st') = (if reverse (self st) then rev ids else ids)
  /\ _offset (self st') = 0%nat.
Proof.
  intros H. unfold _init in H. destruct st as [s w].
  cbv beta iota zeta delta
    [bind get_self modify_self ret raise lift_res client_get_input_entity] in H.
  cbn [self world] in H.
  destruct (as_truthy entity) as [e |]; cbn [self world] in H.
  - destruct (get_input_entity client e) as [p | x]; cbn [self world] in H.
    + cbn [_entity set__entity] in H.
      destruct (_entity_type client p) as [ty | x]; cbn [self world] in H.
      * destruct (wait_time s); injection H as _ <-; cbn [self world];
          rewrite requests_sent_resolve; repeat split.
      * injection H as _ <-. cbn [self world].
        rewrite requests_sent_resolve. repeat split.
    + injection H as _ <-. cbn [self world].
      rewrite requests_sent_resolve. repeat split.
  - cbn [_entity set__entity] in H.
    destruct (wait_time s); injection H as _ <-; cbn [self world]; repeat split.
Qed.

Lemma firstn_more {A} (a b : nat) (l : list A) :
  firstn a l ++ firstn b (skipn a l) = firstn (a + b) l.
Proof.
  revert l. induction a as [| a IH]; intros l; simpl; [reflexivity |].
  destruct l as [| x l]; simpl.
  - rewrite firstn_nil. reflexivity.
  - rewrite IH. reflexivity.
Qed.

Lemma lookup_ids_batch_request s ids : lookup_ids (batch_request s ids) = ids.
Proof. unfold batch_request. destruct (is_CHANNEL (_ty s)); reflexivity. Qed.

(** The chunk loads of an ID lookup ask for the identifiers in the order
    of [_ids], each once, at most [_MAX_CHUNK_SIZE] with a request. *)
Lemma load_chunks_batches client n :
  forall (st : State IDsIter.t),
    exists reqs,
      requests_sent (world (snd (load_chunks client n st)))
      = requests_sent (world st) ++ reqs
      /\ (List.length reqs <= n)%nat
      /\ flat_map lookup_ids reqs
         = firstn (List.length reqs * Z.to_nat _MAX_CHUNK_SIZE)
             (skipn (_offset (self st)) (_ids (self st)))
      /\ Forall (fun q => (1 <= List.length (lookup_ids q) <= Z.to_nat _MAX_CHUNK_SIZE)%nat)
           reqs
      /\ (fst (load_chunks client n st) = Ok tt -> List.length reqs = n)
      /\ total (self (snd (load_chunks client n st))) = total (self st).
Proof.
  induction n as [| n IH]; intros st.
  - exists []. cbn [load_chunks fst snd flat_map List.length Nat.mul firstn].
    rewrite app_nil_r. repeat split; try constructor.
  - cbn [load_chunks]. unfold bind.
    destruct (_load_next_chunk client st) as [r st1] eqn:Hload.
    destruct (ids_load_cases client st r st1 Hload)
      as [(Hnil & -> & ->) | (Hne & Hw & added & Hself & _)].
    + exists []. cbn [fst snd flat_map List.length Nat.mul firstn].
      rewrite app_nil_r. repeat split; try constructor; try lia.
      discriminate.
    + assert (Hlen :
        (1 <= List.length
                (firstn (Z.to_nat _MAX_CHUNK_SIZE)
                   (skipn (_offset (self st)) (_ids (self st))))
         <= Z.to_nat _MAX_CHUNK_SIZE)%nat).
      { split.
        - destruct (firstn _ _); [congruence | simpl; lia].
        - apply firstn_le_length. }
      assert (Hids1 : _ids (self st1) = _ids (self st)) by (rewrite Hself; reflexivity).
      assert (Hoff1 : _offset (self st1)
                      = (_offset (self st) + Z.to_nat _MAX_CHUNK_SIZE)%nat)
        by (rewrite Hself; reflexivity).
      assert (Htot1 : total (self st1) = total (self st)) by (rewrite Hself; reflexivity).
      destruct r as [[] | e].
      * destruct (IH st1) as (reqs & Hreqs & Hn & Hflat & Hall & Hok & Htot).
        exists (batch_request (self st)
                  (firstn (Z.to_nat _MAX_CHUNK_SIZE)
                     (skipn (_offset (self st)) (_ids (self st)))) :: reqs).
        rewrite Hreqs, Hw, requests_sent_call, <- app_assoc.
        cbn [flat_map List.length app].
        split; [reflexivity |]. split; [lia |]. split; [| split; [| split]].
        -- rewrite lookup_ids_batch_request, Hflat, Hids1, Hoff1.
           rewrite Nat.add_comm, <- skipn_skipn, firstn_more. reflexivity.
        -- constructor; [rewrite lookup_ids_batch_request; exact Hlen | exact Hall].
        -- intros E. rewrite (Hok E). reflexivity.
        -- rewrite Htot. exact Htot1.
      * exists [batch_request (self st)
                  (firstn (Z.to_nat _MAX_CHUNK_SIZE)
                     (skipn (_offset (self st)) (_ids (self st))))].
        cbn [fst snd flat_map List.length app]. rewrite Hw, requests_sent_call.
        split; [reflexivity |]. split; [lia |]. split; [| split; [| split]].
        -- rewrite lookup_ids_batch_request, app_nil_r, Nat.mul_1_l.
           reflexivity.
        -- constructor; [rewrite lookup_ids_batch_request; exact Hlen | constructor].
        -- discriminate.
        -- exact Htot1.
Qed.

(** X11: an ID lookup asks for the identifiers in the order it keeps them
    (the order of the caller, reversed in a reverse lookup), each once, with
    at least 1 and at most [_MAX_CHUNK_SIZE] identifiers in a request; [n]
    chunk loads that all return have sent [n] requests. *)
Theorem lookup_batches_follow_ids client a ids n w :
  exists reqs,
    requests_sent (world (snd (lookup_batches client a ids n w)))
    = requests_sent w ++ reqs
    /\ (List.length reqs <= n)%nat
    /\ flat_map lookup_ids reqs
       = firstn (List.length reqs * Z.to_nat _MAX_CHUNK_SIZE)
           (ids_in_order (ga_reverse a) ids)
    /\ Forall (fun q => (1 <= List.length (lookup_ids q) <= Z.to_nat _MAX_CHUNK_SIZE)%nat)
         reqs
    /\ (fst (lookup_batches client a ids n w) = Ok tt -> List.length reqs = n).
Proof.
  unfold lookup_batches, ids_iter_of. cbv zeta iota beta. unfold bind.
  match goal with
  | |- context [_init client ?e ?l ?st] =>
      destruct (_init client e l st) as [r st0] eqn:Hinit;
      destruct (ids_init_spec client e l st r st0 Hinit) as (_ & Hw & Hids & Hoff)
  end.
  cbn [self world IDsIter.reverse IDsIter.new] in Hw, Hids.
  destruct r as [[] | e].
  - destruct (load_chunks_batches client n st0) as (reqs & Hreqs & Hn & Hflat & Hall & Hok & _).
    exists reqs. rewrite Hreqs, Hw. rewrite Hoff, Hids in Hflat. simpl skipn in Hflat.
    repeat split; assumption.
  - exists []. simpl. rewrite app_nil_r. repeat split; try constructor; try lia.
    + exact Hw.
    + discriminate.
Qed.

(** X10: [total] of an ID lookup is the number of identifiers the caller
    asked for, from the first line of [_init] on: it stays so when the
    entity does not resolve, when a request fails and whatever the service
    returns. *)
Theorem lookup_total_counts_requested_ids client a ids n w :
  total (self (snd (lookup_batches client a ids n w)))
  = Some (Z.of_nat (List.length (ids_in_order (ga_reverse a) ids))).
Proof.
  assert (Hlen : forall l : list Z,
             List.length (if ga_reverse a then rev l else l) = List.length l)
    by (intros l; destruct (ga_reverse a); [apply length_rev | reflexivity]).
  unfold lookup_batches, ids_iter_of, ids_in_order. cbv zeta iota beta. unfold bind.
  rewrite Hlen.
  match goal with
  | |- context [_init client ?e ?l ?st] =>
      destruct (_init client e l st) as [r st0] eqn:Hinit;
      destruct (ids_init_spec client e l st r st0 Hinit) as (Htot & _)
  end.
  destruct r as [[] | e]; [| exact Htot].
  destruct (load_chunks_batches client n st0) as (reqs & _ & _ & _ & _ & _ & Ht).
  rewrite Ht. exact Htot.
Qed.




(** For a channel the messages of the answer are not checked: a message
    of another chat is handed out. *)
Example lookup_in_channel_does_not_check_the_chat :
  let other :=
    {| msg_empty := false; msg_id := 11; msg_sender_id := Some 5;
       msg_peer_id := Some (PeerChat 8); msg_date := None |} in
  slot_ids
    (buffer (self (snd (lookup_first_batch
                          (Scenario.scripted [Ok (Messages None [other] [] [] None)])
                          (default_args (Some (EntityName "channel")) None)
                          (OneId 11) []))))
  = [Some 11].
Proof. reflexivity. Qed.

(** ** Single requests: the monad *)

Lemma op_bind_returned {A B} (m : Op A) (k : A -> Op B) log a log1 :
  m log = (Returned a, log1) -> op_bind m k log = k a log1.
Proof. unfold op_bind. intros ->. reflexivity. Qed.

Lemma op_bind_raised {A B} (m : Op A) (k : A -> Op B) log e log1 :
  m log = (Raised e, log1) -> op_bind m k log = (Raised e, log1).
Proof. unfold op_bind. intros ->. reflexivity. Qed.

Lemma called_app l1 l2 : called (l1 ++ l2) = called l1 ++ called l2.
Proof. unfold called. apply flat_map_app. Qed.

Lemma called_resolved log e : called (log ++ [Resolved e]) = called log.
Proof. rewrite called_app. simpl. apply app_nil_r. Qed.

Lemma called_called log r : called (log ++ [Called r]) = called log ++ [r].
Proof. rewrite called_app. reflexivity. Qed.

Lemma key_eqb_refl k : key_eqb k k = true.
Proof. destruct k; simpl; [apply Z.eqb_refl | reflexivity]. Qed.

Lemma key_eqb_eq a b : key_eqb a b = true <-> a = b.
Proof.
  destruct a, b; simpl; split; try discriminate; try reflexivity.
  - intros H. apply Z.eqb_eq in H. congruence.
  - intros H. injection H as ->. apply Z.eqb_refl.
Qed.

(** ** [forward_messages] *)

(** The body of the loop sends one request, the request of the group,
    unless the source of the group cannot be read, and returns only after
    it has sent the request. *)
Lemma forward_chunk_sends api flags entity from_peer chunk sent log :
  called (snd (forward_chunk api flags entity from_peer chunk sent log))
  = called log
    ++ match chunk_source from_peer chunk with
       | Returned source => [forward_request flags entity source]
       | Raised _ => []
       end.
Proof.
  unfold forward_chunk, op_bind, op_of, send, op_lift.
  destruct (chunk_source from_peer chunk) as [source | e]; simpl;
    [| rewrite app_nil_r; reflexivity].
  destruct (api_call api _ _) as [result | e]; simpl; [| apply called_called].
  destruct (_get_response_message api _ result entity) as [response | e]; simpl;
    [| apply called_called].
  destruct (extend sent response); simpl; apply called_called.
Qed.

Lemma forward_chunk_returned api flags entity from_peer chunk sent log x :
  fst (forward_chunk api flags entity from_peer chunk sent log) = Returned x ->
  exists source, chunk_source from_peer chunk = Returned source.
Proof.
  unfold forward_chunk, op_bind, op_of.
  destruct (chunk_source from_peer chunk) as [source | e]; simpl; [| discriminate].
  intros _. exists source. reflexivity.
Qed.

(** With a source chat, integers all have the key [from_peer_id]: they
    are read into one group. *)
Lemma forward_groups_of_ints api flags entity from_peer pid ids :
  forall chunk sent log,
    forward_groups api flags entity from_peer (Some pid) (Some pid) chunk
      (map AnInt ids) sent log
    = forward_chunk api flags entity from_peer (chunk ++ map AnInt ids) sent log.
Proof.
  induction ids as [| i ids IH]; intros chunk sent log; cbn [map forward_groups].
  - rewrite app_nil_r. reflexivity.
  - unfold op_bind at 1. unfold op_lift at 1. cbn [get_key].
    rewrite key_eqb_refl, IH, <- app_assoc. reflexivity.
Qed.

(** X13: integer identifiers are forwarded from [from_peer] in one
    request that carries all of them in the order given, however many they
    are: the list is not cut into chunks. *)
Theorem integer_ids_are_forwarded_in_one_request api entity from_peer flags log
    i ids f p to :
  as_truthy from_peer = Some f ->
  get_input_entity (api_client api) f = Ok p ->
  get_input_entity (api_client api) entity = Ok to ->
  called (snd (forward_messages api entity (ManyMessages (map AnInt (i :: ids)))
                 from_peer flags log))
  = called log
    ++ [ForwardMessages (Some p) (map AnInt (i :: ids)) to (fw_silent flags)
          (fw_background flags) (fw_with_my_score flags) (fw_schedule flags)].
Proof.
  intros Hfrom Hp Hto. unfold forward_messages. rewrite Hfrom.
  cbn [items_of is_single].
  unfold op_bind at 1. unfold resolve at 1. rewrite Hto.
  unfold op_bind at 1. unfold op_bind at 1. unfold resolve at 1. rewrite Hp.
  unfold op_ret at 1. cbn [fst snd map forward_all].
  unfold op_bind at 1. unfold op_bind at 1. unfold op_lift at 1. cbn [get_key].
  rewrite (forward_groups_of_ints api flags to (Some p) _ ids [AnInt i] []).
  cbn [app].
  pose proof (forward_chunk_sends api flags to (Some p) (AnInt i :: map AnInt ids) []
                ((log ++ [Resolved entity]) ++ [Resolved f])) as Hsent.
  cbn [chunk_source] in Hsent. rewrite !called_resolved in Hsent.
  destruct (forward_chunk api flags to (Some p) (AnInt i :: map AnInt ids) []
              ((log ++ [Resolved entity]) ++ [Resolved f])) as [[sent | e] log1];
    cbn [fst snd] in *; [| exact Hsent].
  exact Hsent.
Qed.

Lemma integer_ids_are_forwarded_in_one_request_witness :
  let ids := map Z.of_nat (seq 1 150) in
  List.length ids = 150%nat
  /\ called (snd (forward_messages (Stub.scripted []) Stub.group
                    (ManyMessages (map AnInt (0 :: ids)))
                    (Some Stub.channel) Stub.no_flags []))
     = [] ++ [ForwardMessages (Some (InputPeerChannel 3)) (map AnInt (0 :: ids))
                (InputPeerChat 7) None None None None].
Proof.
  cbv zeta. split; [reflexivity |].
  apply (integer_ids_are_forwarded_in_one_request (Stub.scripted []) Stub.group
           (Some Stub.channel) Stub.no_flags [] 0 (map Z.of_nat (seq 1 150))
           Stub.channel (InputPeerChannel 3) (InputPeerChat 7)).
  - reflexivity.
  - reflexivity.
  - reflexivity.
Defined.

(** A call that returns has computed the key of every item. *)
Lemma forward_groups_returned_keys api flags entity from_peer from_peer_id rest :
  forall key chunk sent log x,
    fst (forward_groups api flags entity from_peer from_peer_id key chunk rest sent log)
    = Returned x ->
    Forall (fun m => exists k, get_key from_peer_id m = Ok k) rest.
Proof.
  induction rest as [| m rest IH]; intros key chunk sent log x H; [constructor |].
  cbn [forward_groups] in H. unfold op_bind at 1 in H. unfold op_lift at 1 in H.
  destruct (get_key from_peer_id m) as [k |] eqn:Hk; [| discriminate].
  constructor; [exists k; exact Hk |].
  destruct (key_eqb k key).
  - eapply IH. exact H.
  - unfold op_bind at 1 in H.
    destruct (forward_chunk api flags entity from_peer chunk sent log) as [[sent' | e] log1];
      [| discriminate].
    eapply IH. exact H.
Qed.

(** X14: without [from_peer], integer identifiers cannot be forwarded: a
    call whose messages hold an integer never returns, and when the first
    message is an integer the call raises [ValueError] after it resolved the
    target, with nothing sent. *)
Theorem integer_ids_need_from_peer api entity messages from_peer flags log i :
  as_truthy from_peer = None ->
  In (AnInt i) (items_of messages) ->
  (forall x, fst (forward_messages api entity messages from_peer flags log) <> Returned x)
  /\ (forall to rest,
         get_input_entity (api_client api) entity = Ok to ->
         items_of messages = AnInt i :: rest ->
         forward_messages api entity messages from_peer flags log
         = (Raised (Builtin
                      (ValueError "from_peer must be given if integer IDs are used")),
            log ++ [Resolved entity])).
Proof.
  intros Hfrom Hin. unfold forward_messages. rewrite Hfrom. split.
  - intros x H. unfold op_bind at 1 in H. unfold resolve at 1 in H.
    destruct (get_input_entity (api_client api) entity) as [to |]; [| discriminate].
    unfold op_bind at 1 in H. unfold op_ret at 1 in H. cbn [fst snd] in H.
    unfold op_bind at 1 in H.
    destruct (items_of messages) as [| m rest]; [contradiction |].
    cbn [forward_all] in H.
    unfold op_bind at 1 in H. unfold op_lift at 1 in H.
    destruct (get_key None m) as [k |] eqn:Hk.
    2:{ discriminate. }
    destruct (forward_groups api flags to None None k [m] rest []
                (log ++ [Resolved entity])) as [[sent | e] log1] eqn:Hgroups;
      [| discriminate].
    pose proof (forward_groups_returned_keys api flags to None None rest k [m] []
                  (log ++ [Resolved entity]) sent) as Hkeys.
    rewrite Hgroups in Hkeys. specialize (Hkeys eq_refl).
    destruct Hin as [-> | Hin]; [discriminate |].
    rewrite Forall_forall in Hkeys. destruct (Hkeys _ Hin) as (k' & Hk').
    discriminate.
  - intros to rest Hto Hitems. rewrite Hitems.
    unfold op_bind at 1. unfold resolve at 1. rewrite Hto.
    reflexivity.
Qed.

Lemma integer_ids_need_from_peer_witness :
  (forall x,
      fst (forward_messages (Stub.scripted []) Stub.group
             (ManyMessages [AMessage (Stub.message 7 1); AnInt 2]) None Stub.no_flags [])
      <> Returned x)
  /\ forward_messages (Stub.scripted []) Stub.group (OneMessage (AnInt 2)) None
       Stub.no_flags []
     = (Raised (Builtin (ValueError "from_peer must be given if integer IDs are used")),
        [Resolved Stub.group]).
Proof.
  split.
  - apply (integer_ids_need_from_peer (Stub.scripted []) Stub.group
             (ManyMessages [AMessage (Stub.message 7 1); AnInt 2]) None Stub.no_flags [] 2).
    + reflexivity.
    + simpl. right. left. reflexivity.
  - destruct (integer_ids_need_from_peer (Stub.scripted []) Stub.group
                (OneMessage (AnInt 2)) None Stub.no_flags [] 2) as (_ & H).
    + reflexivity.
    + simpl. left. reflexivity.
    + apply (H (InputPeerChat 7) []); reflexivity.
Defined.

Lemma ids_of_all_messages objs :
  ids_of_all (map AMessage objs) = Ok (map mo_id objs).
Proof.
  induction objs as [| o objs IH]; simpl; [reflexivity |]. rewrite IH. reflexivity.
Qed.

(** The request and the outcome of the body of the loop for a group of
    message objects. *)
Lemma forward_chunk_of_messages api flags entity from_peer o g sent log :
  let r := forward_chunk api flags entity from_peer (map AMessage (o :: g)) sent log in
  match mo_input_chat o with
  | Ok _ => called (snd r) = called log ++ [group_request flags entity (o :: g)]
  | Raise _ => called (snd r) = called log /\ forall x, fst r <> Returned x
  end.
Proof.
  cbv zeta.
  pose proof (forward_chunk_sends api flags entity from_peer
                (map AMessage (o :: g)) sent log) as Hsent.
  unfold group_request.
  assert (Hsrc : chunk_source from_peer (map AMessage (o :: g))
                 = match mo_input_chat o with
                   | Ok chat => Returned (chat, map AnInt (map mo_id (o :: g)))
                   | Raise e => Raised (Builtin e)
                   end).
  { cbn [map chunk_source]. destruct (mo_input_chat o); [| reflexivity].
    change (AMessage o :: map AMessage g) with (map AMessage (o :: g)).
    rewrite ids_of_all_messages. reflexivity. }
  rewrite Hsrc in Hsent.
  destruct (mo_input_chat o) as [chat | e] eqn:Hchat.
  - rewrite Hsent, map_map. reflexivity.
  - rewrite app_nil_r in Hsent. split; [exact Hsent |].
    intros x Hx. apply forward_chunk_returned in Hx. destruct Hx as (source & Hx).
    rewrite Hsrc in Hx. discriminate.
Qed.

Lemma chat_of_app (chunk : list MessageObject) m :
  chunk <> [] -> chat_of (chunk ++ [m]) = chat_of chunk.
Proof. destruct chunk; [congruence | reflexivity]. Qed.

(** The loop over message objects: the requests sent are those of groups
    that are runs of one chat each and that cover the messages read so far in
    their order; the first group is of the chat of the group being read. *)
Lemma forward_groups_runs api flags entity from_peer from_peer_id rest :
  forall chunk sent log,
    same_chat chunk ->
    let r :=
      forward_groups api flags entity from_peer from_peer_id (chat_of chunk)
        (map AMessage chunk) (map AMessage rest) sent log in
    exists groups tail,
      called (snd r) = called log ++ map (group_request flags entity) groups
      /\ chunk ++ rest = List.concat groups ++ tail
      /\ runs_by_chat groups
      /\ match groups with
         | g :: _ => chat_of g = chat_of chunk
         | [] => True
         end
      /\ (forall x, fst r = Returned x -> tail = []).
Proof.
  induction rest as [| m rest IH]; intros chunk sent log Hsame; cbv zeta.
  - cbn [map forward_groups]. destruct chunk as [| o g]; [destruct Hsame; congruence |].
    pose proof (forward_chunk_of_messages api flags entity from_peer o g sent log) as H.
    cbv zeta in H. destruct (mo_input_chat o).
    + exists [o :: g], []. cbn [map List.concat]. rewrite !app_nil_r.
      repeat split; try assumption; try apply Hsame.
    + destruct H as (Hc & Hno). exists [], (o :: g). cbn [map List.concat app].
      rewrite !app_nil_r. repeat split; try assumption.
      intros x Hx. exfalso. exact (Hno x Hx).
  - assert (Hstep :
      forward_groups api flags entity from_peer from_peer_id (chat_of chunk)
        (map AMessage chunk) (map AMessage (m :: rest)) sent log
      = if key_eqb (mo_chat_id m) (chat_of chunk) then
          forward_groups api flags entity from_peer from_peer_id (chat_of chunk)
            (map AMessage chunk ++ [AMessage m]) (map AMessage rest) sent log
        else
          match forward_chunk api flags entity from_peer (map AMessage chunk) sent log with
          | (Returned sent', log1) =>
              forward_groups api flags entity from_peer from_peer_id (mo_chat_id m)
                [AMessage m] (map AMessage rest) sent' log1
          | (Raised e, log1) => (Raised e, log1)
          end).
    { cbn [map forward_groups]. unfold op_bind, op_lift. cbn [get_key].
      destruct (key_eqb (mo_chat_id m) (chat_of chunk)); reflexivity. }
    rewrite Hstep. clear Hstep.
    destruct (key_eqb (mo_chat_id m) (chat_of chunk)) eqn:Hkey.
    + apply key_eqb_eq in Hkey.
      assert (Hsame' : same_chat (chunk ++ [m])).
      { destruct Hsame as (Hne & Hall). split.
        - destruct chunk; discriminate.
        - rewrite (chat_of_app chunk m Hne). apply Forall_app. split; [exact Hall |].
          constructor; [exact Hkey | constructor]. }
      destruct (IH (chunk ++ [m]) sent log Hsame')
        as (groups & tail & Hc & Hcat & Hruns & Hfirst & Hret).
      cbv zeta in Hc, Hret.
      rewrite (chat_of_app chunk m (proj1 Hsame)) in Hc, Hfirst, Hret.
      rewrite map_app in Hc, Hret. cbn [map] in Hc, Hret.
      exists groups, tail. rewrite <- app_assoc in Hcat. cbn [app] in Hcat.
      repeat split; assumption.
    + assert (Hdiff : chat_of chunk <> mo_chat_id m).
      { intros E. rewrite E, key_eqb_refl in Hkey. discriminate. }
      destruct chunk as [| o g]; [destruct Hsame; congruence |].
      pose proof (forward_chunk_of_messages api flags entity from_peer o g sent log) as H.
      cbv zeta in H.
      destruct (forward_chunk api flags entity from_peer (map AMessage (o :: g)) sent log)
        as [[sent' | e] log1] eqn:Hchunk; cbn [fst snd] in H.
      * destruct (mo_input_chat o) as [chat | e];
          [| destruct H as (_ & Hno); exfalso; exact (Hno sent' eq_refl)].
        assert (Hsame1 : same_chat [m])
          by (split; [discriminate | constructor; [reflexivity | constructor]]).
        destruct (IH [m] sent' log1 Hsame1)
          as (groups & tail & Hc & Hcat & Hruns & Hfirst & Hret).
        cbv zeta in Hc, Hret. cbn [chat_of map] in Hc, Hfirst, Hret.
        exists ((o :: g) :: groups), tail. cbn [map List.concat].
        rewrite Hc, H, <- !app_assoc. cbn [app] in Hcat |- *.
        split; [reflexivity |]. split; [rewrite <- Hcat; reflexivity |].
        split; [| split; [reflexivity | exact Hret]].
        cbn [runs_by_chat]. split; [exact Hsame |]. split; [| exact Hruns].
        destruct groups as [| g' groups']; [exact I |]. rewrite Hfirst. exact Hdiff.
      * cbn [fst snd]. destruct (mo_input_chat o) as [chat | e'].
        -- exists [o :: g], (m :: rest). cbn [map List.concat]. rewrite H, app_nil_r.
           split; [reflexivity |]. split; [reflexivity |].
           split; [cbn [runs_by_chat]; repeat split; apply Hsame |].
           split; [reflexivity | discriminate].
        -- destruct H as (Hc & _). exists [], ((o :: g) ++ m :: rest).
           cbn [map List.concat]. rewrite app_nil_r.
           repeat split; try assumption; discriminate.
Qed.

(** The loop over message objects, from its start. *)
Lemma forward_all_runs api flags entity from_peer from_peer_id objs log :
  let r := forward_all api flags entity from_peer from_peer_id (map AMessage objs) log in
  exists groups tail,
    called (snd r) = called log ++ map (group_request flags entity) groups
    /\ objs = List.concat groups ++ tail
    /\ runs_by_chat groups
    /\ (forall x, fst r = Returned x -> tail = []).
Proof.
  cbv zeta. destruct objs as [| o rest].
  - exists [], []. cbn [map forward_all fst snd List.concat app]. unfold op_ret.
    cbn [fst snd]. rewrite app_nil_r. repeat split.
  - destruct (forward_groups_runs api flags entity from_peer from_peer_id rest [o] [] log)
      as (groups & tail & Hc & Hcat & Hruns & _ & Hret).
    { split; [discriminate | constructor; [reflexivity | constructor]]. }
    cbv zeta in Hc, Hret. cbn [chat_of map app] in Hc, Hret, Hcat.
    exists groups, tail.
    assert (Heq : forward_all api flags entity from_peer from_peer_id
                    (map AMessage (o :: rest)) log
                  = forward_groups api flags entity from_peer from_peer_id (mo_chat_id o)
                      [AMessage o] (map AMessage rest) [] log) by reflexivity.
    rewrite Heq. repeat split; assumption.
Qed.

(** X15: message objects are forwarded by runs: each request forwards
    messages that follow each other in the list and have the same [chat_id],
    from the input chat of the first of them; a request and the next are of
    different chats; the requests cover the messages in their order, all of
    them when the call returns.  Messages of one chat that are separated by
    a message of another chat go in separate requests. *)
Theorem messages_are_forwarded_by_runs_of_one_chat api entity from_peer flags log
    objs to :
  get_input_entity (api_client api) entity = Ok to ->
  let r := forward_messages api entity (ManyMessages (map AMessage objs))
             from_peer flags log in
  exists groups tail,
    called (snd r) = called log ++ map (group_request flags to) groups
    /\ objs = List.concat groups ++ tail
    /\ runs_by_chat groups
    /\ (forall x, fst r = Returned x -> tail = []).
Proof.
  intros Hto. cbv zeta.
  destruct (forward_messages api entity (ManyMessages (map AMessage objs))
              from_peer flags log) as [o log'] eqn:H.
  cbn [fst snd]. unfold forward_messages in H. cbn [items_of is_single] in H.
  unfold op_bind at 1 in H. unfold resolve at 1 in H. rewrite Hto in H.
  assert (Hnone : called log' = called log -> (forall x, o <> Returned x) ->
             exists groups tail,
               called log' = called log ++ map (group_request flags to) groups
               /\ objs = List.concat groups ++ tail
               /\ runs_by_chat groups
               /\ (forall x, o = Returned x -> tail = [])).
  { intros Hc Hno. exists [], objs. cbn [map List.concat app].
    rewrite app_nil_r. repeat split; [exact Hc |]. intros x Hx. destruct (Hno x Hx). }
  assert (Hloop : forall from_peer' from_peer_id log1,
             called log1 = called log ->
             (sent <- forward_all api flags to from_peer' from_peer_id (map AMessage objs) ;;
              op_ret (ForwardedAll sent))%op log1 = (o, log') ->
             exists groups tail,
               called log' = called log ++ map (group_request flags to) groups
               /\ objs = List.concat groups ++ tail
               /\ runs_by_chat groups
               /\ (forall x, o = Returned x -> tail = [])).
  { intros from_peer' from_peer_id log1 Hlog Hrun.
    destruct (forward_all_runs api flags to from_peer' from_peer_id objs log1)
      as (groups & tail & Hc & Hcat & Hruns & Hret).
    cbv zeta in Hc, Hret. rewrite Hlog in Hc. unfold op_bind in Hrun.
    destruct (forward_all api flags to from_peer' from_peer_id (map AMessage objs) log1)
      as [[sent | e] log2]; cbn [fst snd] in *.
    - unfold op_ret in Hrun. injection Hrun as <- <-. exists groups, tail.
      repeat split; try assumption. intros x _. eapply Hret. reflexivity.
    - injection Hrun as <- <-. exists groups, tail.
      repeat split; try assumption. discriminate. }
  unfold op_bind at 1 in H.
  destruct (as_truthy from_peer) as [f |].
  - unfold op_bind at 1 in H. unfold resolve at 1 in H.
    destruct (get_input_entity (api_client api) f) as [p | e].
    + unfold op_ret at 1 in H. cbn [fst snd] in H.
      eapply Hloop; [| exact H]. rewrite !called_resolved. reflexivity.
    + injection H as <- <-. apply Hnone; [| discriminate].
      rewrite !called_resolved. reflexivity.
  - unfold op_ret at 1 in H. cbn [fst snd] in H.
    eapply Hloop; [| exact H]. rewrite called_resolved. reflexivity.
Qed.

Lemma messages_are_forwarded_by_runs_of_one_chat_witness :
  let objs := [Stub.message 1 10; Stub.message 1 11; Stub.message 2 12;
               Stub.message 1 13] in
  let r := forward_messages (Stub.scripted []) Stub.group
             (ManyMessages (map AMessage objs)) None Stub.no_flags [] in
  called (snd r)
  = [ForwardMessages (Some (InputPeerChat 1)) [AnInt 10; AnInt 11] (InputPeerChat 7)
       None None None None;
     ForwardMessages (Some (InputPeerChat 2)) [AnInt 12] (InputPeerChat 7)
       None None None None;
     ForwardMessages (Some (InputPeerChat 1)) [AnInt 13] (InputPeerChat 7)
       None None None None]
  /\ exists groups tail,
       called (snd r)
       = [] ++ map (group_request Stub.no_flags (InputPeerChat 7)) groups
       /\ objs = List.concat groups ++ tail
       /\ runs_by_chat groups
       /\ (forall x, fst r = Returned x -> tail = []).
Proof.
  cbv zeta. split; [reflexivity |].
  apply (messages_are_forwarded_by_runs_of_one_chat (Stub.scripted []) Stub.group None
           Stub.no_flags []
           [Stub.message 1 10; Stub.message 1 11; Stub.message 2 12; Stub.message 1 13]
           (InputPeerChat 7)).
  reflexivity.
Defined.

(** An item that cannot be forwarded is found only when it is read: the
    group before the one it follows is forwarded already, the group it
    follows is not. *)
Example unsupported_item_stops_after_earlier_groups :
  let r := forward_messages (Stub.scripted []) Stub.group
             (ManyMessages [AMessage (Stub.message 1 10); AMessage (Stub.message 2 11);
                            Another "<class 'str'>"])
             None Stub.no_flags [] in
  fst r = Raised (Builtin (TypeError "Cannot forward messages of type <class 'str'>"))
  /\ called (snd r)
     = [ForwardMessages (Some (InputPeerChat 1)) [AnInt 10] (InputPeerChat 7)
          None None None None].
Proof. split; reflexivity. Qed.

(** ** [send_read_acknowledge] *)

Lemma send_inv api q log o log' :
  send api q log = (o, log') ->
  log' = log ++ [Called q]
  /\ match o with
     | Returned r => api_call api (List.length (called log)) q = Ok r
     | Raised _ => True
     end.
Proof.
  unfold send. destruct (api_call api _ q); intros H; injection H as <- <-;
    split; reflexivity || exact I.
Qed.

(** X16: [send_read_acknowledge] returns only the answer of the transport
    to a [ReadHistory] request, the last request it sends: it resolved the
    entity, it sent [ReadMentions] first if it was asked to clear the
    mentions, and the [return True] and [return False] of lines 667 and 677
    are never reached. *)
Theorem read_acknowledge_returns_the_answer_to_read_history api entity message max_id
    clear_mentions log a :
  fst (send_read_acknowledge api entity message max_id clear_mentions log) = Returned a ->
  exists p q r,
    get_input_entity (api_client api) entity = Ok p
    /\ called (snd (send_read_acknowledge api entity message max_id clear_mentions log))
       = called log ++ (if clear_mentions then [ReadMentions p] else []) ++ [q]
    /\ (exists v, q = MessagesReadHistory p v \/ exists channel, q = ChannelsReadHistory channel v)
    /\ a = AckAnswer r
    /\ api_call api
         (List.length (called log) + (if clear_mentions then 1 else 0))%nat q = Ok r.
Proof.
  destruct (send_read_acknowledge api entity message max_id clear_mentions log)
    as [o log'] eqn:H.
  cbn [fst snd]. intros ->. unfold send_read_acknowledge in H.
  unfold op_bind at 1 in H.
  match type of H with
  | context [match ?m log with _ => _ end] =>
      destruct (m log) as [[mid | e] log0] eqn:Hmax; [| discriminate]
  end.
  assert (Hmid : exists v, mid = Some v /\ log0 = log).
  { unfold op_ret, op_bind, op_lift, op_raise in Hmax.
    destruct max_id as [v |]; [injection Hmax as <- <-; eauto |].
    destruct (no_message message); [injection Hmax as <- <-; eauto |].
    destruct message as [[m | l] |]; [| | discriminate].
    - destruct (id_of m); [injection Hmax as <- <-; eauto | discriminate].
    - destruct (ids_of_all l) as [[| i rest] |]; try discriminate.
      injection Hmax as <- <-; eauto. }
  destruct Hmid as (v & -> & ->). clear Hmax.
  unfold op_bind at 1 in H. unfold resolve at 1 in H.
  destruct (get_input_entity (api_client api) entity) as [p |]; [| discriminate].
  exists p.
  assert (Htail : forall log1,
    (match Some v with
     | Some v0 =>
         (ty <- op_lift (_entity_type (api_client api) p) ;;
          match ty with
          | CHANNEL =>
              channel <- op_lift (get_input_channel api p) ;;
              r <- send api (ChannelsReadHistory channel v0) ;;
              op_ret (AckAnswer r)
          | _ => r <- send api (MessagesReadHistory p v0) ;; op_ret (AckAnswer r)
          end)%op
     | None => op_ret (AckConstant false)
     end) log1 = (Returned a, log') ->
    exists q r,
      log' = log1 ++ [Called q]
      /\ (exists v, q = MessagesReadHistory p v
                    \/ exists channel, q = ChannelsReadHistory channel v)
      /\ a = AckAnswer r
      /\ api_call api (List.length (called log1)) q = Ok r).
  { intros log1 Hrun. unfold op_bind at 1 in Hrun. unfold op_lift at 1 in Hrun.
    destruct (_entity_type (api_client api) p) as [ty |]; [| discriminate].
    assert (Hmsg :
      (r <- send api (MessagesReadHistory p v) ;; op_ret (AckAnswer r))%op log1
      = (Returned a, log') ->
      exists q r,
        log' = log1 ++ [Called q]
        /\ (exists v, q = MessagesReadHistory p v
                      \/ exists channel, q = ChannelsReadHistory channel v)
        /\ a = AckAnswer r
        /\ api_call api (List.length (called log1)) q = Ok r).
    { intros Hm. unfold op_bind in Hm.
      destruct (send api (MessagesReadHistory p v) log1) as [[r | e] log2] eqn:Hs;
        [| discriminate].
      destruct (send_inv _ _ _ _ _ Hs) as (-> & Hcall).
      unfold op_ret in Hm. injection Hm as <- <-.
      exists (MessagesReadHistory p v), r. repeat split; eauto. }
    destruct ty; try (apply Hmsg; exact Hrun).
    unfold op_bind at 1 in Hrun. unfold op_lift at 1 in Hrun.
    destruct (get_input_channel api p) as [channel |]; [| discriminate].
    unfold op_bind in Hrun.
    destruct (send api (ChannelsReadHistory channel v) log1) as [[r | e] log2] eqn:Hs;
      [| discriminate].
    destruct (send_inv _ _ _ _ _ Hs) as (-> & Hcall).
    unfold op_ret in Hrun. injection Hrun as <- <-.
    exists (ChannelsReadHistory channel v), r. repeat split; eauto. }
  unfold op_bind at 1 in H.
  destruct clear_mentions.
  - unfold op_bind at 1 in H.
    destruct (send api (ReadMentions p) (log ++ [Resolved entity])) as [[r0 | e] log2] eqn:Hs;
      [| discriminate].
    destruct (send_inv _ _ _ _ _ Hs) as (-> & _).
    unfold op_ret at 1 in H.
    destruct (Htail _ H) as (q & r & -> & Hq & -> & Hcall).
    exists q, r. rewrite !called_called, called_resolved, <- app_assoc.
    rewrite called_called, called_resolved, length_app in Hcall.
    repeat split; assumption.
  - unfold op_ret at 1 in H.
    destruct (Htail _ H) as (q & r & -> & Hq & -> & Hcall).
    exists q, r. rewrite called_called, called_resolved.
    rewrite called_resolved, <- plus_n_O in *.
    repeat split; assumption.
Qed.

Lemma read_acknowledge_returns_the_answer_to_read_history_witness :
  let r := send_read_acknowledge (Stub.scripted [Ok (ApiBool true); Ok (AffectedMessages 4)])
             Stub.group None None true [] in
  fst r = Returned (AckAnswer (AffectedMessages 4))
  /\ exists p q a,
       get_input_entity (api_client (Stub.scripted [])) Stub.group = Ok p
       /\ called (snd r) = [] ++ [ReadMentions p] ++ [q]
       /\ (exists v, q = MessagesReadHistory p v
                     \/ exists channel, q = ChannelsReadHistory channel v)
       /\ AckAnswer (AffectedMessages 4) = AckAnswer a
       /\ api_call (Stub.scripted [Ok (ApiBool true); Ok (AffectedMessages 4)])
            (0 + 1)%nat q = Ok a.
Proof.
  cbv zeta. split; [reflexivity |].
  apply (read_acknowledge_returns_the_answer_to_read_history
           (Stub.scripted [Ok (ApiBool true); Ok (AffectedMessages 4)])
           Stub.group None None true [] (AckAnswer (AffectedMessages 4))).
  reflexivity.
Defined.




Lemma ids_of_all_with_an_int l i :
  In (AnInt i) l -> ids_of_all l = Raise (AttributeError "id").
Proof.
  induction l as [| m l IH]; intros Hin; [contradiction |].
  cbn [ids_of_all]. destruct m as [j | o | t]; try reflexivity.
  cbn [id_of]. destruct Hin as [E | Hin]; [discriminate |].
  rewrite (IH Hin). reflexivity.
Qed.

(** X18: without [max_id], integer identifiers are refused: for an
    integer that is not 0, or a list that holds an integer,
    [send_read_acknowledge] raises [AttributeError] before it resolves the
    entity, and sends nothing. *)
Theorem read_acknowledge_refuses_integer_ids api entity message clear_mentions log i :
  (message = OneMessage (AnInt i) /\ i <> 0
   \/ exists l, message = ManyMessages l /\ In (AnInt i) l) ->
  send_read_acknowledge api entity (Some message) None clear_mentions log
  = (Raised (Builtin (AttributeError "id")), log).
Proof.
  intros [(-> & Hi) | (l & -> & Hin)]; unfold send_read_acknowledge.
  - cbn [no_message]. destruct (Z.eqb_spec i 0) as [E | _]; [contradiction |].
    reflexivity.
  - assert (Hne : no_message (Some (ManyMessages l)) = false)
      by (destruct l; [contradiction | reflexivity]).
    rewrite Hne. unfold op_bind at 1. unfold op_bind at 1. unfold op_lift at 1.
    rewrite (ids_of_all_with_an_int l i Hin). reflexivity.
Qed.

Lemma read_acknowledge_refuses_integer_ids_witness :
  send_read_acknowledge (Stub.scripted []) Stub.group (Some (OneMessage (AnInt 5)))
    None false []
  = (Raised (Builtin (AttributeError "id")), [])
  /\ send_read_acknowledge (Stub.scripted []) Stub.group
       (Some (ManyMessages [AMessage (Stub.message 7 4); AnInt 5])) None true []
     = (Raised (Builtin (AttributeError "id")), []).
Proof.
  split.
  - apply (read_acknowledge_refuses_integer_ids (Stub.scripted []) Stub.group
             (OneMessage (AnInt 5)) false [] 5).
    left. split; [reflexivity | lia].
  - apply (read_acknowledge_refuses_integer_ids (Stub.scripted []) Stub.group
             (ManyMessages [AMessage (Stub.message 7 4); AnInt 5]) true [] 5).
    right. eexists. split; [reflexivity |]. simpl. right. left. reflexivity.
Defined.

(** With [max_id], the message is not looked at. *)
Example read_acknowledge_with_max_id_ignores_the_message :
  called (snd (send_read_acknowledge (Stub.scripted []) Stub.group
                 (Some (OneMessage (AnInt 5))) (Some 8) false []))
  = [MessagesReadHistory (InputPeerChat 7) 8].
Proof. reflexivity. Qed.

(** ** [pin_message] and [unpin_message] *)

(** X19: [unpin_message] never returns a message.  A call that returns
    has read the identifier of the message, resolved the entity and sent one
    request, decided by that identifier: [UnpinAllMessages] when it is absent,
    0 or negative, and otherwise [UpdatePinnedMessage] for that identifier
    with [unpin] set, silent unless [notify] is set, and [pm_oneside]
    unset. *)
Theorem unpin_message_returns_no_message api entity message notify log r :
  fst (unpin_message api entity message notify log) = Returned r ->
  r = NoMessage
  /\ exists id p,
       get_message_id api message = Ok id
       /\ get_input_entity (api_client api) entity = Ok p
       /\ snd (unpin_message api entity message notify log)
          = log ++ [Resolved entity;
                    Called (if or_0 id <=? 0 then UnpinAllMessages p
                            else UpdatePinnedMessage p (or_0 id) (negb notify) true false)].
Proof.
  destruct (unpin_message api entity message notify log) as [o log'] eqn:H.
  cbn [fst snd]. intros ->.
  unfold unpin_message, _pin in H.
  unfold op_bind at 1 in H. unfold op_lift at 1 in H.
  destruct (get_message_id api message) as [id |]; [| discriminate].
  unfold op_bind at 1 in H. unfold resolve at 1 in H.
  destruct (get_input_entity (api_client api) entity) as [p |]; [| discriminate].
  destruct (or_0 id <=? 0) eqn:Hle.
  - unfold op_bind in H.
    destruct (send api (UnpinAllMessages p) (log ++ [Resolved entity]))
      as [[a | e] log2] eqn:Hs; [| discriminate].
    destruct (send_inv _ _ _ _ _ Hs) as (-> & _). unfold op_ret in H.
    injection H as <- <-. split; [reflexivity |].
    exists id, p. rewrite Hle, <- app_assoc. split; [reflexivity |]. split; reflexivity.
  - unfold op_bind in H.
    destruct (send api (UpdatePinnedMessage p (or_0 id) (negb notify) true false)
                (log ++ [Resolved entity])) as [[a | e] log2] eqn:Hs; [| discriminate].
    destruct (send_inv _ _ _ _ _ Hs) as (-> & _). unfold op_ret in H.
    injection H as <- <-. split; [reflexivity |].
    exists id, p. rewrite Hle, <- app_assoc. split; [reflexivity |]. split; reflexivity.
Qed.

Lemma unpin_message_returns_no_message_witness :
  fst (unpin_message (Stub.scripted [Ok (Updates [UpdateOf 1])]) Stub.group
         (Some (AnInt 12)) false [])
  = Returned NoMessage
  /\ snd (unpin_message (Stub.scripted [Ok (Updates [UpdateOf 1])]) Stub.group
            (Some (AnInt 12)) false [])
     = [Resolved Stub.group;
        Called (UpdatePinnedMessage (InputPeerChat 7) 12 true true false)].
Proof.
  split; [reflexivity |].
  destruct (unpin_message_returns_no_message
              (Stub.scripted [Ok (Updates [UpdateOf 1])]) Stub.group (Some (AnInt 12))
              false [] NoMessage eq_refl) as (_ & id & p & Hid & Hp & Hlog).
  vm_compute in Hid. injection Hid as <-.
  vm_compute in Hp. injection Hp as <-.
  exact Hlog.
Defined.

(** An unpin without a message unpins all the messages of the chat. *)
Example unpin_message_without_an_id_unpins_all :
  unpin_message (Stub.scripted []) Stub.group None false []
  = (Returned NoMessage, [Resolved Stub.group; Called (UnpinAllMessages (InputPeerChat 7))]).
Proof. reflexivity. Qed.

(** X20: [pin_message] for a message whose identifier is absent, 0 or
    negative does not pin anything: it unpins all the messages of the chat,
    with [UnpinAllMessages] as its only request, and returns nothing. *)
Theorem pin_message_without_an_id_unpins_all api entity message notify pm_oneside log
    id p :
  get_message_id api message = Ok id ->
  or_0 id <= 0 ->
  get_input_entity (api_client api) entity = Ok p ->
  called (snd (pin_message api entity message notify pm_oneside log))
  = called log ++ [UnpinAllMessages p]
  /\ (forall a,
         api_call api (List.length (called log)) (UnpinAllMessages p) = Ok a ->
         fst (pin_message api entity message notify pm_oneside log) = Returned NoMessage).
Proof.
  intros Hid Hle Hp.
  destruct (pin_message api entity message notify pm_oneside log) as [o log'] eqn:H.
  cbn [fst snd]. unfold pin_message, _pin in H.
  unfold op_bind at 1 in H. unfold op_lift at 1 in H. rewrite Hid in H.
  unfold op_bind at 1 in H. unfold resolve at 1 in H. rewrite Hp in H.
  apply Z.leb_le in Hle. rewrite Hle in H.
  unfold op_bind, send, op_ret in H. rewrite called_resolved in H.
  destruct (api_call api (List.length (called log)) (UnpinAllMessages p));
    injection H as <- <-; rewrite called_called, called_resolved.
  - split; reflexivity.
  - split; [reflexivity | discriminate].
Qed.

Lemma pin_message_without_an_id_unpins_all_witness :
  called (snd (pin_message (Stub.scripted []) Stub.group None true false []))
  = [] ++ [UnpinAllMessages (InputPeerChat 7)]
  /\ (forall a,
         api_call (Stub.scripted []) 0%nat (UnpinAllMessages (InputPeerChat 7)) = Ok a ->
         fst (pin_message (Stub.scripted []) Stub.group None true false [])
         = Returned NoMessage).
Proof.
  apply (pin_message_without_an_id_unpins_all (Stub.scripted []) Stub.group None
           true false [] None (InputPeerChat 7)).
  - reflexivity.
  - simpl. lia.
  - reflexivity.
Defined.

(** ** [edit_message] *)

Lemma called_with_app l1 l2 :
  called_with (l1 ++ l2) = called_with l1 ++ called_with l2.
Proof. unfold called_with. apply flat_map_app. Qed.





Lemma op_lift_inv {A} (r : Res A) log o log' :
  op_lift r log = (o, log') ->
  log' = log
  /\ match o with Returned x => r = Ok x | Raised e => exists x, r = Raise x /\ e = Builtin x end.
Proof.
  unfold op_lift. destruct r; intros H; injection H as <- <-; split; eauto.
Qed.


(** The [try] / [finally] of lines 594-598. *)
Lemma with_borrowed_sender_inv editor dc request log o log' :
  with_borrowed_sender editor dc request log = (o, log') ->
  match _borrow_exported_sender editor dc with
  | Raise _ => o = Raised (UnboundLocalError "sender") /\ log' = log ++ [Borrowed dc]
  | Ok sender =>
      log' = log ++ [Borrowed dc; CalledWith sender request; HandedBack sender]
      /\ match o with
         | Returned r =>
             exists a, r = EditedInline a
               /\ _call editor (List.length (called_with log)) sender request = Ok a
               /\ _return_exported_sender editor sender = Ok tt
         | Raised _ => True
         end
  end.
Proof.
  unfold with_borrowed_sender, borrow, send_with, hand_back.
  destruct (_borrow_exported_sender editor dc) as [sender | e].
  - rewrite called_with_app. cbn [called_with flat_map]. rewrite app_nil_r.
    destruct (_call editor _ sender request) as [r | e];
      destruct (_return_exported_sender editor sender) as [[] | e'];
      intros H; injection H as <- <-; rewrite <- !app_assoc; cbn [app];
      split; try reflexivity; try exact I.
    exists r. repeat split.
  - intros H; injection H as <- <-. split; reflexivity.
Qed.

(** The part of [edit_message] that comes before the branch on the kind of
    message sends nothing. *)
Lemma edit_message_inline editor a id log o log' :
  ed_message a = InlineMessage id ->
  edit_message editor a log = (o, log') ->
  (log' = log
   /\ exists e, o = Raised (Builtin e)
      /\ ((match ed_formatting_entities a with
           | None => _parse_message_text editor (ed_text a) (ed_parse_mode a)
           | Some given => Ok (ed_text a, given)
           end) = Raise e
          \/ _file_to_media editor (ed_file a) = Raise e
          \/ build_reply_markup editor (ed_buttons a) = Raise e
          \/ ed_entity_dc_id a = None))
  \/ exists text entities media markup dc,
       (match ed_formatting_entities a with
        | None => _parse_message_text editor (ed_text a) (ed_parse_mode a)
        | Some given => Ok (ed_text a, given)
        end) = Ok (text, entities)
       /\ _file_to_media editor (ed_file a) = Ok media
       /\ build_reply_markup editor (ed_buttons a) = Ok markup
       /\ ed_entity_dc_id a = Some dc
       /\ let request :=
            EditInlineBotMessage id text (negb (ed_link_preview a)) entities media markup in
          if session_dc_id editor =? dc
          then (r <- send (editor_api editor) request ;; op_ret (EditedInline r))%op log
               = (o, log')
          else with_borrowed_sender editor dc request log = (o, log').
Proof.
  intros Hm. unfold edit_message. rewrite Hm.
  unfold op_bind at 1.
  set (parsing := match ed_formatting_entities a with
                  | None => op_lift _ | Some _ => _ end).
  destruct (parsing log) as [[[text entities] | e] log0] eqn:Hp.
  2:{ intros H; injection H as <- <-. left. subst parsing.
      destruct (ed_formatting_entities a); [discriminate |].
      apply op_lift_inv in Hp as (-> & x & Hx & ->). eauto 6. }
  assert (Hparsed : log0 = log
    /\ (match ed_formatting_entities a with
        | None => _parse_message_text editor (ed_text a) (ed_parse_mode a)
        | Some given => Ok (ed_text a, given)
        end) = Ok (text, entities)).
  { subst parsing. destruct (ed_formatting_entities a).
    - unfold op_ret in Hp. injection Hp as <- <- <-. split; reflexivity.
    - apply op_lift_inv in Hp as (-> & ->). split; reflexivity. }
  destruct Hparsed as (-> & Hparsed). clear Hp parsing.
  cbn [fst snd]. unfold op_bind at 1.
  destruct (op_lift (_file_to_media editor (ed_file a)) log) as [[media | e] log0] eqn:Hf.
  2:{ intros H; injection H as <- <-.
      apply op_lift_inv in Hf as (-> & x & Hx & ->). left. eauto 7. }
  apply op_lift_inv in Hf as (-> & Hf).
  unfold op_bind at 1.
  destruct (op_lift (build_reply_markup editor (ed_buttons a)) log)
    as [[markup | e] log0] eqn:Hb.
  2:{ intros H; injection H as <- <-.
      apply op_lift_inv in Hb as (-> & x & Hx & ->). left. eauto 8. }
  apply op_lift_inv in Hb as (-> & Hb).
  unfold op_bind at 1.
  destruct (ed_entity_dc_id a) as [dc |] eqn:Hdc.
  2:{ unfold op_raise. intros H; injection H as <- <-. left. eauto 9. }
  unfold op_ret at 1. intros H. right.
  exists text, entities, media, markup, dc.
  repeat (split; [assumption || reflexivity |]).
  cbv zeta. destruct (session_dc_id editor =? dc); exact H.
Qed.


(** X21: an inline edit through another datacenter loses the error of
    borrowing a sender.  When [_borrow_exported_sender] raises, whatever it
    raises, the [finally] clause of line 598 reads [sender], which was never
    bound, and [edit_message] raises [UnboundLocalError] instead; nothing is
    sent and nothing is handed back. *)
Theorem inline_edit_loses_the_error_of_borrowing editor a id dc e parsed media markup log :
  ed_message a = InlineMessage id ->
  (match ed_formatting_entities a with
   | None => _parse_message_text editor (ed_text a) (ed_parse_mode a)
   | Some given => Ok (ed_text a, given)
   end) = Ok parsed ->
  _file_to_media editor (ed_file a) = Ok media ->
  build_reply_markup editor (ed_buttons a) = Ok markup ->
  ed_entity_dc_id a = Some dc ->
  session_dc_id editor <> dc ->
  _borrow_exported_sender editor dc = Raise e ->
  edit_message editor a log = (Raised (UnboundLocalError "sender"), log ++ [Borrowed dc]).
Proof.
  intros Hm Hp Hf Hb Hdc Hne Hborrow.
  destruct (edit_message editor a log) as [o log'] eqn:H.
  apply (edit_message_inline _ _ id) in H; [| exact Hm].
  destruct H as [(_ & x & _ & [Hx | [Hx | [Hx | Hx]]])
                | (text & entities & media' & markup' & dc' & _ & _ & _ & Hdc' & H)];
    try congruence.
  rewrite Hdc in Hdc'. injection Hdc' as <-. cbv zeta in H.
  destruct (Z.eqb_spec (session_dc_id editor) dc) as [Heq | _]; [contradiction |].
  apply with_borrowed_sender_inv in H. rewrite Hborrow in H.
  destruct H as (-> & ->). reflexivity.
Qed.

Lemma inline_edit_loses_the_error_of_borrowing_witness :
  edit_message (Stub.editor (Raise (RpcError (OtherRpcError 500))) [])
    (Stub.inline_edit 4 "hi") []
  = (Raised (UnboundLocalError "sender"), [] ++ [Borrowed 4]).
Proof.
  apply (inline_edit_loses_the_error_of_borrowing
           (Stub.editor (Raise (RpcError (OtherRpcError 500))) [])
           (Stub.inline_edit 4 "hi") (InputBotInlineMessageID 4 1 1) 4
           (RpcError (OtherRpcError 500)) (Some "hi", []) None None []);
    vm_compute; reflexivity || discriminate.
Defined.


(** X23: an inline edit that returns was sent from the datacenter of the
    entity and returns the answer of the transport, not a message.  The
    entity is never resolved.  When [entity.dc_id] is the datacenter of the
    session the client sends the request itself; otherwise it borrows a
    sender for [entity.dc_id], sends the request through it and hands it
    back. *)
Theorem inline_edit_is_sent_from_the_datacenter_of_the_entity editor a id log r :
  ed_message a = InlineMessage id ->
  fst (edit_message editor a log) = Returned r ->
  exists text entities media markup dc answer,
    (match ed_formatting_entities a with
     | None => _parse_message_text editor (ed_text a) (ed_parse_mode a)
     | Some given => Ok (ed_text a, given)
     end) = Ok (text, entities)
    /\ _file_to_media editor (ed_file a) = Ok media
    /\ build_reply_markup editor (ed_buttons a) = Ok markup
    /\ ed_entity_dc_id a = Some dc
    /\ r = EditedInline answer
    /\ let request :=
         EditInlineBotMessage id text (negb (ed_link_preview a)) entities media markup in
       if session_dc_id editor =? dc
       then snd (edit_message editor a log) = log ++ [Called request]
            /\ api_call (editor_api editor) (List.length (called log)) request = Ok answer
       else exists sender,
            _borrow_exported_sender editor dc = Ok sender
            /\ snd (edit_message editor a log)
               = log ++ [Borrowed dc; CalledWith sender request; HandedBack sender]
            /\ _call editor (List.length (called_with log)) sender request = Ok answer
            /\ _return_exported_sender editor sender = Ok tt.
Proof.
  intros Hm. destruct (edit_message editor a log) as [o log'] eqn:H. cbn [fst snd].
  intros ->.
  apply (edit_message_inline _ _ id) in H; [| exact Hm].
  destruct H as [(_ & x & Hx & _)
                | (text & entities & media & markup & dc & Hp & Hf & Hb & Hdc & H)];
    [discriminate |].
  cbv zeta in H. exists text, entities, media, markup, dc.
  destruct (session_dc_id editor =? dc).
  - unfold op_bind in H.
    match type of H with
    | context [send ?x ?q ?l] =>
        destruct (send x q l) as [[result | e] log0] eqn:Hs; [| discriminate];
        apply send_inv in Hs as (-> & Hs)
    end.
    unfold op_ret in H. injection H as <- <-.
    exists result. do 5 (split; [assumption || reflexivity |]).
    cbv zeta. split; [reflexivity | exact Hs].
  - apply with_borrowed_sender_inv in H.
    destruct (_borrow_exported_sender editor dc) as [sender | e].
    + destruct H as (-> & answer & -> & Hcall & Hback).
      exists answer. do 5 (split; [assumption || reflexivity |]).
      cbv zeta. exists sender. repeat split; assumption.
    + destruct H as (H & _). discriminate.
Qed.

Lemma inline_edit_is_sent_from_the_datacenter_of_the_entity_witness :
  ed_message Stub.hello = InlineMessage (InputBotInlineMessageID 4 1 1)
  /\ fst (edit_message Stub.borrowing Stub.hello []) = Returned (EditedInline (ApiBool true))
  /\ exists text entities media markup dc answer,
       (match ed_formatting_entities Stub.hello with
        | None =>
            _parse_message_text Stub.borrowing (ed_text Stub.hello) (ed_parse_mode Stub.hello)
        | Some given => Ok (ed_text Stub.hello, given)
        end) = Ok (text, entities)
       /\ _file_to_media Stub.borrowing (ed_file Stub.hello) = Ok media
       /\ build_reply_markup Stub.borrowing (ed_buttons Stub.hello) = Ok markup
       /\ ed_entity_dc_id Stub.hello = Some dc
       /\ EditedInline (ApiBool true) = EditedInline answer
       /\ let request :=
            EditInlineBotMessage (InputBotInlineMessageID 4 1 1) text
              (negb (ed_link_preview Stub.hello)) entities media markup in
          if session_dc_id Stub.borrowing =? dc
          then snd (edit_message Stub.borrowing Stub.hello []) = [] ++ [Called request]
               /\ api_call (editor_api Stub.borrowing) (List.length (called [])) request
                  = Ok answer
          else exists sender,
               _borrow_exported_sender Stub.borrowing dc = Ok sender
               /\ snd (edit_message Stub.borrowing Stub.hello [])
                  = [] ++ [Borrowed dc; CalledWith sender request; HandedBack sender]
               /\ _call Stub.borrowing (List.length (called_with [])) sender request
                  = Ok answer
               /\ _return_exported_sender Stub.borrowing sender = Ok tt.
Proof.
  split; [reflexivity |]. split; [vm_compute; reflexivity |].
  apply (inline_edit_is_sent_from_the_datacenter_of_the_entity
           Stub.borrowing Stub.hello (InputBotInlineMessageID 4 1 1) []
           (EditedInline (ApiBool true)));
    vm_compute; reflexivity.
Defined.
